(** * pymachinetalk: connection state machines of [application.py]

    A shallow embedding of the three endpoints of [src/application.py]
    ([ApplicationStatus], [ApplicationCommand], [ApplicationError]) as
    explicit state-passing functions over records, followed by the
    properties of the specification that are checked against them.

    Conventions of the embedding:
    - every method [m(self, args)] becomes [m args (s : t) : t] inside the
      module named after its class; methods that can raise return an
      [outcome], which carries the state the exception leaves behind;
    - what the environment decides is an argument: a method of the command
      endpoint that sends takes whether its send goes through, and the
      command operations are parametrised by the checks protobuf makes on
      an assignment to a field;
    - [print] calls and the [debug] flag only write to standard output and
      are left out;
    - the ZeroMQ socket of an endpoint is the chronological list of the
      operations performed on it ([sock_op]);
    - a [threading.Timer] is a [Timer] record holding its delay and whether
      it is still pending; the expiry of a pending timer is an event of the
      endpoint's transition system;
    - one transition of an endpoint is one whole method call, one processed
      message or one timer expiry (the interleaving of threads inside a
      method is not modelled). *)

From Stdlib Require Import ZArith String List Bool Floats Lia.
From stdpp Require Import base gmap sets list strings.
Open Scope string_scope.
Open Scope Z_scope.
Set Warnings "-clear-no-such-hyp".

(* ================================================================== *)
(** * Part I: the embedding                                            *)
(* ================================================================== *)

(** ** Values and messages *)

(** Python values that the command API stores in protobuf fields. *)
Inductive pyval :=
| PInt (z : Z)
| PFloat (f : float)
| PStr (s : string)
| PBool (b : bool).

(** Modelled from the spec: [types_pb2] is not part of the sources.  The
    message-type discriminator is a closed enumeration; the enumerators are
    the names the source refers to, [MT_OTHER] stands for every other code
    of the enumeration. *)
Inductive ContainerType :=
| MT_PING | MT_PING_ACKNOWLEDGE | MT_ERROR | MT_SHUTDOWN
| MT_EMCSTAT_FULL_UPDATE | MT_EMCSTAT_INCREMENTAL_UPDATE
| MT_EMC_NML_ERROR | MT_EMC_NML_TEXT | MT_EMC_NML_DISPLAY
| MT_EMC_OPERATOR_ERROR | MT_EMC_OPERATOR_TEXT | MT_EMC_OPERATOR_DISPLAY
| MT_EMC_TASK_ABORT | MT_EMC_TASK_PLAN_RUN | MT_EMC_TASK_PLAN_PAUSE
| MT_EMC_TASK_PLAN_STEP | MT_EMC_TASK_RESUME | MT_EMC_TASK_PLAN_INIT
| MT_EMC_TASK_SET_MODE | MT_EMC_TASK_SET_STATE | MT_EMC_TASK_PLAN_OPEN
| MT_EMC_TASK_PLAN_EXECUTE | MT_EMC_SPINDLE_BRAKE_ENGAGE
| MT_EMC_SPINDLE_BRAKE_RELEASE | MT_EMC_SET_DEBUG | MT_EMC_TRAJ_SET_SCALE
| MT_EMC_COOLANT_FLOOD_ON | MT_EMC_COOLANT_FLOOD_OFF | MT_EMC_AXIS_HOME
| MT_EMC_AXIS_ABORT | MT_EMC_AXIS_JOG | MT_EMC_AXIS_INCR_JOG
| MT_EMC_TOOL_LOAD_TOOL_TABLE | MT_EMC_TRAJ_SET_MAX_VELOCITY
| MT_EMC_COOLANT_MIST_ON | MT_EMC_COOLANT_MIST_OFF
| MT_EMC_AXIS_OVERRIDE_LIMITS | MT_EMC_MOTION_ADAPTIVE
| MT_EMC_MOTION_SET_AOUT | MT_EMC_TASK_PLAN_SET_BLOCK_DELETE
| MT_EMC_MOTION_SET_DOUT | MT_EMC_TRAJ_SET_FH_ENABLE
| MT_EMC_TRAJ_SET_FO_ENABLE | MT_EMC_AXIS_SET_MAX_POSITION_LIMIT
| MT_EMC_AXIS_SET_MIN_POSITION_LIMIT | MT_EMC_TASK_PLAN_SET_OPTIONAL_STOP
| MT_EMC_TRAJ_SET_SO_ENABLE | MT_EMC_SPINDLE_ON | MT_EMC_SPINDLE_OFF
| MT_EMC_SPINDLE_INCREASE | MT_EMC_SPINDLE_DECRESE | MT_EMC_SPINDLE_CONSTANT
| MT_EMC_TRAJ_SET_SPINDLE_SCALE | MT_EMC_TRAJ_SET_TELEOP_ENABLE
| MT_EMC_TRAJ_SET_TELEOP_VECTOR | MT_EMC_TOOL_SET_OFFSET
| MT_EMC_TRAJ_SET_MODE | MT_EMC_AXIS_UNHOME
| MT_OTHER (code : Z).

(** Modelled from the spec: [status_pb2] is not part of the sources.  A
    channel payload ([EmcStatusMotion], [EmcStatusTask], ...) is a
    structured snapshot with a merge-from operation (field-by-field
    overwrite, leaving unspecified fields intact) and a clear operation;
    it is kept as the finite map of the fields that are set. *)
Abbreviation EmcStatus := (gmap string Z).

Definition MergeFrom (data mirror : EmcStatus) : EmcStatus := data ∪ mirror.
Definition ClearStatus : EmcStatus := ∅.

(** Modelled from the spec: the enumerators of [status_pb2] read by
    [update_running], and the value an unset enum field reads as.  No
    result below depends on the codes. *)
Definition EMC_TASK_MODE_MANUAL : Z := 1.
Definition EMC_TASK_MODE_AUTO : Z := 2.
Definition EMC_TASK_MODE_MDI : Z := 3.
Definition EMC_TASK_INTERP_IDLE : Z := 1.

Definition task_mode (task : EmcStatus) : Z :=
  default EMC_TASK_MODE_MANUAL (task !! "task_mode").
Definition interp_state (interp : EmcStatus) : Z :=
  default EMC_TASK_INTERP_IDLE (interp !! "interp_state").

(** The part of [message_pb2.Container] that the source reads or writes.
    An optional sub-message is [None] when [HasField] is false;
    [emc_command_params] is the map of the parameter fields that were
    assigned (nested fields under their dotted path), empty when the block
    is absent; [pparams] carries [pparams.keepalive_timer]. *)
Record Container := mkContainer {
  c_type : option ContainerType;
  c_interp_name : option pyval;
  c_note : list string;
  c_pparams : option Z;
  c_emc_command_params : gmap string pyval;
  c_emc_status_motion : option EmcStatus;
  c_emc_status_config : option EmcStatus;
  c_emc_status_io : option EmcStatus;
  c_emc_status_task : option EmcStatus;
  c_emc_status_interp : option EmcStatus
}.

(** [Container()] and the result of [Container.Clear()]. *)
Definition empty_container : Container :=
  mkContainer None None [] None ∅ None None None None None.

(** ** Sockets, timers, threads *)

Inductive sock_op :=
| SockConnect (uri : string)
| SockDisconnect (uri : string)
| SockSubscribe (topic : string)
| SockUnsubscribe (topic : string)
| SockSend (msg : Container)
| SockIdentity (client_id : string).

(** [threading.Timer(period / 1000, tick)]: the delay in seconds (integer
    division, the periods are integers) and whether the timer has been
    started and has neither fired nor been cancelled. *)
Record Timer := mkTimer { timer_delay : Z; timer_pending : bool }.

Definition new_timer (period : Z) : Timer := mkTimer (period / 1000) true.
Definition cancel (t : Timer) : Timer := mkTimer (timer_delay t) false.
Definition fired (t : Timer) : Timer := mkTimer (timer_delay t) false.

(** A method call either returns or raises; both leave a state behind. *)
Inductive outcome (A : Type) :=
| Returned (a : A)
| Raised (a : A).
Arguments Returned {A} a.
Arguments Raised {A} a.

Definition state_of {A} (o : outcome A) : A :=
  match o with Returned a | Raised a => a end.

Definition returned {A} (o : outcome A) : bool :=
  match o with Returned _ => true | Raised _ => false end.

(** [self.threads] is the list of [Thread] objects, each with its started
    flag.  [for thread in threads: thread.start()] raises [RuntimeError] at
    the first thread that was already started; the result is the list as
    left behind and whether the loop raised. *)
Fixpoint start_threads (ts : list bool) : list bool * bool :=
  match ts with
  | [] => ([], false)
  | started :: rest =>
      if started then (ts, true)
      else let '(rest', raised) := start_threads rest in
           (true :: rest', raised)
  end.

(** [for thread in threads: thread.join()] raises at the first thread
    that was never started. *)
Definition join_threads (ts : list bool) : bool := forallb id ts.

(** A worker polls the socket while some started thread runs its loop and
    the shutdown event is clear. *)
Definition worker_polls (ts : list bool) (shutdown : bool) : bool :=
  existsb id ts && negb shutdown.

(** A thread list that holds both a started and a never-started thread:
    the start loop raises at the former, the join loop at the latter. *)
Definition wedged (ts : list bool) : bool := existsb id ts && existsb negb ts.

(* ------------------------------------------------------------------ *)
(** ** class ApplicationStatus *)
(* ------------------------------------------------------------------ *)

Module ApplicationStatus.

Record t := mk {
  threads : list bool;
  shutdown : bool;
  is_ready : bool;
  synced : bool;
  connected : bool;
  state : string;
  status_state : string;
  running : bool;
  _io : EmcStatus;
  _config : EmcStatus;
  _motion : EmcStatus;
  _task : EmcStatus;
  _interp : EmcStatus;
  status_uri : string;
  status_period : Z;
  status_timer : option Timer;
  subscriptions : gset string;
  synced_channels : gset string;
  rx : Container;
  status_socket : list sock_op;
  sockets_connected : bool
}.

(** [self.channels] is assigned once by [__init__] and never changed. *)
Definition channels : gset string :=
  {[ "motion"; "config"; "io"; "task"; "interp" ]}.

Definition init : t :=
  mk [] false false false false "Disconnected" "Down" false
     ClearStatus ClearStatus ClearStatus ClearStatus ClearStatus
     "" 0 None ∅ ∅ empty_container [] false.

Definition set_threads v s :=
  mk v (shutdown s) (is_ready s) (synced s) (connected s) (state s)
     (status_state s) (running s) (_io s) (_config s) (_motion s) (_task s)
     (_interp s) (status_uri s) (status_period s) (status_timer s)
     (subscriptions s) (synced_channels s) (rx s) (status_socket s)
     (sockets_connected s).
Definition set_shutdown v s :=
  mk (threads s) v (is_ready s) (synced s) (connected s) (state s)
     (status_state s) (running s) (_io s) (_config s) (_motion s) (_task s)
     (_interp s) (status_uri s) (status_period s) (status_timer s)
     (subscriptions s) (synced_channels s) (rx s) (status_socket s)
     (sockets_connected s).
Definition set_is_ready v s :=
  mk (threads s) (shutdown s) v (synced s) (connected s) (state s)
     (status_state s) (running s) (_io s) (_config s) (_motion s) (_task s)
     (_interp s) (status_uri s) (status_period s) (status_timer s)
     (subscriptions s) (synced_channels s) (rx s) (status_socket s)
     (sockets_connected s).
Definition set_synced v s :=
  mk (threads s) (shutdown s) (is_ready s) v (connected s) (state s)
     (status_state s) (running s) (_io s) (_config s) (_motion s) (_task s)
     (_interp s) (status_uri s) (status_period s) (status_timer s)
     (subscriptions s) (synced_channels s) (rx s) (status_socket s)
     (sockets_connected s).
Definition set_connected v s :=
  mk (threads s) (shutdown s) (is_ready s) (synced s) v (state s)
     (status_state s) (running s) (_io s) (_config s) (_motion s) (_task s)
     (_interp s) (status_uri s) (status_period s) (status_timer s)
     (subscriptions s) (synced_channels s) (rx s) (status_socket s)
     (sockets_connected s).
Definition set_state v s :=
  mk (threads s) (shutdown s) (is_ready s) (synced s) (connected s) v
     (status_state s) (running s) (_io s) (_config s) (_motion s) (_task s)
     (_interp s) (status_uri s) (status_period s) (status_timer s)
     (subscriptions s) (synced_channels s) (rx s) (status_socket s)
     (sockets_connected s).
Definition set_status_state v s :=
  mk (threads s) (shutdown s) (is_ready s) (synced s) (connected s)
     (state s) v (running s) (_io s) (_config s) (_motion s) (_task s)
     (_interp s) (status_uri s) (status_period s) (status_timer s)
     (subscriptions s) (synced_channels s) (rx s) (status_socket s)
     (sockets_connected s).
Definition set_running v s :=
  mk (threads s) (shutdown s) (is_ready s) (synced s) (connected s)
     (state s) (status_state s) v (_io s) (_config s) (_motion s) (_task s)
     (_interp s) (status_uri s) (status_period s) (status_timer s)
     (subscriptions s) (synced_channels s) (rx s) (status_socket s)
     (sockets_connected s).
Definition set_io v s :=
  mk (threads s) (shutdown s) (is_ready s) (synced s) (connected s)
     (state s) (status_state s) (running s) v (_config s) (_motion s)
     (_task s) (_interp s) (status_uri s) (status_period s)
     (status_timer s) (subscriptions s) (synced_channels s) (rx s)
     (status_socket s) (sockets_connected s).
Definition set_config v s :=
  mk (threads s) (shutdown s) (is_ready s) (synced s) (connected s)
     (state s) (status_state s) (running s) (_io s) v (_motion s) (_task s)
     (_interp s) (status_uri s) (status_period s) (status_timer s)
     (subscriptions s) (synced_channels s) (rx s) (status_socket s)
     (sockets_connected s).
Definition set_motion v s :=
  mk (threads s) (shutdown s) (is_ready s) (synced s) (connected s)
     (state s) (status_state s) (running s) (_io s) (_config s) v (_task s)
     (_interp s) (status_uri s) (status_period s) (status_timer s)
     (subscriptions s) (synced_channels s) (rx s) (status_socket s)
     (sockets_connected s).
Definition set_task v s :=
  mk (threads s) (shutdown s) (is_ready s) (synced s) (connected s)
     (state s) (status_state s) (running s) (_io s) (_config s) (_motion s)
     v (_interp s) (status_uri s) (status_period s) (status_timer s)
     (subscriptions s) (synced_channels s) (rx s) (status_socket s)
     (sockets_connected s).
Definition set_interp v s :=
  mk (threads s) (shutdown s) (is_ready s) (synced s) (connected s)
     (state s) (status_state s) (running s) (_io s) (_config s) (_motion s)
     (_task s) v (status_uri s) (status_period s) (status_timer s)
     (subscriptions s) (synced_channels s) (rx s) (status_socket s)
     (sockets_connected s).
Definition set_status_uri v s :=
  mk (threads s) (shutdown s) (is_ready s) (synced s) (connected s)
     (state s) (status_state s) (running s) (_io s) (_config s) (_motion s)
     (_task s) (_interp s) v (status_period s) (status_timer s)
     (subscriptions s) (synced_channels s) (rx s) (status_socket s)
     (sockets_connected s).
Definition set_status_period v s :=
  mk (threads s) (shutdown s) (is_ready s) (synced s) (connected s)
     (state s) (status_state s) (running s) (_io s) (_config s) (_motion s)
     (_task s) (_interp s) (status_uri s) v (status_timer s)
     (subscriptions s) (synced_channels s) (rx s) (status_socket s)
     (sockets_connected s).
Definition set_status_timer v s :=
  mk (threads s) (shutdown s) (is_ready s) (synced s) (connected s)
     (state s) (status_state s) (running s) (_io s) (_config s) (_motion s)
     (_task s) (_interp s) (status_uri s) (status_period s) v
     (subscriptions s) (synced_channels s) (rx s) (status_socket s)
     (sockets_connected s).
Definition set_subscriptions v s :=
  mk (threads s) (shutdown s) (is_ready s) (synced s) (connected s)
     (state s) (status_state s) (running s) (_io s) (_config s) (_motion s)
     (_task s) (_interp s) (status_uri s) (status_period s)
     (status_timer s) v (synced_channels s) (rx s) (status_socket s)
     (sockets_connected s).
Definition set_synced_channels v s :=
  mk (threads s) (shutdown s) (is_ready s) (synced s) (connected s)
     (state s) (status_state s) (running s) (_io s) (_config s) (_motion s)
     (_task s) (_interp s) (status_uri s) (status_period s)
     (status_timer s) (subscriptions s) v (rx s) (status_socket s)
     (sockets_connected s).
Definition set_rx v s :=
  mk (threads s) (shutdown s) (is_ready s) (synced s) (connected s)
     (state s) (status_state s) (running s) (_io s) (_config s) (_motion s)
     (_task s) (_interp s) (status_uri s) (status_period s)
     (status_timer s) (subscriptions s) (synced_channels s) v
     (status_socket s) (sockets_connected s).
Definition set_status_socket v s :=
  mk (threads s) (shutdown s) (is_ready s) (synced s) (connected s)
     (state s) (status_state s) (running s) (_io s) (_config s) (_motion s)
     (_task s) (_interp s) (status_uri s) (status_period s)
     (status_timer s) (subscriptions s) (synced_channels s) (rx s) v
     (sockets_connected s).
Definition set_sockets_connected v s :=
  mk (threads s) (shutdown s) (is_ready s) (synced s) (connected s)
     (state s) (status_state s) (running s) (_io s) (_config s) (_motion s)
     (_task s) (_interp s) (status_uri s) (status_period s)
     (status_timer s) (subscriptions s) (synced_channels s) (rx s)
     (status_socket s) v.

(** One operation on [self.status_socket]. *)
Definition sock (op : sock_op) (s : t) : t :=
  set_status_socket (status_socket s ++ [op]) s.

Definition update_running (s : t) : t :=
  let running :=
    ((task_mode (_task s) =? EMC_TASK_MODE_AUTO)
     || (task_mode (_task s) =? EMC_TASK_MODE_MDI))
    && (interp_state (_interp s) =? EMC_TASK_INTERP_IDLE) in
  set_running running s.

Definition update_motion (data : EmcStatus) (s : t) : t :=
  set_motion (MergeFrom data (_motion s)) s.

Definition update_config (data : EmcStatus) (s : t) : t :=
  set_config (MergeFrom data (_config s)) s.

Definition update_io (data : EmcStatus) (s : t) : t :=
  set_io (MergeFrom data (_io s)) s.

Definition update_task (data : EmcStatus) (s : t) : t :=
  update_running (set_task (MergeFrom data (_task s)) s).

Definition update_interp (data : EmcStatus) (s : t) : t :=
  update_running (set_interp (MergeFrom data (_interp s)) s).

Definition update_sync (channel : string) (s : t) : t :=
  let s := set_synced_channels ({[ channel ]} ∪ synced_channels s) s in
  if bool_decide (synced_channels s = channels) then set_synced true s else s.

Definition clear_sync (s : t) : t :=
  set_synced_channels ∅ (set_synced false s).

Definition start_status_heartbeat (interval : Z) (s : t) : t :=
  let s := match status_timer s with
           | Some tm => set_status_timer (Some (cancel tm)) s
           | None => s
           end in
  let s := set_status_period interval s in
  if 0 <? interval
  then set_status_timer (Some (new_timer interval)) s
  else s.

Definition refresh_status_heartbeat (s : t) : t :=
  match status_timer s with
  | Some _ => set_status_timer (Some (new_timer (status_period s))) s
  | None => s
  end.

Definition stop_status_heartbeat (s : t) : t :=
  match status_timer s with
  | Some _ => set_status_timer None s
  | None => s
  end.

Definition clear_mirrors (s : t) : t :=
  let s := set_motion ClearStatus s in
  let s := set_config ClearStatus s in
  let s := set_io ClearStatus s in
  let s := set_task ClearStatus s in
  set_interp ClearStatus s.

Definition update_state (new : string) (s : t) : t :=
  if String.eqb new (state s) then s
  else
    let s := set_state new s in
    if String.eqb new "Connected" then set_connected true s
    else if connected s then
      let s := set_connected false s in
      let s := stop_status_heartbeat s in
      let s := clear_sync s in
      let s := set_status_period 0 s in
      if negb (String.eqb new "Timeout") then clear_mirrors s else s
    else s.

Definition status_timer_tick (s : t) : t :=
  update_state "Timeout" (set_status_state "Down" s).

(** The iteration order over a Python set is that of [elements] here; no
    result depends on it. *)
Definition subscribe (s : t) : t :=
  let s := set_status_state "Trying" s in
  fold_left
    (fun s channel =>
       set_subscriptions ({[ channel ]} ∪ subscriptions s)
         (sock (SockSubscribe channel) s))
    (elements channels) s.

Definition clear_subscription (subscription : string) (s : t) : t :=
  if String.eqb subscription "motion" then set_motion ClearStatus s
  else if String.eqb subscription "config" then set_config ClearStatus s
  else if String.eqb subscription "io" then set_io ClearStatus s
  else if String.eqb subscription "task" then set_task ClearStatus s
  else if String.eqb subscription "interp" then set_interp ClearStatus s
  else s.

Definition unsubscribe (s : t) : t :=
  let s := set_status_state "Down" s in
  let s := fold_left
             (fun s subscription =>
                clear_subscription subscription
                  (sock (SockUnsubscribe subscription) s))
             (elements (subscriptions s)) s in
  set_subscriptions ∅ s.

Definition is_full_update (ty : option ContainerType) : bool :=
  match ty with Some MT_EMCSTAT_FULL_UPDATE => true | _ => false end.

(** [if topic == name and self.rx.HasField(...)]: merge the payload and,
    for a full update, record the channel in the sync set.  [self.rx] holds
    the decoded message [msg] throughout [process_status]. *)
Definition channel_update (topic name : string) (msg : Container)
    (payload : option EmcStatus) (update : EmcStatus -> t -> t) (s : t) : t :=
  if String.eqb topic name then
    match payload with
    | Some data =>
        let s := update data s in
        if is_full_update (c_type msg) then update_sync name s else s
    | None => s
    end
  else s.

Definition process_status (topic : string) (msg : Container) (s : t) : t :=
  let s := set_rx msg s in
  match c_type msg with
  | Some MT_EMCSTAT_FULL_UPDATE | Some MT_EMCSTAT_INCREMENTAL_UPDATE =>
      let s := channel_update topic "motion" msg (c_emc_status_motion msg)
                 update_motion s in
      let s := channel_update topic "config" msg (c_emc_status_config msg)
                 update_config s in
      let s := channel_update topic "io" msg (c_emc_status_io msg)
                 update_io s in
      let s := channel_update topic "task" msg (c_emc_status_task msg)
                 update_task s in
      let s := channel_update topic "interp" msg (c_emc_status_interp msg)
                 update_interp s in
      if is_full_update (c_type msg) then
        let s := if negb (String.eqb (status_state s) "Up")
                 then update_state "Connected" (set_status_state "Up" s)
                 else s in
        match c_pparams msg with
        | Some interval => start_status_heartbeat (interval * 2) s
        | None => s
        end
      else refresh_status_heartbeat s
  | Some MT_PING =>
      if String.eqb (status_state s) "Up" then refresh_status_heartbeat s
      else subscribe (unsubscribe (update_state "Connecting" s))
  | _ => s
  end.

Definition connect_sockets (s : t) : bool * t :=
  let s := set_sockets_connected true s in
  (true, sock (SockConnect (status_uri s)) s).

Definition disconnect_sockets (s : t) : t :=
  if sockets_connected s
  then set_sockets_connected false (sock (SockDisconnect (status_uri s)) s)
  else s.

Definition cleanup (s : t) : t :=
  let s := if connected s then unsubscribe s else s in
  let s := disconnect_sockets s in
  set_subscriptions ∅ s.

Definition start (s : t) : outcome t :=
  let s := set_status_state "Trying" s in
  let s := update_state "Connecting" s in
  let '(ok, s) := connect_sockets s in
  if ok then
    let s := set_shutdown false s in
    let s := set_threads (threads s ++ [false]) s in
    let '(ts, raised) := start_threads (threads s) in
    let s := set_threads ts s in
    if raised then Raised s else Returned (subscribe s)
  else Returned s.

Definition stop (s : t) : outcome t :=
  let s := set_is_ready false s in
  let s := set_shutdown true s in
  if join_threads (threads s) then
    let s := set_threads [] s in
    let s := cleanup s in
    Returned (update_state "Disconnected" s)
  else Raised s.

Definition ready (s : t) : outcome t :=
  if is_ready s then Returned s else start (set_is_ready true s).

(** The transition system of the endpoint. *)
Inductive event :=
| SetUri (uri : string)
| Ready
| Start
| Stop
| Receive (topic : string) (msg : Container)
| TimerExpires.

Definition handle (e : event) (s : t) : option t :=
  match e with
  | SetUri uri => Some (set_status_uri uri s)
  | Ready => Some (state_of (ready s))
  | Start => Some (state_of (start s))
  | Stop => Some (state_of (stop s))
  | Receive topic msg =>
      if worker_polls (threads s) (shutdown s)
      then Some (process_status topic msg s) else None
  | TimerExpires =>
      match status_timer s with
      | Some tm =>
          if timer_pending tm
          then Some (status_timer_tick (set_status_timer (Some (fired tm)) s))
          else None
      | None => None
      end
  end.

Fixpoint run (es : list event) (s : t) : option t :=
  match es with
  | [] => Some s
  | e :: es' => match handle e s with Some s' => run es' s' | None => None end
  end.

Inductive reachable : t -> Prop :=
| reachable_init : reachable init
| reachable_step s e s' : reachable s -> handle e s = Some s' -> reachable s'.

End ApplicationStatus.

(* ------------------------------------------------------------------ *)
(** ** class ApplicationCommand *)
(* ------------------------------------------------------------------ *)

Module ApplicationCommand.

Definition RELEASE_BRAKE : Z := 0.
Definition ENGAGE_BRAKE : Z := 1.

Definition STOP_JOG : Z := 0.
Definition CONTINOUS_JOG : Z := 1.
Definition INCREMENT_JOG : Z := 2.

Definition SPINDLE_FORWARD : Z := 0.
Definition SPINDLE_REVERSE : Z := 1.
Definition SPINDLE_OFF : Z := 2.
Definition SPINDLE_DECREASE : Z := 3.
Definition SPINDLE_INCREASE : Z := 4.
Definition SPINDLE_CONSTANT : Z := 5.

Record t := mk {
  threads : list bool;
  shutdown_event : bool;
  is_ready : bool;
  connected : bool;
  state : string;
  command_state : string;
  command_uri : string;
  heartbeat_period : Z;
  ping_error_count : Z;
  ping_error_threshold : Z;
  heartbeat_timer : option Timer;
  rx : Container;
  tx : Container;
  command_socket : list sock_op;
  sockets_connected : bool
}.

(** [client_id] is ['%s-%s' % (platform.node(), uuid.uuid4())], computed by
    the caller of the model and stamped on the socket as its identity. *)
Definition init (client_id : string) : t :=
  mk [] false false false "Disconnected" "Down" "" 3000 0 2 None
     empty_container empty_container [SockIdentity client_id] false.

Definition set_threads v s :=
  mk v (shutdown_event s) (is_ready s) (connected s) (state s)
     (command_state s) (command_uri s) (heartbeat_period s)
     (ping_error_count s) (ping_error_threshold s) (heartbeat_timer s)
     (rx s) (tx s) (command_socket s) (sockets_connected s).
Definition set_shutdown_event v s :=
  mk (threads s) v (is_ready s) (connected s) (state s) (command_state s)
     (command_uri s) (heartbeat_period s) (ping_error_count s)
     (ping_error_threshold s) (heartbeat_timer s) (rx s) (tx s)
     (command_socket s) (sockets_connected s).
Definition set_is_ready v s :=
  mk (threads s) (shutdown_event s) v (connected s) (state s)
     (command_state s) (command_uri s) (heartbeat_period s)
     (ping_error_count s) (ping_error_threshold s) (heartbeat_timer s)
     (rx s) (tx s) (command_socket s) (sockets_connected s).
Definition set_connected v s :=
  mk (threads s) (shutdown_event s) (is_ready s) v (state s)
     (command_state s) (command_uri s) (heartbeat_period s)
     (ping_error_count s) (ping_error_threshold s) (heartbeat_timer s)
     (rx s) (tx s) (command_socket s) (sockets_connected s).
Definition set_state v s :=
  mk (threads s) (shutdown_event s) (is_ready s) (connected s) v
     (command_state s) (command_uri s) (heartbeat_period s)
     (ping_error_count s) (ping_error_threshold s) (heartbeat_timer s)
     (rx s) (tx s) (command_socket s) (sockets_connected s).
Definition set_command_state v s :=
  mk (threads s) (shutdown_event s) (is_ready s) (connected s) (state s) v
     (command_uri s) (heartbeat_period s) (ping_error_count s)
     (ping_error_threshold s) (heartbeat_timer s) (rx s) (tx s)
     (command_socket s) (sockets_connected s).
Definition set_command_uri v s :=
  mk (threads s) (shutdown_event s) (is_ready s) (connected s) (state s)
     (command_state s) v (heartbeat_period s) (ping_error_count s)
     (ping_error_threshold s) (heartbeat_timer s) (rx s) (tx s)
     (command_socket s) (sockets_connected s).
Definition set_heartbeat_period v s :=
  mk (threads s) (shutdown_event s) (is_ready s) (connected s) (state s)
     (command_state s) (command_uri s) v (ping_error_count s)
     (ping_error_threshold s) (heartbeat_timer s) (rx s) (tx s)
     (command_socket s) (sockets_connected s).
Definition set_ping_error_count v s :=
  mk (threads s) (shutdown_event s) (is_ready s) (connected s) (state s)
     (command_state s) (command_uri s) (heartbeat_period s) v
     (ping_error_threshold s) (heartbeat_timer s) (rx s) (tx s)
     (command_socket s) (sockets_connected s).
Definition set_ping_error_threshold v s :=
  mk (threads s) (shutdown_event s) (is_ready s) (connected s) (state s)
     (command_state s) (command_uri s) (heartbeat_period s)
     (ping_error_count s) v (heartbeat_timer s) (rx s) (tx s)
     (command_socket s) (sockets_connected s).
Definition set_heartbeat_timer v s :=
  mk (threads s) (shutdown_event s) (is_ready s) (connected s) (state s)
     (command_state s) (command_uri s) (heartbeat_period s)
     (ping_error_count s) (ping_error_threshold s) v (rx s) (tx s)
     (command_socket s) (sockets_connected s).
Definition set_rx v s :=
  mk (threads s) (shutdown_event s) (is_ready s) (connected s) (state s)
     (command_state s) (command_uri s) (heartbeat_period s)
     (ping_error_count s) (ping_error_threshold s) (heartbeat_timer s) v
     (tx s) (command_socket s) (sockets_connected s).
Definition set_tx v s :=
  mk (threads s) (shutdown_event s) (is_ready s) (connected s) (state s)
     (command_state s) (command_uri s) (heartbeat_period s)
     (ping_error_count s) (ping_error_threshold s) (heartbeat_timer s)
     (rx s) v (command_socket s) (sockets_connected s).
Definition set_command_socket v s :=
  mk (threads s) (shutdown_event s) (is_ready s) (connected s) (state s)
     (command_state s) (command_uri s) (heartbeat_period s)
     (ping_error_count s) (ping_error_threshold s) (heartbeat_timer s)
     (rx s) (tx s) v (sockets_connected s).
Definition set_sockets_connected v s :=
  mk (threads s) (shutdown_event s) (is_ready s) (connected s) (state s)
     (command_state s) (command_uri s) (heartbeat_period s)
     (ping_error_count s) (ping_error_threshold s) (heartbeat_timer s)
     (rx s) (tx s) (command_socket s) v.

(** One operation on [self.command_socket]. *)
Definition sock (op : sock_op) (s : t) : t :=
  set_command_socket (command_socket s ++ [op]) s.

(** Sequencing of statements that may raise: the statements after the
    one that raised are not executed. *)
Definition and_then (o : outcome t) (f : t -> outcome t) : outcome t :=
  match o with
  | Returned s => f s
  | Raised s => Raised s
  end.

#[local] Notation "'perform' s <- o ;; k" := (and_then o (fun s => k))
  (at level 10, s name, o at level 99, k at level 200, only parsing).

(** Writes to the outbound container [self.tx].  [self.tx.type = ty] is
    always given a code of the enumeration and cannot raise. *)
Definition tx_type (ty : ContainerType) (s : t) : t :=
  let c := tx s in
  set_tx (mkContainer (Some ty) (c_interp_name c) (c_note c) (c_pparams c)
            (c_emc_command_params c) (c_emc_status_motion c)
            (c_emc_status_config c) (c_emc_status_io c)
            (c_emc_status_task c) (c_emc_status_interp c)) s.

Definition write_interp_name (v : pyval) (s : t) : t :=
  let c := tx s in
  set_tx (mkContainer (c_type c) (Some v) (c_note c) (c_pparams c)
            (c_emc_command_params c) (c_emc_status_motion c)
            (c_emc_status_config c) (c_emc_status_io c)
            (c_emc_status_task c) (c_emc_status_interp c)) s.

Definition write_param (field : string) (v : pyval) (s : t) : t :=
  let c := tx s in
  set_tx (mkContainer (c_type c) (c_interp_name c) (c_note c) (c_pparams c)
            (<[ field := v ]> (c_emc_command_params c))
            (c_emc_status_motion c) (c_emc_status_config c)
            (c_emc_status_io c) (c_emc_status_task c)
            (c_emc_status_interp c)) s.

Definition tx_clear (s : t) : t := set_tx empty_container s.

(** [self.command_socket.send(self.tx.SerializeToString(), zmq.NOBLOCK)]
    can raise (an encode error, or the transport refusing the non-blocking
    send); [sends] tells whether this send goes through.  When it does not,
    nothing reaches the socket and [self.tx.Clear()] is not executed: the
    method has no handler around the send. *)
Definition send_command_msg (msg_type : ContainerType) (sends : bool) (s : t)
  : outcome t :=
  let s := tx_type msg_type s in
  if sends then
    let s := sock (SockSend (tx s)) s in
    Returned (tx_clear s)
  else Raised s.

Definition update_state (new : string) (s : t) : t :=
  if String.eqb new (state s) then s
  else
    let s := set_state new s in
    if String.eqb new "Connected" then set_connected true s
    else if connected s then set_connected false s
    else s.

(** The [elif]/[else] arms nested under the [PING_ACKNOWLEDGE] test only
    print. *)
Definition process_command (msg : Container) (s : t) : t :=
  let s := set_rx msg s in
  match c_type msg with
  | Some MT_PING_ACKNOWLEDGE =>
      let s := set_ping_error_count 0 s in
      if negb (String.eqb (command_state s) "Up")
      then update_state "Connected" (set_command_state "Up" s)
      else s
  | _ => s
  end.

Definition heartbeat_timer_tick (sends : bool) (s : t) : outcome t :=
  let s := set_ping_error_count (ping_error_count s + 1) s in
  let s := if ping_error_threshold s <? ping_error_count s
           then update_state "Timeout" (set_command_state "Trying" s)
           else s in
  perform s <- send_command_msg MT_PING sends s ;;
  Returned (set_heartbeat_timer (Some (new_timer (heartbeat_period s))) s).

Definition start_command_heartbeat (s : t) : t :=
  if negb (connected s) then s
  else
    let s := set_ping_error_count 0 s in
    if 0 <? heartbeat_period s
    then set_heartbeat_timer (Some (new_timer (heartbeat_period s))) s
    else s.

Definition stop_command_heartbeat (s : t) : t :=
  match heartbeat_timer s with
  | Some tm => set_heartbeat_timer None s
  | None => s
  end.

Definition connect_sockets (s : t) : bool * t :=
  let s := set_sockets_connected true s in
  (true, sock (SockConnect (command_uri s)) s).

Definition disconnect_sockets (s : t) : t :=
  if sockets_connected s
  then set_sockets_connected false (sock (SockDisconnect (command_uri s)) s)
  else s.

Definition cleanup (s : t) : t :=
  disconnect_sockets (stop_command_heartbeat s).

Definition start (sends : bool) (s : t) : outcome t :=
  let s := set_command_state "Trying" s in
  let s := update_state "Connecting" s in
  let '(ok, s) := connect_sockets s in
  if ok then
    let s := set_shutdown_event false s in
    let s := set_threads (threads s ++ [false]) s in
    let '(ts, raised) := start_threads (threads s) in
    let s := set_threads ts s in
    if raised then Raised s
    else
      let s := start_command_heartbeat s in
      send_command_msg MT_PING sends s
  else Returned s.

Definition stop (s : t) : outcome t :=
  let s := set_is_ready false s in
  let s := set_shutdown_event true s in
  if join_threads (threads s) then
    let s := set_threads [] s in
    let s := cleanup s in
    Returned (update_state "Disconnected" s)
  else Raised s.

Definition ready (sends : bool) (s : t) : outcome t :=
  if is_ready s then Returned s else start sends (set_is_ready true s).

(** *** The command API *)

Section Schema.

(** Taken as a parameter: the field declarations of [message_pb2] are not
    part of the sources.  [accepts field v] tells whether protobuf accepts
    the assignment of [v] to the field [field] of the outbound container
    (the fields of [emc_command_params] under their name, nested ones under
    their dotted path, and [interp_name]); it raises otherwise ([TypeError]
    for a value of the wrong kind, [ValueError] for one out of range,
    [AttributeError] for a field that is not declared) and stores
    nothing. *)
Variable accepts : string -> pyval -> bool.

(** [params = self.tx.emc_command_params; params.<field> = v]. *)
Definition tx_param (field : string) (v : pyval) (s : t) : outcome t :=
  if accepts field v then Returned (write_param field v s) else Raised s.

(** Modelled from the spec: the declaration of [interp_name] in
    [message_pb2] is not part of the sources; it is the interpreter name, a
    string field.  [self.tx.interp_name = v]: protobuf raises [TypeError]
    for a value that is not a string, and checks a string like any other
    value. *)
Definition tx_interp_name (v : pyval) (s : t) : outcome t :=
  match v with
  | PStr _ =>
      if accepts "interp_name" v then Returned (write_interp_name v s)
      else Raised s
  | _ => Raised s
  end.

Definition abort (interpreter : string) (sends : bool) (s : t)
  : outcome t :=
  if negb (connected s) then Returned s
  else
    perform s <- tx_interp_name (PStr interpreter) s ;;
    send_command_msg MT_EMC_TASK_ABORT sends s.

Definition run_program (interpreter : string) (line_number : Z) (sends : bool) (s : t)
  : outcome t :=
  if negb (connected s) then Returned s
  else
    perform s <- tx_param "line_number" (PInt line_number) s ;;
    perform s <- tx_interp_name (PStr interpreter) s ;;
    send_command_msg MT_EMC_TASK_PLAN_RUN sends s.

Definition pause_program (interpreter : string) (sends : bool) (s : t)
  : outcome t :=
  if negb (connected s) then Returned s
  else
    perform s <- tx_interp_name (PStr interpreter) s ;;
    send_command_msg MT_EMC_TASK_PLAN_PAUSE sends s.

Definition step_program (interpreter : string) (sends : bool) (s : t)
  : outcome t :=
  if negb (connected s) then Returned s
  else
    perform s <- tx_interp_name (PStr interpreter) s ;;
    send_command_msg MT_EMC_TASK_PLAN_STEP sends s.

Definition resume_program (interpreter : string) (sends : bool) (s : t)
  : outcome t :=
  if negb (connected s) then Returned s
  else
    perform s <- tx_interp_name (PStr interpreter) s ;;
    send_command_msg MT_EMC_TASK_RESUME sends s.

Definition reset_program (interpreter : string) (sends : bool) (s : t)
  : outcome t :=
  if negb (connected s) then Returned s
  else
    perform s <- tx_interp_name (PStr interpreter) s ;;
    send_command_msg MT_EMC_TASK_PLAN_INIT sends s.

Definition set_task_mode (interpreter : string) (mode : Z) (sends : bool) (s : t)
  : outcome t :=
  if negb (connected s) then Returned s
  else
    perform s <- tx_param "task_mode" (PInt mode) s ;;
    perform s <- tx_interp_name (PStr interpreter) s ;;
    send_command_msg MT_EMC_TASK_SET_MODE sends s.

Definition set_task_state (interpreter : string) (state : Z) (sends : bool) (s : t)
  : outcome t :=
  if negb (connected s) then Returned s
  else
    perform s <- tx_param "task_state" (PInt state) s ;;
    perform s <- tx_interp_name (PStr interpreter) s ;;
    send_command_msg MT_EMC_TASK_SET_STATE sends s.

Definition open_program (interpreter file_name : string) (sends : bool) (s : t)
  : outcome t :=
  if negb (connected s) then Returned s
  else
    perform s <- tx_param "path" (PStr file_name) s ;;
    perform s <- tx_interp_name (PStr interpreter) s ;;
    send_command_msg MT_EMC_TASK_PLAN_OPEN sends s.

Definition execute_mdi (interpreter command : string) (sends : bool) (s : t)
  : outcome t :=
  if negb (connected s) then Returned s
  else
    perform s <- tx_param "command" (PStr command) s ;;
    perform s <- tx_interp_name (PStr interpreter) s ;;
    send_command_msg MT_EMC_TASK_PLAN_EXECUTE sends s.

Definition set_spindle_brake (brake : Z) (sends : bool) (s : t)
  : outcome t :=
  if negb (connected s) then Returned s
  else if brake =? ENGAGE_BRAKE then send_command_msg MT_EMC_SPINDLE_BRAKE_ENGAGE sends s
  else if brake =? RELEASE_BRAKE then send_command_msg MT_EMC_SPINDLE_BRAKE_RELEASE sends s
  else Returned s.

Definition set_debug_level (debug_level : Z) (sends : bool) (s : t)
  : outcome t :=
  if negb (connected s) then Returned s
  else
    perform s <- tx_param "debug_level" (PInt debug_level) s ;;
    perform s <- tx_interp_name (PInt debug_level) s ;;
    send_command_msg MT_EMC_SET_DEBUG sends s.

Definition set_feed_override (scale : float) (sends : bool) (s : t)
  : outcome t :=
  if negb (connected s) then Returned s
  else
    perform s <- tx_param "scale" (PFloat scale) s ;;
    send_command_msg MT_EMC_TRAJ_SET_SCALE sends s.

Definition set_flood_enabled (enable : bool) (sends : bool) (s : t)
  : outcome t :=
  if negb (connected s) then Returned s
  else if enable then send_command_msg MT_EMC_COOLANT_FLOOD_ON sends s
  else send_command_msg MT_EMC_COOLANT_FLOOD_OFF sends s.

Definition home_axis (index : Z) (sends : bool) (s : t)
  : outcome t :=
  if negb (connected s) then Returned s
  else
    perform s <- tx_param "index" (PInt index) s ;;
    send_command_msg MT_EMC_AXIS_HOME sends s.

Definition jog (jog_type axis : Z) (velocity distance : float) (sends : bool) (s : t)
  : outcome t :=
  if negb (connected s) then Returned s
  else
    perform s <- tx_param "index" (PInt axis) s ;;
    if jog_type =? STOP_JOG then send_command_msg MT_EMC_AXIS_ABORT sends s
    else if jog_type =? CONTINOUS_JOG then
      perform s <- tx_param "velocity" (PFloat velocity) s ;;
      send_command_msg MT_EMC_AXIS_JOG sends s
    else if jog_type =? INCREMENT_JOG then
      perform s <- tx_param "velocity" (PFloat velocity) s ;;
      perform s <- tx_param "distance" (PFloat distance) s ;;
      send_command_msg MT_EMC_AXIS_INCR_JOG sends s
    else Returned (tx_clear s).

Definition load_tool_table (sends : bool) (s : t)
  : outcome t :=
  if negb (connected s) then Returned s
  else send_command_msg MT_EMC_TOOL_LOAD_TOOL_TABLE sends s.

Definition set_maximum_velocity (velocity : float) (sends : bool) (s : t)
  : outcome t :=
  if negb (connected s) then Returned s
  else
    perform s <- tx_param "velocity" (PFloat velocity) s ;;
    send_command_msg MT_EMC_TRAJ_SET_MAX_VELOCITY sends s.

Definition set_mist_enabled (enable : bool) (sends : bool) (s : t)
  : outcome t :=
  if negb (connected s) then Returned s
  else if enable then send_command_msg MT_EMC_COOLANT_MIST_ON sends s
  else send_command_msg MT_EMC_COOLANT_MIST_OFF sends s.

Definition override_limits (sends : bool) (s : t)
  : outcome t :=
  if negb (connected s) then Returned s
  else send_command_msg MT_EMC_AXIS_OVERRIDE_LIMITS sends s.

Definition set_adaptive_feed_enabled (enable : bool) (sends : bool) (s : t)
  : outcome t :=
  if negb (connected s) then Returned s
  else
    perform s <- tx_param "enable" (PBool enable) s ;;
    send_command_msg MT_EMC_MOTION_ADAPTIVE sends s.

Definition set_analog_output (index : Z) (value : float) (sends : bool) (s : t)
  : outcome t :=
  if negb (connected s) then Returned s
  else
    perform s <- tx_param "index" (PInt index) s ;;
    perform s <- tx_param "value" (PFloat value) s ;;
    send_command_msg MT_EMC_MOTION_SET_AOUT sends s.

Definition set_block_delete_enabled (enable : bool) (sends : bool) (s : t)
  : outcome t :=
  if negb (connected s) then Returned s
  else
    perform s <- tx_param "enable" (PBool enable) s ;;
    send_command_msg MT_EMC_TASK_PLAN_SET_BLOCK_DELETE sends s.

Definition set_digital_output (index : Z) (enable : bool) (sends : bool) (s : t)
  : outcome t :=
  if negb (connected s) then Returned s
  else
    perform s <- tx_param "index" (PInt index) s ;;
    perform s <- tx_param "enable" (PBool enable) s ;;
    send_command_msg MT_EMC_MOTION_SET_DOUT sends s.

Definition set_feed_hold_enabled (enable : bool) (sends : bool) (s : t)
  : outcome t :=
  if negb (connected s) then Returned s
  else
    perform s <- tx_param "enable" (PBool enable) s ;;
    send_command_msg MT_EMC_TRAJ_SET_FH_ENABLE sends s.

Definition set_feed_override_enabled (enable : bool) (sends : bool) (s : t)
  : outcome t :=
  if negb (connected s) then Returned s
  else
    perform s <- tx_param "enable" (PBool enable) s ;;
    send_command_msg MT_EMC_TRAJ_SET_FO_ENABLE sends s.

Definition set_axis_max_position_limit (axis : Z) (value : float) (sends : bool) (s : t)
  : outcome t :=
  if negb (connected s) then Returned s
  else
    perform s <- tx_param "index" (PInt axis) s ;;
    perform s <- tx_param "value" (PFloat value) s ;;
    send_command_msg MT_EMC_AXIS_SET_MAX_POSITION_LIMIT sends s.

Definition set_axis_min_position_limit (axis : Z) (value : float) (sends : bool) (s : t)
  : outcome t :=
  if negb (connected s) then Returned s
  else
    perform s <- tx_param "index" (PInt axis) s ;;
    perform s <- tx_param "value" (PFloat value) s ;;
    send_command_msg MT_EMC_AXIS_SET_MIN_POSITION_LIMIT sends s.

Definition set_optional_stop_enabled (enable : bool) (sends : bool) (s : t)
  : outcome t :=
  if negb (connected s) then Returned s
  else
    perform s <- tx_param "enable" (PBool enable) s ;;
    send_command_msg MT_EMC_TASK_PLAN_SET_OPTIONAL_STOP sends s.

Definition set_spindle_override_enabled (enable : bool) (sends : bool) (s : t)
  : outcome t :=
  if negb (connected s) then Returned s
  else
    perform s <- tx_param "enable" (PBool enable) s ;;
    send_command_msg MT_EMC_TRAJ_SET_SO_ENABLE sends s.

Definition set_spindle (mode : Z) (velocity : float) (sends : bool) (s : t)
  : outcome t :=
  if negb (connected s) then Returned s
  else if mode =? SPINDLE_FORWARD then
    perform s <- tx_param "velocity" (PFloat velocity) s ;;
    send_command_msg MT_EMC_SPINDLE_ON sends s
  else if mode =? SPINDLE_REVERSE then
    perform s <- tx_param "velocity" (PFloat (velocity * -1.0)%float) s ;;
    send_command_msg MT_EMC_SPINDLE_ON sends s
  else if mode =? SPINDLE_OFF then send_command_msg MT_EMC_SPINDLE_OFF sends s
  else if mode =? SPINDLE_INCREASE then send_command_msg MT_EMC_SPINDLE_INCREASE sends s
  else if mode =? SPINDLE_DECREASE then send_command_msg MT_EMC_SPINDLE_DECRESE sends s
  else if mode =? SPINDLE_CONSTANT then send_command_msg MT_EMC_SPINDLE_CONSTANT sends s
  else Returned (tx_clear s).

Definition set_spindle_override (scale : float) (sends : bool) (s : t)
  : outcome t :=
  if negb (connected s) then Returned s
  else
    perform s <- tx_param "scale" (PFloat scale) s ;;
    send_command_msg MT_EMC_TRAJ_SET_SPINDLE_SCALE sends s.

Definition set_teleop_enabled (enable : bool) (sends : bool) (s : t)
  : outcome t :=
  if negb (connected s) then Returned s
  else
    perform s <- tx_param "enable" (PBool enable) s ;;
    send_command_msg MT_EMC_TRAJ_SET_TELEOP_ENABLE sends s.

Definition set_teleop_vector (a b c u v w : float) (sends : bool) (s : t)
  : outcome t :=
  if negb (connected s) then Returned s
  else
    perform s <- tx_param "pose.a" (PFloat a) s ;;
    perform s <- tx_param "pose.b" (PFloat b) s ;;
    perform s <- tx_param "pose.c" (PFloat c) s ;;
    perform s <- tx_param "pose.u" (PFloat u) s ;;
    perform s <- tx_param "pose.v" (PFloat v) s ;;
    perform s <- tx_param "pose.w" (PFloat w) s ;;
    send_command_msg MT_EMC_TRAJ_SET_TELEOP_VECTOR sends s.

Definition set_tool_offset (index : Z) (zoffset xoffset diameter frontangle
    backangle : float) (orientation : Z) (sends : bool) (s : t)
  : outcome t :=
  if negb (connected s) then Returned s
  else
    perform s <- tx_param "tool_data.index" (PInt index) s ;;
    perform s <- tx_param "tool_data.zoffset" (PFloat zoffset) s ;;
    perform s <- tx_param "tool_data.xoffset" (PFloat xoffset) s ;;
    perform s <- tx_param "tool_data.diameter" (PFloat diameter) s ;;
    perform s <- tx_param "tool_data.frontangle" (PFloat frontangle) s ;;
    perform s <- tx_param "tool_data.backangle" (PFloat backangle) s ;;
    perform s <- tx_param "tool_data.orientation" (PInt orientation) s ;;
    send_command_msg MT_EMC_TOOL_SET_OFFSET sends s.

Definition set_trajectory_mode (mode : Z) (sends : bool) (s : t)
  : outcome t :=
  if negb (connected s) then Returned s
  else
    perform s <- tx_param "traj_mode" (PInt mode) s ;;
    send_command_msg MT_EMC_TRAJ_SET_MODE sends s.

Definition unhome_axis (index : Z) (sends : bool) (s : t)
  : outcome t :=
  if negb (connected s) then Returned s
  else
    perform s <- tx_param "index" (PInt index) s ;;
    send_command_msg MT_EMC_AXIS_UNHOME sends s.

Definition shutdown (sends : bool) (s : t)
  : outcome t :=
  if negb (connected s) then Returned s
  else send_command_msg MT_SHUTDOWN sends s.

(** The public command operations, as a caller may invoke them. *)
Inductive command :=
| Abort (interpreter : string)
| RunProgram (interpreter : string) (line_number : Z)
| PauseProgram (interpreter : string)
| StepProgram (interpreter : string)
| ResumeProgram (interpreter : string)
| ResetProgram (interpreter : string)
| SetTaskMode (interpreter : string) (mode : Z)
| SetTaskState (interpreter : string) (state : Z)
| OpenProgram (interpreter file_name : string)
| ExecuteMdi (interpreter command : string)
| SetSpindleBrake (brake : Z)
| SetDebugLevel (debug_level : Z)
| SetFeedOverride (scale : float)
| SetFloodEnabled (enable : bool)
| HomeAxis (index : Z)
| Jog (jog_type axis : Z) (velocity distance : float)
| LoadToolTable
| SetMaximumVelocity (velocity : float)
| SetMistEnabled (enable : bool)
| OverrideLimits
| SetAdaptiveFeedEnabled (enable : bool)
| SetAnalogOutput (index : Z) (value : float)
| SetBlockDeleteEnabled (enable : bool)
| SetDigitalOutput (index : Z) (enable : bool)
| SetFeedHoldEnabled (enable : bool)
| SetFeedOverrideEnabled (enable : bool)
| SetAxisMaxPositionLimit (axis : Z) (value : float)
| SetAxisMinPositionLimit (axis : Z) (value : float)
| SetOptionalStopEnabled (enable : bool)
| SetSpindleOverrideEnabled (enable : bool)
| SetSpindle (mode : Z) (velocity : float)
| SetSpindleOverride (scale : float)
| SetTeleopEnabled (enable : bool)
| SetTeleopVector (a b c u v w : float)
| SetToolOffset (index : Z) (zoffset xoffset diameter frontangle backangle : float)
    (orientation : Z)
| SetTrajectoryMode (mode : Z)
| UnhomeAxis (index : Z)
| Shutdown.

Definition call (c : command) (sends : bool) (s : t) : outcome t :=
  match c with
  | Abort i => abort i sends s
  | RunProgram i l => run_program i l sends s
  | PauseProgram i => pause_program i sends s
  | StepProgram i => step_program i sends s
  | ResumeProgram i => resume_program i sends s
  | ResetProgram i => reset_program i sends s
  | SetTaskMode i m => set_task_mode i m sends s
  | SetTaskState i st => set_task_state i st sends s
  | OpenProgram i f => open_program i f sends s
  | ExecuteMdi i c => execute_mdi i c sends s
  | SetSpindleBrake b => set_spindle_brake b sends s
  | SetDebugLevel d => set_debug_level d sends s
  | SetFeedOverride sc => set_feed_override sc sends s
  | SetFloodEnabled e => set_flood_enabled e sends s
  | HomeAxis i => home_axis i sends s
  | Jog k a v d => jog k a v d sends s
  | LoadToolTable => load_tool_table sends s
  | SetMaximumVelocity v => set_maximum_velocity v sends s
  | SetMistEnabled e => set_mist_enabled e sends s
  | OverrideLimits => override_limits sends s
  | SetAdaptiveFeedEnabled e => set_adaptive_feed_enabled e sends s
  | SetAnalogOutput i v => set_analog_output i v sends s
  | SetBlockDeleteEnabled e => set_block_delete_enabled e sends s
  | SetDigitalOutput i e => set_digital_output i e sends s
  | SetFeedHoldEnabled e => set_feed_hold_enabled e sends s
  | SetFeedOverrideEnabled e => set_feed_override_enabled e sends s
  | SetAxisMaxPositionLimit a v => set_axis_max_position_limit a v sends s
  | SetAxisMinPositionLimit a v => set_axis_min_position_limit a v sends s
  | SetOptionalStopEnabled e => set_optional_stop_enabled e sends s
  | SetSpindleOverrideEnabled e => set_spindle_override_enabled e sends s
  | SetSpindle m v => set_spindle m v sends s
  | SetSpindleOverride sc => set_spindle_override sc sends s
  | SetTeleopEnabled e => set_teleop_enabled e sends s
  | SetTeleopVector a b c u v w => set_teleop_vector a b c u v w sends s
  | SetToolOffset i z x d f b o => set_tool_offset i z x d f b o sends s
  | SetTrajectoryMode m => set_trajectory_mode m sends s
  | UnhomeAxis i => unhome_axis i sends s
  | Shutdown => shutdown sends s
  end.

(** The messages sent so far, oldest first. *)
Definition sent (s : t) : list Container :=
  omap (fun op => match op with SockSend msg => Some msg | _ => None end)
       (command_socket s).

(** The transition system of the endpoint.  An event during which the
    endpoint may send carries whether that send goes through. *)
Inductive event :=
| SetUri (uri : string)
| SetHeartbeatPeriod (period : Z)
| Ready (sends : bool)
| Start (sends : bool)
| Stop
| Call (c : command) (sends : bool)
| Receive (msg : Container)
| TimerExpires (sends : bool).

Definition handle (e : event) (s : t) : option t :=
  match e with
  | SetUri uri => Some (set_command_uri uri s)
  | SetHeartbeatPeriod period => Some (set_heartbeat_period period s)
  | Ready sends => Some (state_of (ready sends s))
  | Start sends => Some (state_of (start sends s))
  | Stop => Some (state_of (stop s))
  | Call c sends => Some (state_of (call c sends s))
  | Receive msg =>
      if worker_polls (threads s) (shutdown_event s)
      then Some (process_command msg s) else None
  | TimerExpires sends =>
      match heartbeat_timer s with
      | Some tm =>
          if timer_pending tm
          then Some (state_of (heartbeat_timer_tick sends
                                 (set_heartbeat_timer (Some (fired tm)) s)))
          else None
      | None => None
      end
  end.

Fixpoint run (es : list event) (s : t) : option t :=
  match es with
  | [] => Some s
  | e :: es' => match handle e s with Some s' => run es' s' | None => None end
  end.

Inductive reachable : t -> Prop :=
| reachable_init client_id : reachable (init client_id)
| reachable_step s e s' : reachable s -> handle e s = Some s' -> reachable s'.

End Schema.

End ApplicationCommand.

(* ------------------------------------------------------------------ *)
(** ** class ApplicationError *)
(* ------------------------------------------------------------------ *)

Module ApplicationError.

(** The dictionary [{'type': ..., 'notes': [...]}] built per message. *)
Record error_dict := mkError { err_type : ContainerType; err_notes : list string }.

(** [error_list] holds references to dictionaries; [heap] is the store of
    the dictionaries allocated so far, addressed by position. *)
Record t := mk {
  threads : list bool;
  shutdown : bool;
  is_ready : bool;
  connected : bool;
  state : string;
  socket_state : string;
  error_list : list nat;
  heap : list error_dict;
  error_uri : string;
  heartbeat_period : Z;
  heartbeat_timer : option Timer;
  subscriptions : gset string;
  rx : Container;
  socket : list sock_op;
  sockets_connected : bool
}.

Definition channels : gset string := {[ "error"; "text"; "display" ]}.

Definition init : t :=
  mk [] false false false "Disconnected" "Down" [] [] "" 0 None ∅
     empty_container [] false.

Definition set_threads v s :=
  mk v (shutdown s) (is_ready s) (connected s) (state s) (socket_state s)
     (error_list s) (heap s) (error_uri s) (heartbeat_period s)
     (heartbeat_timer s) (subscriptions s) (rx s) (socket s)
     (sockets_connected s).
Definition set_shutdown v s :=
  mk (threads s) v (is_ready s) (connected s) (state s) (socket_state s)
     (error_list s) (heap s) (error_uri s) (heartbeat_period s)
     (heartbeat_timer s) (subscriptions s) (rx s) (socket s)
     (sockets_connected s).
Definition set_is_ready v s :=
  mk (threads s) (shutdown s) v (connected s) (state s) (socket_state s)
     (error_list s) (heap s) (error_uri s) (heartbeat_period s)
     (heartbeat_timer s) (subscriptions s) (rx s) (socket s)
     (sockets_connected s).
Definition set_connected v s :=
  mk (threads s) (shutdown s) (is_ready s) v (state s) (socket_state s)
     (error_list s) (heap s) (error_uri s) (heartbeat_period s)
     (heartbeat_timer s) (subscriptions s) (rx s) (socket s)
     (sockets_connected s).
Definition set_state v s :=
  mk (threads s) (shutdown s) (is_ready s) (connected s) v (socket_state s)
     (error_list s) (heap s) (error_uri s) (heartbeat_period s)
     (heartbeat_timer s) (subscriptions s) (rx s) (socket s)
     (sockets_connected s).
Definition set_socket_state v s :=
  mk (threads s) (shutdown s) (is_ready s) (connected s) (state s) v
     (error_list s) (heap s) (error_uri s) (heartbeat_period s)
     (heartbeat_timer s) (subscriptions s) (rx s) (socket s)
     (sockets_connected s).
Definition set_error_list v s :=
  mk (threads s) (shutdown s) (is_ready s) (connected s) (state s)
     (socket_state s) v (heap s) (error_uri s) (heartbeat_period s)
     (heartbeat_timer s) (subscriptions s) (rx s) (socket s)
     (sockets_connected s).
Definition set_heap v s :=
  mk (threads s) (shutdown s) (is_ready s) (connected s) (state s)
     (socket_state s) (error_list s) v (error_uri s) (heartbeat_period s)
     (heartbeat_timer s) (subscriptions s) (rx s) (socket s)
     (sockets_connected s).
Definition set_error_uri v s :=
  mk (threads s) (shutdown s) (is_ready s) (connected s) (state s)
     (socket_state s) (error_list s) (heap s) v (heartbeat_period s)
     (heartbeat_timer s) (subscriptions s) (rx s) (socket s)
     (sockets_connected s).
Definition set_heartbeat_period v s :=
  mk (threads s) (shutdown s) (is_ready s) (connected s) (state s)
     (socket_state s) (error_list s) (heap s) (error_uri s) v
     (heartbeat_timer s) (subscriptions s) (rx s) (socket s)
     (sockets_connected s).
Definition set_heartbeat_timer v s :=
  mk (threads s) (shutdown s) (is_ready s) (connected s) (state s)
     (socket_state s) (error_list s) (heap s) (error_uri s)
     (heartbeat_period s) v (subscriptions s) (rx s) (socket s)
     (sockets_connected s).
Definition set_subscriptions v s :=
  mk (threads s) (shutdown s) (is_ready s) (connected s) (state s)
     (socket_state s) (error_list s) (heap s) (error_uri s)
     (heartbeat_period s) (heartbeat_timer s) v (rx s) (socket s)
     (sockets_connected s).
Definition set_rx v s :=
  mk (threads s) (shutdown s) (is_ready s) (connected s) (state s)
     (socket_state s) (error_list s) (heap s) (error_uri s)
     (heartbeat_period s) (heartbeat_timer s) (subscriptions s) v (socket s)
     (sockets_connected s).
Definition set_socket v s :=
  mk (threads s) (shutdown s) (is_ready s) (connected s) (state s)
     (socket_state s) (error_list s) (heap s) (error_uri s)
     (heartbeat_period s) (heartbeat_timer s) (subscriptions s) (rx s) v
     (sockets_connected s).
Definition set_sockets_connected v s :=
  mk (threads s) (shutdown s) (is_ready s) (connected s) (state s)
     (socket_state s) (error_list s) (heap s) (error_uri s)
     (heartbeat_period s) (heartbeat_timer s) (subscriptions s) (rx s)
     (socket s) v.

(** One operation on [self.socket]. *)
Definition sock (op : sock_op) (s : t) : t := set_socket (socket s ++ [op]) s.

Definition start_error_heartbeat (interval : Z) (s : t) : t :=
  let s := match heartbeat_timer s with
           | Some tm => set_heartbeat_timer (Some (cancel tm)) s
           | None => s
           end in
  let s := set_heartbeat_period interval s in
  if 0 <? interval
  then set_heartbeat_timer (Some (new_timer interval)) s
  else s.

Definition refresh_error_heartbeat (s : t) : t :=
  match heartbeat_timer s with
  | Some _ => set_heartbeat_timer (Some (new_timer (heartbeat_period s))) s
  | None => s
  end.

Definition stop_error_heartbeat (s : t) : t :=
  match heartbeat_timer s with
  | Some _ => set_heartbeat_timer None s
  | None => s
  end.

Definition update_state (new : string) (s : t) : t :=
  if String.eqb new (state s) then s
  else
    let s := set_state new s in
    if String.eqb new "Connected" then set_connected true s
    else if connected s then stop_error_heartbeat (set_connected false s)
    else s.

(** The iteration order over a Python set is that of [elements] here; no
    result depends on it. *)
Definition subscribe (s : t) : t :=
  let s := set_socket_state "Trying" s in
  fold_left
    (fun s channel =>
       set_subscriptions ({[ channel ]} ∪ subscriptions s)
         (sock (SockSubscribe channel) s))
    (elements channels) s.

Definition unsubscribe (s : t) : t :=
  let s := set_socket_state "Down" s in
  let s := fold_left (fun s subscription => sock (SockUnsubscribe subscription) s)
             (elements (subscriptions s)) s in
  set_subscriptions ∅ s.

Definition is_notification (ty : ContainerType) : bool :=
  match ty with
  | MT_EMC_NML_ERROR | MT_EMC_NML_TEXT | MT_EMC_NML_DISPLAY
  | MT_EMC_OPERATOR_TEXT | MT_EMC_OPERATOR_ERROR | MT_EMC_OPERATOR_DISPLAY => true
  | _ => false
  end.

(** [error['notes'].append(note)] on the dictionary stored at [a]. *)
Definition append_note (a : nat) (note : string) (s : t) : t :=
  set_heap
    (alter (fun e => mkError (err_type e) (err_notes e ++ [note])) a (heap s)) s.

(** [self.error_list.append(error)] with [error] the reference [a]. *)
Definition append_error (a : nat) (s : t) : t :=
  set_error_list (error_list s ++ [a]) s.

(** [self.rx] holds the decoded message [msg] throughout. *)
Definition process_error (topic : string) (msg : Container) (s : t) : t :=
  let s := set_rx msg s in
  match c_type msg with
  | Some ty =>
      if is_notification ty then
        let a := length (heap s) in
        let s := set_heap (heap s ++ [mkError ty []]) s in
        let s := fold_left (fun s note => append_error a (append_note a note s))
                   (c_note msg) s in
        refresh_error_heartbeat s
      else
        match ty with
        | MT_PING =>
            let s :=
              if String.eqb (socket_state s) "Up" then refresh_error_heartbeat s
              else if String.eqb (state s) "Timeout" then
                     subscribe (unsubscribe (update_state "Connecting" s))
                   else update_state "Connected" (set_socket_state "Up" s) in
            match c_pparams msg with
            | Some interval => start_error_heartbeat (interval * 2) s
            | None => s
            end
        | _ => s
        end
  | None => s
  end.

(** Returns the copy of the list of references and the new state. *)
Definition get_messages (s : t) : list nat * t :=
  let messages := error_list s in
  (messages, set_error_list [] s).

(** What a caller reads through the returned references. *)
Definition read_messages (s : t) (messages : list nat) : list error_dict :=
  omap (fun a => heap s !! a) messages.

Definition heartbeat_timer_tick (s : t) : t :=
  update_state "Timeout" (set_socket_state "Down" s).

Definition connect_sockets (s : t) : bool * t :=
  let s := set_sockets_connected true s in
  (true, sock (SockConnect (error_uri s)) s).

Definition disconnect_sockets (s : t) : t :=
  if sockets_connected s
  then set_sockets_connected false (sock (SockDisconnect (error_uri s)) s)
  else s.

Definition cleanup (s : t) : t :=
  let s := if connected s then unsubscribe s else s in
  let s := disconnect_sockets s in
  set_subscriptions ∅ s.

Definition start (s : t) : outcome t :=
  let s := set_socket_state "Trying" s in
  let s := update_state "Connecting" s in
  let '(ok, s) := connect_sockets s in
  if ok then
    let s := set_shutdown false s in
    let s := set_threads (threads s ++ [false]) s in
    let '(ts, raised) := start_threads (threads s) in
    let s := set_threads ts s in
    if raised then Raised s else Returned (subscribe s)
  else Returned s.

Definition stop (s : t) : outcome t :=
  let s := set_is_ready false s in
  let s := set_shutdown true s in
  if join_threads (threads s) then
    let s := set_threads [] s in
    let s := cleanup s in
    Returned (update_state "Disconnected" s)
  else Raised s.

Definition ready (s : t) : outcome t :=
  if is_ready s then Returned s else start (set_is_ready true s).

(** The transition system of the endpoint. *)
Inductive event :=
| SetUri (uri : string)
| Ready
| Start
| Stop
| GetMessages
| Receive (topic : string) (msg : Container)
| TimerExpires.

Definition handle (e : event) (s : t) : option t :=
  match e with
  | SetUri uri => Some (set_error_uri uri s)
  | Ready => Some (state_of (ready s))
  | Start => Some (state_of (start s))
  | Stop => Some (state_of (stop s))
  | GetMessages => Some (snd (get_messages s))
  | Receive topic msg =>
      if worker_polls (threads s) (shutdown s)
      then Some (process_error topic msg s) else None
  | TimerExpires =>
      match heartbeat_timer s with
      | Some tm =>
          if timer_pending tm
          then Some (heartbeat_timer_tick (set_heartbeat_timer (Some (fired tm)) s))
          else None
      | None => None
      end
  end.

Fixpoint run (es : list event) (s : t) : option t :=
  match es with
  | [] => Some s
  | e :: es' => match handle e s with Some s' => run es' s' | None => None end
  end.

Inductive reachable : t -> Prop :=
| reachable_init : reachable init
| reachable_step s e s' : reachable s -> handle e s = Some s' -> reachable s'.

End ApplicationError.

(* ------------------------------------------------------------------ *)
(** ** Observations used by the properties *)
(* ------------------------------------------------------------------ *)

(** [connected] is true iff the public state label is [Connected]. *)
Definition agrees (connected : bool) (state : string) : Prop :=
  connected = true <-> state = "Connected".

Module StatusView.
Import ApplicationStatus.

(** The five channel mirrors. *)
Definition mirrors (s : t) : EmcStatus * EmcStatus * EmcStatus * EmcStatus * EmcStatus :=
  (_motion s, _config s, _io s, _task s, _interp s).

Definition cleared : EmcStatus * EmcStatus * EmcStatus * EmcStatus * EmcStatus :=
  (ClearStatus, ClearStatus, ClearStatus, ClearStatus, ClearStatus).

(** The connection and synchronisation variables. *)
Definition control (s : t) : bool * string * string * bool * gset string :=
  (connected s, state s, status_state s, synced s, synced_channels s).

(** The payload that [process_status] merges for a message received on
    [topic], if any. *)
Definition channel_payload (topic : string) (msg : Container) : option EmcStatus :=
  if String.eqb topic "motion" then c_emc_status_motion msg
  else if String.eqb topic "config" then c_emc_status_config msg
  else if String.eqb topic "io" then c_emc_status_io msg
  else if String.eqb topic "task" then c_emc_status_task msg
  else if String.eqb topic "interp" then c_emc_status_interp msg
  else None.

Definition is_update (m : string * Container) : bool :=
  match c_type (snd m) with
  | Some MT_EMCSTAT_FULL_UPDATE | Some MT_EMCSTAT_INCREMENTAL_UPDATE => true
  | _ => false
  end.

(** The channel that a message synchronises: it is a full update received
    on one of the five topics with that channel's payload present. *)
Definition full_topic (m : string * Container) : gset string :=
  if is_full_update (c_type (snd m)) then
    match channel_payload (fst m) (snd m) with
    | Some _ => {[ fst m ]}
    | None => ∅
    end
  else ∅.

(** The channels synchronised by a sequence of received messages. *)
Definition full_topics (ms : list (string * Container)) : gset string :=
  ⋃ (full_topic <$> ms).

Definition receive (m : string * Container) : event := Receive (fst m) (snd m).

(** [process_status] on an update message, in two phases: the payload of
    the channel named by the topic is absorbed, then the connection is
    brought up and the keepalive (re)armed. *)
Definition merge_for (topic : string) : EmcStatus -> t -> t :=
  if String.eqb topic "motion" then update_motion
  else if String.eqb topic "config" then update_config
  else if String.eqb topic "io" then update_io
  else if String.eqb topic "task" then update_task
  else if String.eqb topic "interp" then update_interp
  else fun _ s => s.

Definition absorb (topic : string) (msg : Container) (s : t) : t :=
  match channel_payload topic msg with
  | Some data =>
      let s := merge_for topic data s in
      if is_full_update (c_type msg) then update_sync topic s else s
  | None => s
  end.

Definition bring_up (msg : Container) (s : t) : t :=
  if is_full_update (c_type msg) then
    let s := if negb (String.eqb (status_state s) "Up")
             then update_state "Connected" (set_status_state "Up" s)
             else s in
    match c_pparams msg with
    | Some interval => start_status_heartbeat (interval * 2) s
    | None => s
    end
  else refresh_status_heartbeat s.

(** The predicate on [control] kept by every transition: [connected]
    agrees with the label, the socket is [Up] only when connected, the sync
    set holds channel names only, is empty unless connected, and [synced]
    tells whether it is full. *)
Definition InvC (c : bool * string * string * bool * gset string) : Prop :=
  let '(conn, st, sst, syn, sync) := c in
  agrees conn st
  /\ (sst = "Up" -> st = "Connected")
  /\ sync ⊆ channels
  /\ (syn = true <-> sync = channels)
  /\ (st <> "Connected" -> sync = ∅).

Definition Inv (s : t) : Prop := InvC (control s).

(** Timer and worker variables. *)
Definition rest (s : t) : option Timer * Z * list bool * bool :=
  (status_timer s, status_period s, threads s, shutdown s).

(** The mirror of the channel named [topic]. *)
Definition mirror_of (topic : string) (s : t) : EmcStatus :=
  if String.eqb topic "motion" then _motion s
  else if String.eqb topic "config" then _config s
  else if String.eqb topic "io" then _io s
  else if String.eqb topic "task" then _task s
  else if String.eqb topic "interp" then _interp s
  else ClearStatus.

(** The keepalive exists only while connected. *)
Definition idle_when_not_connected (s : t) : Prop :=
  connected s = false -> status_timer s = None /\ status_period s = 0.

Definition is_receive (e : event) : bool :=
  match e with Receive _ _ => true | _ => false end.

(** The socket side of the endpoint. *)
Definition wire (s : t) : list sock_op * gset string * bool * string :=
  (status_socket s, subscriptions s, sockets_connected s, status_uri s).

(** All five channels are subscribed while a worker thread exists, and
    none otherwise. *)
Definition subscribed_while_running (s : t) : Prop :=
  subscriptions s = if existsb id (threads s) then channels else ∅.

End StatusView.

(* ------------------------------------------------------------------ *)
(** ** Scenarios *)
(* ------------------------------------------------------------------ *)

Module StatusScenarios.
Import ApplicationStatus StatusView.

Definition uri : string := "tcp://machine:5500".

(** A full update carrying one channel payload. *)
Definition full_motion (pparams : option Z) (data : EmcStatus) : Container :=
  mkContainer (Some MT_EMCSTAT_FULL_UPDATE) None [] pparams ∅
    (Some data) None None None None.
Definition full_config (data : EmcStatus) : Container :=
  mkContainer (Some MT_EMCSTAT_FULL_UPDATE) None [] None ∅
    None (Some data) None None None.
Definition full_io (data : EmcStatus) : Container :=
  mkContainer (Some MT_EMCSTAT_FULL_UPDATE) None [] None ∅
    None None (Some data) None None.
Definition full_task (data : EmcStatus) : Container :=
  mkContainer (Some MT_EMCSTAT_FULL_UPDATE) None [] None ∅
    None None None (Some data) None.
Definition full_interp (data : EmcStatus) : Container :=
  mkContainer (Some MT_EMCSTAT_FULL_UPDATE) None [] None ∅
    None None None None (Some data).

(** A full update without any channel payload. *)
Definition full_bare : Container :=
  mkContainer (Some MT_EMCSTAT_FULL_UPDATE) None [] None ∅
    None None None None None.

(** S1: five full updates, keepalive parameters on the first. *)
Definition S1_messages : list (string * Container) :=
  [ ("motion", full_motion (Some 1000) {[ "feed" := 100 ]});
    ("config", full_config {[ "axes" := 3 ]});
    ("io", full_io {[ "flood" := 0 ]});
    ("task", full_task {[ "task_mode" := EMC_TASK_MODE_AUTO ]});
    ("interp", full_interp {[ "interp_state" := EMC_TASK_INTERP_IDLE ]}) ].

Definition started : t := state_of (start (set_status_uri uri init)).

(** The endpoint connects, its keepalive expires, and it sits in
    [Timeout] with the last motion snapshot. *)
Definition timed_out_trace : list event :=
  [ SetUri uri; Start;
    Receive "motion" (full_motion (Some 1000) {[ "feed" := 100 ]});
    TimerExpires ].

(** The endpoint connected by one full update on [motion]. *)
Definition connected_trace : list event :=
  [ SetUri uri; Start;
    Receive "motion" (full_motion (Some 1000) {[ "feed" := 100 ]}) ].

Definition connected_state : t := default init (run connected_trace init).
Definition timed_out : t := default init (run timed_out_trace init).

(** The endpoint connects on a full update that carries no payload. *)
Definition bare_connect_trace : list event :=
  [ SetUri uri; Start; Receive "motion" full_bare ].

(** S1 received in full after [start()], and [stop()] called then. *)
Definition synced_trace : list event :=
  SetUri uri :: Start :: (receive <$> S1_messages).
Definition synced_state : t := default init (run synced_trace init).
Definition stopped_state : t := state_of (stop synced_state).

(** An incremental update of the motion channel. *)
Definition incremental_motion (data : EmcStatus) : Container :=
  mkContainer (Some MT_EMCSTAT_INCREMENTAL_UPDATE) None [] None ∅
    (Some data) None None None None.

Definition bare_ping : Container :=
  mkContainer (Some MT_PING) None [] None ∅ None None None None None.

End StatusScenarios.

Module CommandView.
Import ApplicationCommand.

(** The calls whose argument selects no message: a jog kind outside
    [STOP_JOG], [CONTINOUS_JOG], [INCREMENT_JOG], or a spindle mode outside
    the six known modes. *)
Definition invalid_argument (c : command) : bool :=
  match c with
  | Jog jog_type _ _ _ =>
      negb ((jog_type =? STOP_JOG) || (jog_type =? CONTINOUS_JOG)
            || (jog_type =? INCREMENT_JOG))
  | SetSpindle mode _ =>
      negb ((mode =? SPINDLE_FORWARD) || (mode =? SPINDLE_REVERSE)
            || (mode =? SPINDLE_OFF) || (mode =? SPINDLE_INCREASE)
            || (mode =? SPINDLE_DECREASE) || (mode =? SPINDLE_CONSTANT))
  | _ => false
  end.

(** The calls that select no message at all: those with an invalid
    argument, and [set_spindle_brake] with a value that is neither
    [ENGAGE_BRAKE] nor [RELEASE_BRAKE]. *)
Definition selects_no_message (c : command) : bool :=
  match c with
  | SetSpindleBrake brake =>
      negb ((brake =? ENGAGE_BRAKE) || (brake =? RELEASE_BRAKE))
  | _ => invalid_argument c
  end.

(** The bare [PING] that [start()] and the heartbeat send. *)
Definition ping_message : Container :=
  mkContainer (Some MT_PING) None [] None ∅ None None None None None.

(** The invariant of the reachable states: [connected] agrees with the
    label, and the heartbeat timer has never been armed. *)
Definition Inv (s : t) : Prop :=
  agrees (connected s) (state s)
  /\ heartbeat_timer s = None
  /\ state s <> "Timeout".

(** Everything but the outbound container and the socket: the variables
    that no command operation assigns. *)
Definition beside_tx (s : t) :=
  (threads s, shutdown_event s, is_ready s, connected s, state s,
   command_state s, command_uri s, heartbeat_period s, ping_error_count s,
   ping_error_threshold s, heartbeat_timer s, rx s, sockets_connected s).

End CommandView.

Module CommandScenarios.
Import ApplicationCommand.

Definition client_id : string := "host-6f1c2a9e".
Definition uri : string := "tcp://machine:5700".

Definition ping_acknowledge : Container :=
  mkContainer (Some MT_PING_ACKNOWLEDGE) None [] None ∅ None None None None None.

(** A serialization layer that accepts every assignment. *)
Definition permissive : string -> pyval -> bool := fun _ _ => true.

(** A fresh endpoint, configured and started; its [PING] goes through. *)
Definition started : t :=
  state_of (start true (set_command_uri uri (init client_id))).

(** The started endpoint after the first acknowledged ping. *)
Definition connected_state : t := process_command ping_acknowledge started.

(** The connected endpoint with a heartbeat timer pending, as the body of
    [start_command_heartbeat] past its guard would leave it. *)
Definition armed : t :=
  set_heartbeat_timer (Some (new_timer (heartbeat_period connected_state)))
    connected_state.

(** The connected endpoint after [set_debug_level(5)] has raised, and
    after a [home_axis(1)] whose send was refused. *)
Definition after_debug_level : t :=
  state_of (call permissive (SetDebugLevel 5) true connected_state).
Definition after_refused_send : t :=
  state_of (call permissive (HomeAxis 1) false connected_state).

End CommandScenarios.

Module ErrorView.
Import ApplicationError.

(** The connection and keepalive variables of the error endpoint. *)
Definition error_view (s : t) : bool * string * string * option Timer * Z :=
  (connected s, state s, socket_state s, heartbeat_timer s, heartbeat_period s).

(** What a [PING] is compared on: the connection variables and the
    keepalive timer, for the error and for the status endpoint. *)
Definition error_conn (s : t) : bool * string * string * option Timer :=
  (connected s, state s, socket_state s, heartbeat_timer s).

Definition status_conn (s : ApplicationStatus.t)
  : bool * string * string * option Timer :=
  (ApplicationStatus.connected s, ApplicationStatus.state s,
   ApplicationStatus.status_state s, ApplicationStatus.status_timer s).

(** [process_error] on a [PING]: the branch on the socket state, then the
    keepalive armed from [pparams] when the message carries the block. *)
Definition ping_branch (s : t) : t :=
  if String.eqb (socket_state s) "Up" then refresh_error_heartbeat s
  else if String.eqb (state s) "Timeout"
       then subscribe (unsubscribe (update_state "Connecting" s))
       else update_state "Connected" (set_socket_state "Up" s).

Definition arm (pparams : option Z) (s : t) : t :=
  match pparams with
  | Some interval => start_error_heartbeat (interval * 2) s
  | None => s
  end.

(** Every reference in the buffer addresses an allocated dictionary. *)
Definition refs_allocated (s : t) : Prop :=
  Forall (fun a => (a < length (heap s))%nat) (error_list s).

(** The socket state is [Up] exactly when the label is [Connected]. *)
Definition up_when_connected (s : t) : Prop :=
  socket_state s = "Up" <-> state s = "Connected".

(** The message without its [pparams] block. *)
Definition without_pparams (msg : Container) : Container :=
  mkContainer (c_type msg) (c_interp_name msg) (c_note msg) None
    (c_emc_command_params msg) (c_emc_status_motion msg)
    (c_emc_status_config msg) (c_emc_status_io msg) (c_emc_status_task msg)
    (c_emc_status_interp msg).

End ErrorView.

Module ErrorScenarios.
Import ApplicationError.

Definition uri : string := "tcp://machine:5600".

Definition notification (ty : ContainerType) (notes : list string) : Container :=
  mkContainer (Some ty) None notes None ∅ None None None None None.

Definition ping (pparams : option Z) : Container :=
  mkContainer (Some MT_PING) None [] pparams ∅ None None None None None.

(** S4: an [OPERATOR_TEXT] with two notes, then an [NML_ERROR] with one. *)
Definition S4_trace : list event :=
  [ SetUri uri; Start;
    Receive "text" (notification MT_EMC_OPERATOR_TEXT ["a"; "b"]);
    Receive "error" (notification MT_EMC_NML_ERROR ["x"]) ].

Definition S4_state : t := default init (run S4_trace init).

(** A fresh endpoint, configured and started. *)
Definition started : t := state_of (start (set_error_uri uri init)).

(** The endpoint connects on the first [PING], which arms the keepalive
    at twice 1000 ms; the keepalive then expires. *)
Definition timed_out_trace : list event :=
  [ SetUri uri; Start; Receive "" (ping (Some 1000)); TimerExpires ].

Definition timed_out : t := default init (run timed_out_trace init).

(** After the timeout a [PING] with keepalive parameters arrives: the
    endpoint resubscribes and arms the keepalive while [Connecting]. *)
Definition rearmed_trace : list event :=
  [ SetUri uri; Start; Receive "" (ping (Some 1000)); TimerExpires;
    Receive "" (ping (Some 1000)) ].

Definition rearmed : t := default init (run rearmed_trace init).

End ErrorScenarios.

(* ================================================================== *)
(** * Part II: properties                                              *)
(* ================================================================== *)

(** ** Generic helpers *)

Lemma fold_left_preserves {A B} (P : A -> Prop) (f : A -> B -> A) (l : list B) :
  (forall a b, P a -> P (f a b)) -> forall a, P a -> P (fold_left f l a).
Proof.
  intros Hf. induction l as [|b l IH]; intros a Ha; simpl; [done|].
  apply IH, Hf, Ha.
Qed.

Lemma eqb_refl_string (a : string) : String.eqb a a = true.
Proof. apply String.eqb_refl. Qed.

Ltac string_cases :=
  repeat match goal with
  | |- context [String.eqb ?a ?b] => destruct (String.eqb_spec a b)
  | H : context [String.eqb ?a ?b] |- _ => destruct (String.eqb_spec a b)
  end.

Lemma start_threads_polls ts shutdown :
  worker_polls (fst (start_threads (ts ++ [false]))) shutdown = negb shutdown.
Proof.
  unfold worker_polls. f_equal.
  induction ts as [|b ts IH]; simpl; [done|].
  destruct b; simpl; [done|].
  destruct (start_threads (ts ++ [false])) as [ts' r]; simpl in *. done.
Qed.

(* ------------------------------------------------------------------ *)
(** ** ApplicationStatus *)
(* ------------------------------------------------------------------ *)

Module StatusFacts.
Import ApplicationStatus StatusView.

Lemma channels_nonempty : channels <> ∅.
Proof. intros H. assert ("motion" ∈ channels) as Hin by (unfold channels; set_solver). rewrite H in Hin. set_solver. Qed.

Lemma elements_channels :
  elements channels = ["config"; "motion"; "io"; "interp"; "task"].
Proof. vm_compute. reflexivity. Qed.

(** *** Frame facts *)

Lemma subscribe_control s :
  control (subscribe s) = (connected s, state s, "Trying", synced s, synced_channels s).
Proof.
  unfold subscribe.
  apply (fold_left_preserves
           (fun s' => control s' = (connected s, state s, "Trying", synced s, synced_channels s))).
  - intros a b Ha. exact Ha.
  - reflexivity.
Qed.

Lemma subscribe_mirrors s : mirrors (subscribe s) = mirrors s.
Proof.
  unfold subscribe.
  apply (fold_left_preserves (fun s' => mirrors s' = mirrors s)); [|done].
  intros a b Ha. exact Ha.
Qed.

Lemma subscribe_timer s :
  status_timer (subscribe s) = status_timer s /\ status_period (subscribe s) = status_period s.
Proof.
  unfold subscribe.
  apply (fold_left_preserves
           (fun s' => status_timer s' = status_timer s /\ status_period s' = status_period s)); [|done].
  intros a b Ha. exact Ha.
Qed.

Lemma clear_subscription_control x s : control (clear_subscription x s) = control s.
Proof. unfold clear_subscription. string_cases; reflexivity. Qed.

Lemma clear_subscription_timer x s :
  status_timer (clear_subscription x s) = status_timer s
  /\ status_period (clear_subscription x s) = status_period s.
Proof. unfold clear_subscription. string_cases; done. Qed.

Lemma unsubscribe_control s :
  control (unsubscribe s) = (connected s, state s, "Down", synced s, synced_channels s).
Proof.
  unfold unsubscribe.
  set (f := fun s0 sub => clear_subscription sub (sock (SockUnsubscribe sub) s0)).
  set (s1 := set_status_state "Down" s).
  change (control (fold_left f (elements (subscriptions s1)) s1)
          = (connected s, state s, "Down", synced s, synced_channels s)).
  apply (fold_left_preserves
           (fun s' => control s' = (connected s, state s, "Down", synced s, synced_channels s))); [|done].
  intros a b Ha. unfold f. rewrite clear_subscription_control. exact Ha.
Qed.

Lemma unsubscribe_timer s :
  status_timer (unsubscribe s) = status_timer s
  /\ status_period (unsubscribe s) = status_period s.
Proof.
  unfold unsubscribe.
  set (f := fun s0 sub => clear_subscription sub (sock (SockUnsubscribe sub) s0)).
  set (s1 := set_status_state "Down" s).
  change (status_timer (fold_left f (elements (subscriptions s1)) s1) = status_timer s
          /\ status_period (fold_left f (elements (subscriptions s1)) s1) = status_period s).
  apply (fold_left_preserves
           (fun s' => status_timer s' = status_timer s /\ status_period s' = status_period s)); [|done].
  intros a b Ha. unfold f.
  destruct (clear_subscription_timer b (sock (SockUnsubscribe b) a)) as [-> ->]. exact Ha.
Qed.

(** *** [update_state] *)

Lemma update_state_control new s :
  control (update_state new s) =
  if String.eqb new (state s) then control s
  else if String.eqb new "Connected"
       then (true, new, status_state s, synced s, synced_channels s)
       else if connected s then (false, new, status_state s, false, ∅)
            else (connected s, new, status_state s, synced s, synced_channels s).
Proof.
  unfold update_state.
  destruct (String.eqb new (state s)); [done|].
  destruct (String.eqb new "Connected"); [done|].
  simpl. destruct (connected s) eqn:Hc; [|unfold control; simpl; by rewrite Hc].
  unfold stop_status_heartbeat; simpl.
  destruct (status_timer s); destruct (String.eqb new "Timeout"); reflexivity.
Qed.

Lemma update_state_agrees new s :
  agrees (connected s) (state s) ->
  agrees (connected (update_state new s)) (state (update_state new s)).
Proof.
  intros H.
  pose proof (update_state_control new s) as Hc. unfold control in Hc.
  destruct (String.eqb_spec new (state s)) as [->|Hne].
  { injection Hc as -> -> _ _ _. exact H. }
  destruct (String.eqb_spec new "Connected") as [->|Hnc].
  { injection Hc as -> -> _ _ _. done. }
  destruct (connected s) eqn:Hconn; injection Hc as -> -> _ _ _;
    unfold agrees; split; intros; congruence.
Qed.

(** Leaving [Connected]: the heartbeat is stopped, the sync set cleared,
    and the mirrors are cleared unless the new label is [Timeout]. *)
Lemma update_state_leaves_connected new s :
  connected s = true -> new <> state s -> new <> "Connected" ->
  let s' := update_state new s in
  status_timer s' = None /\ synced_channels s' = ∅ /\ synced s' = false
  /\ status_period s' = 0
  /\ mirrors s' = (if String.eqb new "Timeout" then mirrors s else cleared).
Proof.
  intros Hc Hne Hnc. unfold update_state.
  destruct (String.eqb_spec new (state s)); [done|].
  destruct (String.eqb_spec new "Connected"); [done|].
  simpl. rewrite Hc. unfold stop_status_heartbeat. simpl.
  destruct (status_timer s) eqn:E; destruct (String.eqb new "Timeout"); simpl;
    rewrite ?E; done.
Qed.

(** Without a change of [connected] nothing but the label is touched. *)
Lemma update_state_not_connected new s :
  connected s = false -> new <> "Connected" ->
  mirrors (update_state new s) = mirrors s
  /\ status_timer (update_state new s) = status_timer s
  /\ status_period (update_state new s) = status_period s.
Proof.
  intros Hc Hnc. unfold update_state.
  destruct (String.eqb_spec new (state s)); [done|].
  destruct (String.eqb_spec new "Connected"); [done|].
  simpl. rewrite Hc. done.
Qed.

Lemma update_state_connected_mirrors s :
  mirrors (update_state "Connected" s) = mirrors s.
Proof.
  unfold update_state. destruct (String.eqb "Connected" (state s)); done.
Qed.

(** *** [process_status] on update messages *)

Lemma channel_update_other topic name msg payload update s :
  topic <> name -> channel_update topic name msg payload update s = s.
Proof.
  intros H. unfold channel_update.
  destruct (String.eqb_spec topic name); [done|reflexivity].
Qed.

Lemma channel_update_same name msg payload update s :
  channel_update name name msg payload update s =
  match payload with
  | Some data =>
      if is_full_update (c_type msg) then update_sync name (update data s)
      else update data s
  | None => s
  end.
Proof. unfold channel_update. rewrite String.eqb_refl. reflexivity. Qed.

Lemma process_status_update topic msg s :
  is_update (topic, msg) = true ->
  process_status topic msg s = bring_up msg (absorb topic msg (set_rx msg s)).
Proof.
  unfold is_update; simpl. intros Hty.
  assert (process_status topic msg s =
          bring_up msg
            (channel_update topic "interp" msg (c_emc_status_interp msg) update_interp
            (channel_update topic "task" msg (c_emc_status_task msg) update_task
            (channel_update topic "io" msg (c_emc_status_io msg) update_io
            (channel_update topic "config" msg (c_emc_status_config msg) update_config
            (channel_update topic "motion" msg (c_emc_status_motion msg) update_motion
               (set_rx msg s))))))) as ->.
  { unfold process_status, bring_up.
    destruct (c_type msg) as [[]|]; try discriminate Hty; reflexivity. }
  f_equal. unfold absorb, channel_payload, merge_for.
  destruct (String.eqb_spec topic "motion") as [->|].
  { rewrite channel_update_same, !channel_update_other by done. reflexivity. }
  rewrite (channel_update_other topic "motion") by done.
  destruct (String.eqb_spec topic "config") as [->|].
  { rewrite channel_update_same, !channel_update_other by done. reflexivity. }
  rewrite (channel_update_other topic "config") by done.
  destruct (String.eqb_spec topic "io") as [->|].
  { rewrite channel_update_same, !channel_update_other by done. reflexivity. }
  rewrite (channel_update_other topic "io") by done.
  destruct (String.eqb_spec topic "task") as [->|].
  { rewrite channel_update_same, !channel_update_other by done. reflexivity. }
  rewrite (channel_update_other topic "task") by done.
  destruct (String.eqb_spec topic "interp") as [->|].
  { rewrite channel_update_same. reflexivity. }
  rewrite (channel_update_other topic "interp") by done.
  reflexivity.
Qed.

(** *** The two phases of an update *)

Lemma merge_for_frame topic data s :
  control (merge_for topic data s) = control s
  /\ rest (merge_for topic data s) = rest s.
Proof. unfold merge_for. string_cases; done. Qed.

Lemma update_sync_control c s :
  control (update_sync c s) =
  (connected s, state s, status_state s,
   (if bool_decide ({[ c ]} ∪ synced_channels s = channels) then true else synced s),
   {[ c ]} ∪ synced_channels s).
Proof.
  unfold update_sync. cbn [synced_channels set_synced_channels].
  case_bool_decide; reflexivity.
Qed.

Lemma update_sync_frame c s :
  rest (update_sync c s) = rest s /\ mirrors (update_sync c s) = mirrors s.
Proof.
  unfold update_sync. cbn [synced_channels set_synced_channels].
  case_bool_decide; done.
Qed.

Lemma channel_payload_topic topic msg data :
  channel_payload topic msg = Some data -> topic ∈ channels.
Proof.
  unfold channel_payload, channels.
  destruct (String.eqb_spec topic "motion") as [->|]; [set_solver|].
  destruct (String.eqb_spec topic "config") as [->|]; [set_solver|].
  destruct (String.eqb_spec topic "io") as [->|]; [set_solver|].
  destruct (String.eqb_spec topic "task") as [->|]; [set_solver|].
  destruct (String.eqb_spec topic "interp") as [->|]; [set_solver|].
  discriminate.
Qed.

Lemma full_topic_sub m : full_topic m ⊆ channels.
Proof.
  destruct m as [topic msg]. unfold full_topic; cbn [fst snd].
  destruct (is_full_update (c_type msg)); [|set_solver].
  destruct (channel_payload topic msg) eqn:Hp; [|set_solver].
  apply channel_payload_topic in Hp. set_solver.
Qed.

Lemma absorb_control topic msg s :
  let ft := full_topic (topic, msg) in
  control (absorb topic msg s) =
  (connected s, state s, status_state s,
   (if decide (ft = ∅) then synced s
    else if bool_decide (ft ∪ synced_channels s = channels) then true else synced s),
   ft ∪ synced_channels s).
Proof.
  unfold absorb, full_topic; cbn [fst snd].
  destruct (channel_payload topic msg) as [data|] eqn:Hp.
  - destruct (is_full_update (c_type msg)).
    + rewrite update_sync_control.
      destruct (merge_for_frame topic data s) as [Hc _].
      unfold control in Hc. injection Hc as -> -> -> -> ->.
      destruct (decide ({[topic]} = (∅ : gset string))) as [He|_]; [set_solver|].
      reflexivity.
    + destruct (merge_for_frame topic data s) as [-> _].
      rewrite decide_True by done. unfold control. by rewrite (left_id_L ∅ (∪)).
  - destruct (is_full_update (c_type msg));
      rewrite decide_True by done; unfold control; by rewrite (left_id_L ∅ (∪)).
Qed.

Lemma absorb_rest topic msg s : rest (absorb topic msg s) = rest s.
Proof.
  unfold absorb.
  destruct (channel_payload topic msg) as [data|]; [|done].
  destruct (is_full_update (c_type msg)).
  - destruct (update_sync_frame topic (merge_for topic data s)) as [-> _].
    apply merge_for_frame.
  - apply merge_for_frame.
Qed.

Lemma absorb_none topic msg s :
  channel_payload topic msg = None -> absorb topic msg s = s.
Proof. unfold absorb. by intros ->. Qed.

Lemma start_status_heartbeat_frame i s :
  control (start_status_heartbeat i s) = control s
  /\ mirrors (start_status_heartbeat i s) = mirrors s
  /\ threads (start_status_heartbeat i s) = threads s
  /\ shutdown (start_status_heartbeat i s) = shutdown s.
Proof.
  unfold start_status_heartbeat.
  destruct (status_timer s); cbn [status_timer set_status_timer set_status_period];
    destruct (0 <? i); done.
Qed.

Lemma refresh_status_heartbeat_frame s :
  control (refresh_status_heartbeat s) = control s
  /\ mirrors (refresh_status_heartbeat s) = mirrors s
  /\ threads (refresh_status_heartbeat s) = threads s
  /\ shutdown (refresh_status_heartbeat s) = shutdown s.
Proof. unfold refresh_status_heartbeat. destruct (status_timer s); done. Qed.

Lemma update_state_workers new s :
  threads (update_state new s) = threads s
  /\ shutdown (update_state new s) = shutdown s
  /\ status_state (update_state new s) = status_state s.
Proof.
  unfold update_state, stop_status_heartbeat.
  destruct (String.eqb new (state s)); [done|].
  destruct (String.eqb new "Connected"); [done|].
  cbn. destruct (connected s); [|done].
  destruct (status_timer s); destruct (String.eqb new "Timeout"); done.
Qed.

Lemma bring_up_control msg s :
  control (bring_up msg s) =
  if is_full_update (c_type msg) then
    if String.eqb (status_state s) "Up" then control s
    else control (update_state "Connected" (set_status_state "Up" s))
  else control s.
Proof.
  unfold bring_up.
  destruct (is_full_update (c_type msg)).
  - destruct (String.eqb (status_state s) "Up"); cbn [negb];
      destruct (c_pparams msg); try done; apply start_status_heartbeat_frame.
  - apply refresh_status_heartbeat_frame.
Qed.

Lemma bring_up_mirrors msg s : mirrors (bring_up msg s) = mirrors s.
Proof.
  unfold bring_up.
  destruct (is_full_update (c_type msg)).
  - assert (mirrors (if negb (String.eqb (status_state s) "Up")
                     then update_state "Connected" (set_status_state "Up" s)
                     else s) = mirrors s) as H.
    { destruct (String.eqb (status_state s) "Up"); cbn [negb]; [done|].
      by rewrite update_state_connected_mirrors. }
    destruct (c_pparams msg); [|done].
    destruct (start_status_heartbeat_frame (z * 2)
                (if negb (String.eqb (status_state s) "Up")
                 then update_state "Connected" (set_status_state "Up" s)
                 else s)) as (_ & -> & _). done.
  - apply refresh_status_heartbeat_frame.
Qed.

Lemma bring_up_workers msg s :
  threads (bring_up msg s) = threads s /\ shutdown (bring_up msg s) = shutdown s.
Proof.
  unfold bring_up.
  destruct (is_full_update (c_type msg)).
  - assert (threads (if negb (String.eqb (status_state s) "Up")
                     then update_state "Connected" (set_status_state "Up" s)
                     else s) = threads s
            /\ shutdown (if negb (String.eqb (status_state s) "Up")
                     then update_state "Connected" (set_status_state "Up" s)
                     else s) = shutdown s) as [H1 H2].
    { destruct (String.eqb (status_state s) "Up"); cbn [negb]; [done|].
      destruct (update_state_workers "Connected" (set_status_state "Up" s))
        as (-> & -> & _). done. }
    destruct (c_pparams msg); [|done].
    destruct (start_status_heartbeat_frame (z * 2)
                (if negb (String.eqb (status_state s) "Up")
                 then update_state "Connected" (set_status_state "Up" s)
                 else s)) as (_ & _ & -> & ->). done.
  - apply refresh_status_heartbeat_frame.
Qed.

(** *** The invariant *)

Lemma Inv_proj s :
  Inv s ->
  agrees (connected s) (state s)
  /\ (status_state s = "Up" -> state s = "Connected")
  /\ synced_channels s ⊆ channels
  /\ (synced s = true <-> synced_channels s = channels)
  /\ (state s <> "Connected" -> synced_channels s = ∅).
Proof. intros H. exact H. Qed.

Lemma Inv_same s s' : control s' = control s -> Inv s -> Inv s'.
Proof. unfold Inv. by intros ->. Qed.

Lemma Inv_status_state s s' x :
  x <> "Up" ->
  control s' = (connected s, state s, x, synced s, synced_channels s) ->
  Inv s -> Inv s'.
Proof.
  unfold Inv. intros Hx ->. unfold control, InvC.
  intros (H1 & H2 & H3 & H4 & H5). repeat split; try tauto; try apply H1; try apply H4.
Qed.

Lemma Inv_init : Inv init.
Proof.
  unfold Inv, control, InvC, init, agrees; cbn.
  repeat split; try discriminate; try set_solver.
Qed.

Lemma update_state_Inv new s :
  Inv s -> (new <> "Connected" -> status_state s <> "Up") ->
  Inv (update_state new s).
Proof.
  unfold Inv. rewrite update_state_control. unfold control, InvC, agrees.
  intros (H1 & H2 & H3 & H4 & H5) Hup.
  destruct (String.eqb_spec new (state s)) as [->|Hne]; [done|].
  destruct (String.eqb_spec new "Connected") as [->|Hnc].
  { repeat split; try tauto; apply H4. }
  destruct (connected s) eqn:Hc.
  - repeat split; try done; try set_solver;
      try (intros; exfalso; by apply Hup);
      try (intros H; exfalso; by apply channels_nonempty).
  - repeat split; try done; try apply H4;
      try (intros; exfalso; by apply Hup).
    intros _. apply H5. intros Hst. apply H1 in Hst. discriminate.
Qed.

Lemma bring_connected_Inv s :
  agrees (connected s) (state s) ->
  synced_channels s ⊆ channels ->
  (synced s = true <-> synced_channels s = channels) ->
  Inv (update_state "Connected" (set_status_state "Up" s)).
Proof.
  intros H1 H3 H4. unfold Inv. rewrite update_state_control.
  cbn [state connected status_state synced synced_channels set_status_state].
  destruct (String.eqb_spec "Connected" (state s)) as [He|Hne].
  - unfold control, InvC.
    cbn [state connected status_state synced synced_channels set_status_state].
    repeat split; try tauto; try apply H1; try apply H4; intros; congruence.
  - cbn. unfold agrees. repeat split; try tauto; apply H4.
Qed.

Lemma synced_after_absorb (ft sync : gset string) (syn : bool) :
  ft ⊆ channels ->
  (syn = true <-> sync = channels) ->
  ((if decide (ft = ∅) then syn
    else if bool_decide (ft ∪ sync = channels) then true else syn) = true
   <-> ft ∪ sync = channels).
Proof.
  intros Hft Hs.
  destruct (decide (ft = ∅)) as [->|Hne].
  - by rewrite (left_id_L ∅ (∪)).
  - case_bool_decide as Hd; [done|].
    split; [|done]. intros Hsyn. apply Hs in Hsyn. subst sync. set_solver.
Qed.

Lemma process_status_update_Inv topic msg s :
  is_update (topic, msg) = true -> Inv s -> Inv (process_status topic msg s).
Proof.
  intros Hu HI. rewrite process_status_update by done.
  pose proof (full_topic_sub (topic, msg)) as Hft.
  pose proof (absorb_control topic msg (set_rx msg s)) as Ha. cbn zeta in Ha.
  cbn [connected state status_state synced synced_channels set_rx] in Ha.
  set (s1 := absorb topic msg (set_rx msg s)) in *.
  assert (connected s1 = connected s /\ state s1 = state s
          /\ status_state s1 = status_state s
          /\ synced_channels s1 = full_topic (topic, msg) ∪ synced_channels s)
    as (Hc1 & Hs1 & Hss1 & Hsy1).
  { unfold control in Ha. by injection Ha as -> -> -> _ ->. }
  destruct HI as (H1 & H2 & H3 & H4 & H5). cbn in H1, H2, H3, H4, H5.
  assert (synced s1 = true <-> synced_channels s1 = channels) as Hsyn1.
  { rewrite Hsy1. unfold control in Ha. injection Ha as _ _ _ -> _.
    by apply synced_after_absorb. }
  assert (synced_channels s1 ⊆ channels) as Hsub1 by (rewrite Hsy1; set_solver).
  unfold Inv. rewrite bring_up_control.
  destruct (is_full_update (c_type msg)) eqn:Hfull.
  - destruct (String.eqb_spec (status_state s1) "Up") as [Hup|Hnup].
    + unfold control, InvC. rewrite Hc1, Hs1.
      rewrite Hss1 in Hup. specialize (H2 Hup).
      repeat split; try tauto; try apply H1; try apply Hsyn1.
    + apply bring_connected_Inv; [by rewrite Hc1, Hs1|done|done].
  - assert (full_topic (topic, msg) = ∅) as Hft0.
    { unfold full_topic; cbn [snd]. by rewrite Hfull. }
    unfold control, InvC. rewrite Hc1, Hs1, Hss1.
    rewrite Hsy1, Hft0, (left_id_L ∅ (∪)) in *.
    repeat split; try tauto; try apply H1; try apply Hsyn1.
Qed.

Lemma ping_resubscribe_Inv s :
  status_state s <> "Up" -> Inv s ->
  Inv (subscribe (unsubscribe (update_state "Connecting" s))).
Proof.
  intros Hup HI.
  eapply (Inv_status_state _ _ "Trying"); [done|apply subscribe_control|].
  eapply (Inv_status_state _ _ "Down"); [done|apply unsubscribe_control|].
  by apply update_state_Inv.
Qed.

Lemma process_status_Inv topic msg s : Inv s -> Inv (process_status topic msg s).
Proof.
  intros HI.
  destruct (is_update (topic, msg)) eqn:Hu.
  { by apply process_status_update_Inv. }
  unfold is_update in Hu; cbn [snd] in Hu.
  unfold process_status.
  assert (Inv (set_rx msg s)) as HI' by (by apply (Inv_same s)).
  destruct (c_type msg) as [[]|]; try discriminate Hu; try exact HI'.
  destruct (String.eqb_spec (status_state (set_rx msg s)) "Up").
  - eapply Inv_same; [apply refresh_status_heartbeat_frame|done].
  - by apply ping_resubscribe_Inv.
Qed.

Lemma start_control s :
  control (state_of (start s)) =
  control (update_state "Connecting" (set_status_state "Trying" s)).
Proof.
  assert (status_state (update_state "Connecting" (set_status_state "Trying" s)) = "Trying") as Hs.
  { by destruct (update_state_workers "Connecting" (set_status_state "Trying" s))
      as (_ & _ & ->). }
  unfold start, connect_sockets.
  set (s1 := update_state "Connecting" (set_status_state "Trying" s)) in *.
  cbn [threads set_shutdown set_threads sock set_status_socket set_sockets_connected].
  destruct (start_threads (threads s1 ++ [false])) as [ts raised].
  destruct raised; cbn [state_of].
  - reflexivity.
  - rewrite subscribe_control. unfold control. cbn. by rewrite Hs.
Qed.

Lemma start_Inv s : Inv s -> Inv (state_of (start s)).
Proof.
  intros HI. eapply Inv_same; [apply start_control|].
  apply update_state_Inv; [|done].
  by eapply (Inv_status_state s _ "Trying").
Qed.

Lemma disconnect_sockets_frame s :
  control (disconnect_sockets s) = control s
  /\ mirrors (disconnect_sockets s) = mirrors s
  /\ status_timer (disconnect_sockets s) = status_timer s.
Proof. unfold disconnect_sockets. destruct (sockets_connected s); done. Qed.

Lemma cleanup_control s :
  control (cleanup s) =
  (connected s, state s, (if connected s then "Down" else status_state s),
   synced s, synced_channels s).
Proof.
  unfold cleanup.
  destruct (connected s) eqn:Hc.
  - change (control (disconnect_sockets (unsubscribe s)) = (true, state s, "Down", synced s, synced_channels s)).
    destruct (disconnect_sockets_frame (unsubscribe s)) as (-> & _).
    rewrite unsubscribe_control. by rewrite Hc.
  - change (control (disconnect_sockets s) = (false, state s, status_state s, synced s, synced_channels s)).
    destruct (disconnect_sockets_frame s) as (-> & _).
    unfold control. by rewrite Hc.
Qed.

Lemma cleanup_status_state s :
  status_state (cleanup s) = if connected s then "Down" else status_state s.
Proof.
  pose proof (cleanup_control s) as Hc. unfold control in Hc.
  injection Hc as _ _ H _ _. exact H.
Qed.

Lemma stop_unfold s :
  state_of (stop s) =
  if join_threads (threads s)
  then update_state "Disconnected"
         (cleanup (set_threads [] (set_shutdown true (set_is_ready false s))))
  else set_shutdown true (set_is_ready false s).
Proof. unfold stop. cbn [threads set_shutdown set_is_ready]. by destruct (join_threads _). Qed.

Lemma stop_Inv s : Inv s -> Inv (state_of (stop s)).
Proof.
  intros HI. rewrite stop_unfold.
  destruct (join_threads (threads s)); [|by apply (Inv_same s)].
  assert (Inv (set_threads [] (set_shutdown true (set_is_ready false s)))) as HI1
    by (by apply (Inv_same s)).
  revert HI1. generalize (set_threads [] (set_shutdown true (set_is_ready false s))).
  clear s HI. intros s (Hag & Hup & Hsub & Hsyn & Hemp).
  apply update_state_Inv.
  - unfold Inv. rewrite cleanup_control. unfold InvC.
    repeat split; try tauto; try apply Hag; try apply Hsyn.
    destruct (connected s); [done|]. exact Hup.
  - intros _ Hu. rewrite cleanup_status_state in Hu.
    destruct (connected s) eqn:Hconn; [done|].
    specialize (Hup Hu). apply Hag in Hup. congruence.
Qed.

Lemma handle_Inv e s s' : Inv s -> handle e s = Some s' -> Inv s'.
Proof.
  intros HI. destruct e; cbn [handle].
  - intros [= <-]. by apply (Inv_same s).
  - intros [= <-]. unfold ready. destruct (is_ready s); [done|].
    apply start_Inv. by apply (Inv_same s).
  - intros [= <-]. by apply start_Inv.
  - intros [= <-]. by apply stop_Inv.
  - destruct (worker_polls _ _); [|done]. intros [= <-]. by apply process_status_Inv.
  - destruct (status_timer s) as [tm|]; [|done].
    destruct (timer_pending tm); [|done]. intros [= <-].
    unfold status_timer_tick. apply update_state_Inv; [|done].
    by eapply (Inv_status_state s _ "Down").
Qed.

Lemma reachable_Inv s : reachable s -> Inv s.
Proof.
  induction 1 as [|s e s' _ IH Hh]; [apply Inv_init|].
  by eapply handle_Inv.
Qed.

(** *** Reachability *)

Lemma run_cons e es s :
  run (e :: es) s = match handle e s with Some s' => run es s' | None => None end.
Proof. reflexivity. Qed.

Lemma run_reachable es : forall s s', reachable s -> run es s = Some s' -> reachable s'.
Proof.
  induction es as [|e es IH]; intros s s' Hr; cbn [run].
  - by intros [= <-].
  - destruct (handle e s) as [s1|] eqn:He; [|done].
    apply IH. by eapply reachable_step.
Qed.

Lemma subscribe_workers s :
  threads (subscribe s) = threads s /\ shutdown (subscribe s) = shutdown s.
Proof.
  unfold subscribe.
  apply (fold_left_preserves
           (fun s' => threads s' = threads s /\ shutdown s' = shutdown s)); [|done].
  intros a b Ha. exact Ha.
Qed.

Lemma start_workers s :
  worker_polls (threads (state_of (start s))) (shutdown (state_of (start s))) = true.
Proof.
  pose proof (start_threads_polls (threads s) false) as Hp.
  destruct (update_state_workers "Connecting" (set_status_state "Trying" s))
    as (Ht & _ & _). cbn [threads set_status_state] in Ht.
  unfold start, connect_sockets.
  cbn [threads set_shutdown set_threads sock set_status_socket set_sockets_connected].
  rewrite Ht.
  destruct (start_threads (threads s ++ [false])) as [ts raised]. cbn [fst] in Hp.
  destruct raised; cbn [state_of]; [exact Hp|].
  match goal with
  | |- context [subscribe ?x] => destruct (subscribe_workers x) as [-> ->]
  end.
  exact Hp.
Qed.

Lemma start_state s : state (state_of (start s)) = "Connecting".
Proof.
  pose proof (start_control s) as Hc. rewrite update_state_control in Hc.
  cbn [state connected status_state synced synced_channels set_status_state] in Hc.
  unfold control in Hc.
  destruct (String.eqb_spec "Connecting" (state s)) as [He|Hne].
  - injection Hc as _ H _ _ _. rewrite He. exact H.
  - cbn [set_status_state connected] in Hc.
    destruct (connected s); injection Hc as _ H _ _ _; exact H.
Qed.

(** *** Messages after [start] *)

Lemma process_status_update_sync topic msg s :
  is_update (topic, msg) = true ->
  synced_channels (process_status topic msg s)
  = full_topic (topic, msg) ∪ synced_channels s.
Proof.
  intros Hu. rewrite process_status_update by done.
  pose proof (bring_up_control msg (absorb topic msg (set_rx msg s))) as Hb.
  pose proof (absorb_control topic msg (set_rx msg s)) as Ha. cbn zeta in Ha.
  cbn [connected state status_state synced synced_channels set_rx] in Ha.
  assert (synced_channels (bring_up msg (absorb topic msg (set_rx msg s)))
          = synced_channels (absorb topic msg (set_rx msg s))) as ->.
  { destruct (is_full_update (c_type msg)).
    - destruct (String.eqb (status_state (absorb topic msg (set_rx msg s))) "Up").
      + unfold control in Hb. by injection Hb as _ _ _ _ ->.
      + rewrite update_state_control in Hb.
        cbn [state connected status_state synced synced_channels set_status_state] in Hb.
        destruct (String.eqb "Connected" _); unfold control in Hb;
          cbn in Hb; by injection Hb as _ _ _ _ ->.
    - unfold control in Hb. by injection Hb as _ _ _ _ ->. }
  unfold control in Ha. by injection Ha as _ _ _ _ ->.
Qed.

Lemma process_status_update_workers topic msg s :
  is_update (topic, msg) = true ->
  threads (process_status topic msg s) = threads s
  /\ shutdown (process_status topic msg s) = shutdown s.
Proof.
  intros Hu. rewrite process_status_update by done.
  destruct (bring_up_workers msg (absorb topic msg (set_rx msg s))) as [-> ->].
  pose proof (absorb_rest topic msg (set_rx msg s)) as Hr.
  unfold rest in Hr. cbn [status_timer status_period threads shutdown set_rx] in Hr.
  by injection Hr as _ _ -> ->.
Qed.

Lemma receive_updates ms : forall s,
  forallb is_update ms = true ->
  worker_polls (threads s) (shutdown s) = true ->
  Inv s ->
  exists s', run (receive <$> ms) s = Some s'
             /\ Inv s'
             /\ synced_channels s' = full_topics ms ∪ synced_channels s.
Proof.
  induction ms as [|[topic msg] ms IH]; intros s Hall Hp HI.
  - exists s. split; [done|]. split; [done|].
    unfold full_topics. cbn [fmap list_fmap union_list foldr].
    by rewrite (left_id_L ∅ (∪)).
  - cbn [forallb] in Hall. apply andb_prop in Hall as [Hu Hall].
    cbn [fmap list_fmap receive run handle fst snd]. rewrite Hp.
    destruct (process_status_update_workers topic msg s Hu) as [Ht Hs].
    destruct (IH (process_status topic msg s)) as (s' & Hrun & HI' & Hsync);
      [done|by rewrite Ht, Hs|by apply process_status_Inv|].
    exists s'. split; [done|]. split; [done|].
    rewrite Hsync, process_status_update_sync by done.
    unfold full_topics. cbn [fmap list_fmap union_list foldr].
    by rewrite (assoc_L (∪)), (comm_L (∪) (⋃ _)).
Qed.

(** *** Transitions out of [Connected] *)

Lemma control_proj s c1 c2 c3 c4 c5 :
  control s = (c1, c2, c3, c4, c5) ->
  connected s = c1 /\ state s = c2 /\ status_state s = c3
  /\ synced s = c4 /\ synced_channels s = c5.
Proof. unfold control. by intros [= -> -> -> -> ->]. Qed.

Lemma update_state_state new s : state (update_state new s) = new.
Proof.
  unfold update_state, stop_status_heartbeat.
  destruct (String.eqb_spec new (state s)) as [->|]; [done|].
  destruct (String.eqb new "Connected"); [done|].
  cbn. destruct (connected s); [|done].
  destruct (status_timer s); destruct (String.eqb new "Timeout"); done.
Qed.

Lemma start_frame s :
  mirrors (state_of (start s))
  = mirrors (update_state "Connecting" (set_status_state "Trying" s))
  /\ status_timer (state_of (start s))
     = status_timer (update_state "Connecting" (set_status_state "Trying" s)).
Proof.
  unfold start, connect_sockets.
  cbn [threads set_shutdown set_threads sock set_status_socket set_sockets_connected].
  destruct (start_threads _) as [ts raised].
  destruct raised; cbn [state_of]; [done|].
  match goal with
  | |- context [subscribe ?x] =>
      rewrite (subscribe_mirrors x); destruct (subscribe_timer x) as [-> _]
  end.
  done.
Qed.

Lemma clear_subscription_cleared x s :
  mirrors s = cleared -> mirrors (clear_subscription x s) = cleared.
Proof.
  unfold mirrors, cleared. intros [= Hm Hc Hi Ht Hn].
  unfold clear_subscription. string_cases; cbn; congruence.
Qed.

Lemma unsubscribe_mirrors_cleared s :
  mirrors s = cleared -> mirrors (unsubscribe s) = cleared.
Proof.
  intros Hm. unfold unsubscribe.
  match goal with
  | |- mirrors (set_subscriptions _ (fold_left ?f ?l ?a)) = _ =>
      change (mirrors (fold_left f l a) = cleared);
      apply (fold_left_preserves (fun s' => mirrors s' = cleared)); [|exact Hm]
  end.
  intros a b Ha. by apply clear_subscription_cleared.
Qed.

Lemma process_status_update_state topic msg s :
  is_update (topic, msg) = true -> state s = "Connected" ->
  state (process_status topic msg s) = "Connected".
Proof.
  intros Hu Hst. rewrite process_status_update by done.
  pose proof (absorb_control topic msg (set_rx msg s)) as Ha. cbn zeta in Ha.
  apply control_proj in Ha as (_ & Hs1 & _). cbn [state set_rx] in Hs1.
  pose proof (bring_up_control msg (absorb topic msg (set_rx msg s))) as Hb.
  destruct (is_full_update (c_type msg)).
  - destruct (String.eqb (status_state _) "Up").
    + unfold control in Hb. injection Hb as _ -> _ _ _. congruence.
    + unfold control in Hb. injection Hb as _ -> _ _ _. apply update_state_state.
  - unfold control in Hb. injection Hb as _ -> _ _ _. congruence.
Qed.

Lemma leave_by_update_state new s :
  connected s = true -> state s = "Connected" -> new <> "Connected" ->
  let s' := update_state new s in
  state s' = new /\ status_timer s' = None /\ synced_channels s' = ∅
  /\ synced s' = false
  /\ mirrors s' = (if String.eqb new "Timeout" then mirrors s else cleared).
Proof.
  intros Hc Hst Hn. split; [apply update_state_state|].
  destruct (update_state_leaves_connected new s) as (H1 & H2 & H3 & _ & H5);
    try done. congruence.
Qed.

Lemma leave_by_start s :
  Inv s -> state s = "Connected" ->
  let s' := state_of (start s) in
  state s' = "Connecting" /\ status_timer s' = None /\ synced_channels s' = ∅
  /\ synced s' = false /\ mirrors s' = cleared.
Proof.
  intros HI Hst s'. subst s'.
  apply Inv_proj in HI as (Hag & _).
  assert (connected s = true) as Hc by (by apply Hag).
  destruct (leave_by_update_state "Connecting" (set_status_state "Trying" s))
    as (H1 & H2 & H3 & H4 & H5); [done|done|done|].
  destruct (start_frame s) as [Hm Ht].
  pose proof (start_control s) as Hctl. unfold control in Hctl.
  injection Hctl as _ Hs _ Hsy Hsc.
  split; [apply start_state|]. split; [by rewrite Ht|].
  split; [by rewrite Hsc|]. split; [by rewrite Hsy|]. by rewrite Hm.
Qed.

Lemma leave_by_stop s :
  Inv s -> state s = "Connected" -> state (state_of (stop s)) <> "Connected" ->
  let s' := state_of (stop s) in
  state s' = "Disconnected" /\ status_timer s' = None /\ synced_channels s' = ∅
  /\ synced s' = false /\ mirrors s' = cleared.
Proof.
  intros HI Hst. rewrite stop_unfold.
  destruct (join_threads (threads s)); [|by intros []].
  intros _.
  apply Inv_proj in HI as (Hag & _).
  assert (connected s = true) as Hc by (by apply Hag).
  pose proof (cleanup_control (set_threads [] (set_shutdown true (set_is_ready false s))))
    as Hctl.
  apply control_proj in Hctl as (Hc' & Hs' & _).
  cbn [connected state set_threads set_shutdown set_is_ready] in Hc', Hs'.
  destruct (leave_by_update_state "Disconnected"
              (cleanup (set_threads [] (set_shutdown true (set_is_ready false s)))))
    as (H1 & H2 & H3 & H4 & H5); [congruence|congruence|done|].
  repeat split; done.
Qed.

Lemma leave_by_ping msg s :
  Inv s -> state s = "Connected" ->
  let s' := subscribe (unsubscribe (update_state "Connecting" (set_rx msg s))) in
  state s' = "Connecting" /\ status_timer s' = None /\ synced_channels s' = ∅
  /\ synced s' = false /\ mirrors s' = cleared.
Proof.
  intros HI Hst s'. subst s'.
  apply Inv_proj in HI as (Hag & _).
  assert (connected s = true) as Hc by (by apply Hag).
  destruct (leave_by_update_state "Connecting" (set_rx msg s))
    as (H1 & H2 & H3 & H4 & H5); [done|done|done|].
  set (s1 := update_state "Connecting" (set_rx msg s)) in *.
  pose proof (unsubscribe_control s1) as Hu.
  apply control_proj in Hu as (_ & Hu2 & _ & Hu4 & Hu5).
  pose proof (subscribe_control (unsubscribe s1)) as Hs.
  apply control_proj in Hs as (_ & Hs2 & _ & Hs4 & Hs5).
  destruct (unsubscribe_timer s1) as [Hut _].
  destruct (subscribe_timer (unsubscribe s1)) as [Hst' _].
  split; [congruence|]. split; [congruence|]. split; [congruence|].
  split; [congruence|].
  rewrite subscribe_mirrors. by apply unsubscribe_mirrors_cleared.
Qed.

Lemma leave_by_timer tm s :
  Inv s -> state s = "Connected" ->
  let s' := status_timer_tick (set_status_timer (Some (fired tm)) s) in
  state s' = "Timeout" /\ status_timer s' = None /\ synced_channels s' = ∅
  /\ synced s' = false /\ mirrors s' = mirrors s.
Proof.
  intros HI Hst s'. subst s'. unfold status_timer_tick.
  apply Inv_proj in HI as (Hag & _).
  assert (connected s = true) as Hc by (by apply Hag).
  destruct (leave_by_update_state "Timeout"
              (set_status_state "Down" (set_status_timer (Some (fired tm)) s)))
    as (H1 & H2 & H3 & H4 & H5); [done|done|done|].
  repeat split; done.
Qed.

Lemma process_status_keeps_connected topic msg s :
  Inv s -> state s = "Connected" ->
  state (process_status topic msg s) <> "Connected" ->
  c_type msg = Some MT_PING /\ status_state s <> "Up"
  /\ process_status topic msg s
     = subscribe (unsubscribe (update_state "Connecting" (set_rx msg s))).
Proof.
  intros HI Hst Hne.
  destruct (is_update (topic, msg)) eqn:Hu.
  { exfalso. apply Hne. by apply process_status_update_state. }
  unfold is_update in Hu; cbn [snd] in Hu.
  revert Hne. unfold process_status.
  destruct (c_type msg) as [[]|]; try discriminate Hu;
    try (intros Hne; exfalso; by apply Hne).
  cbn [status_state set_rx].
  destruct (String.eqb_spec (status_state s) "Up") as [Hup|Hup].
  - intros Hne. exfalso. apply Hne.
    destruct (refresh_status_heartbeat_frame (set_rx msg s)) as (Hc & _).
    apply (f_equal (fun c => c.1.1.1.2)) in Hc. exact (eq_trans Hc Hst).
  - done.
Qed.

End StatusFacts.

(* ------------------------------------------------------------------ *)
(** ** ApplicationCommand *)
(* ------------------------------------------------------------------ *)

Module CommandFacts.
Import ApplicationCommand CommandView.

Ltac unfold_commands :=
  unfold abort, run_program, pause_program, step_program, resume_program,
    reset_program, set_task_mode, set_task_state, open_program, execute_mdi,
    set_spindle_brake, set_debug_level, set_feed_override, set_flood_enabled,
    home_axis, jog, load_tool_table, set_maximum_velocity, set_mist_enabled,
    override_limits, set_adaptive_feed_enabled, set_analog_output,
    set_block_delete_enabled, set_digital_output, set_feed_hold_enabled,
    set_feed_override_enabled, set_axis_max_position_limit,
    set_axis_min_position_limit, set_optional_stop_enabled,
    set_spindle_override_enabled, set_spindle, set_spindle_override,
    set_teleop_enabled, set_teleop_vector, set_tool_offset,
    set_trajectory_mode, unhome_axis, shutdown.

Ltac branch_cases :=
  repeat match goal with
  | |- context [if ?b then _ else _] => destruct b
  end.

(** Runs a command body statement by statement: every test (the checks
    of the serialization layer, the comparisons of the argument, the
    outcome of the send) is split, the writes stay folded. *)
Ltac step_through :=
  unfold and_then, tx_param, tx_interp_name, send_command_msg;
  repeat (first
    [ match goal with
      | |- context [if ?b then _ else _] => destruct b
      end
    | progress cbv beta iota zeta ]).

(** *** Writes to the outbound container *)

Lemma write_param_beside f v s : beside_tx (write_param f v s) = beside_tx s.
Proof. reflexivity. Qed.

Lemma write_interp_name_beside v s : beside_tx (write_interp_name v s) = beside_tx s.
Proof. reflexivity. Qed.

Lemma tx_type_beside ty s : beside_tx (tx_type ty s) = beside_tx s.
Proof. reflexivity. Qed.

Lemma tx_clear_beside s : beside_tx (tx_clear s) = beside_tx s.
Proof. reflexivity. Qed.

Lemma sock_beside op s : beside_tx (sock op s) = beside_tx s.
Proof. reflexivity. Qed.

Lemma beside_proj s s' :
  beside_tx s' = beside_tx s ->
  threads s' = threads s /\ shutdown_event s' = shutdown_event s
  /\ is_ready s' = is_ready s /\ connected s' = connected s
  /\ state s' = state s /\ command_state s' = command_state s
  /\ command_uri s' = command_uri s /\ heartbeat_period s' = heartbeat_period s
  /\ ping_error_count s' = ping_error_count s
  /\ ping_error_threshold s' = ping_error_threshold s
  /\ heartbeat_timer s' = heartbeat_timer s /\ rx s' = rx s
  /\ sockets_connected s' = sockets_connected s.
Proof. unfold beside_tx. intros H. repeat split; congruence. Qed.

Lemma sent_write_param f v s : sent (write_param f v s) = sent s.
Proof. reflexivity. Qed.

Lemma sent_write_interp_name v s : sent (write_interp_name v s) = sent s.
Proof. reflexivity. Qed.

Lemma sent_tx_type ty s : sent (tx_type ty s) = sent s.
Proof. reflexivity. Qed.

Lemma sent_tx_clear s : sent (tx_clear s) = sent s.
Proof. reflexivity. Qed.

Lemma tx_tx_clear s : tx (tx_clear s) = empty_container.
Proof. reflexivity. Qed.

Lemma sent_snoc_send msg s :
  sent (sock (SockSend msg) s) = (sent s ++ [msg])%list.
Proof. unfold sent, sock. cbn [command_socket set_command_socket]. by rewrite omap_app. Qed.

Lemma write_param_cong f v a b :
  tx a = tx b -> tx (write_param f v a) = tx (write_param f v b).
Proof. unfold write_param. cbn [tx set_tx]. by intros ->. Qed.

Lemma write_interp_name_cong v a b :
  tx a = tx b -> tx (write_interp_name v a) = tx (write_interp_name v b).
Proof. unfold write_interp_name. cbn [tx set_tx]. by intros ->. Qed.

Lemma tx_type_cong ty a b : tx a = tx b -> tx (tx_type ty a) = tx (tx_type ty b).
Proof. unfold tx_type. cbn [tx set_tx]. by intros ->. Qed.

Lemma tx_type_type ty s : c_type (tx (tx_type ty s)) = Some ty.
Proof. reflexivity. Qed.

(** *** [send_command_msg] *)

Lemma send_command_msg_through ty s :
  send_command_msg ty true s
  = Returned (tx_clear (sock (SockSend (tx (tx_type ty s))) (tx_type ty s))).
Proof. reflexivity. Qed.

Lemma send_command_msg_refused ty s :
  send_command_msg ty false s = Raised (tx_type ty s).
Proof. reflexivity. Qed.

Lemma send_command_msg_sent ty sends s :
  sent (state_of (send_command_msg ty sends s))
  = if sends then (sent s ++ [tx (tx_type ty s)])%list else sent s.
Proof.
  destruct sends; [|reflexivity].
  rewrite send_command_msg_through. cbn [state_of].
  by rewrite sent_tx_clear, sent_snoc_send, sent_tx_type.
Qed.

Lemma send_command_msg_beside ty sends s :
  beside_tx (state_of (send_command_msg ty sends s)) = beside_tx s.
Proof. by destruct sends. Qed.

Lemma send_command_msg_tx ty sends s :
  returned (send_command_msg ty sends s) = sends
  /\ tx (state_of (send_command_msg ty sends s))
     = if sends then empty_container else tx (tx_type ty s).
Proof. by destruct sends. Qed.

(** *** [update_state] *)

Lemma cmd_update_state_frame new s :
  tx (update_state new s) = tx s
  /\ heartbeat_timer (update_state new s) = heartbeat_timer s
  /\ heartbeat_period (update_state new s) = heartbeat_period s
  /\ command_socket (update_state new s) = command_socket s
  /\ threads (update_state new s) = threads s
  /\ shutdown_event (update_state new s) = shutdown_event s.
Proof.
  unfold update_state.
  destruct (String.eqb new (state s)); [done|].
  destruct (String.eqb new "Connected"); [done|].
  cbn. destruct (connected s); done.
Qed.

Lemma cmd_update_state_state new s : state (update_state new s) = new.
Proof.
  unfold update_state.
  destruct (String.eqb_spec new (state s)) as [->|]; [done|].
  destruct (String.eqb new "Connected"); [done|].
  cbn. destruct (connected s); done.
Qed.

Lemma cmd_update_state_agrees new s :
  agrees (connected s) (state s) ->
  agrees (connected (update_state new s)) (state (update_state new s)).
Proof.
  unfold update_state, agrees. intros H.
  destruct (String.eqb_spec new (state s)) as [->|Hne]; [done|].
  destruct (String.eqb_spec new "Connected") as [->|Hnc]; [done|].
  cbn [connected state set_state set_connected].
  destruct (connected s) eqn:Hc; cbn [connected state set_state set_connected];
    rewrite ?Hc; split; intros; congruence.
Qed.

Lemma cmd_update_state_Inv new s : new <> "Timeout" -> Inv s -> Inv (update_state new s).
Proof.
  intros Hn (Hag & Htm & Hto).
  destruct (cmd_update_state_frame new s) as (_ & H2 & _).
  split; [by apply cmd_update_state_agrees|].
  split; [congruence|]. by rewrite cmd_update_state_state.
Qed.

Lemma cmd_Inv_init client_id : Inv (init client_id).
Proof. unfold Inv, init, agrees; cbn. repeat split; done. Qed.

Lemma Inv_beside s s' : beside_tx s' = beside_tx s -> Inv s -> Inv s'.
Proof.
  intros H (Hag & Htm & Hto).
  apply beside_proj in H as (_ & _ & _ & H1 & H2 & _ & _ & _ & _ & _ & H3 & _).
  unfold Inv. rewrite H1, H2, H3. done.
Qed.

(** *** [start] and [stop] *)

(** [start()] reaches [start_command_heartbeat] right after it has set
    the label to [Connecting], so the guard on [connected] returns early. *)
Lemma start_unfold sends s :
  agrees (connected s) (state s) ->
  let s1 := update_state "Connecting" (set_command_state "Trying" s) in
  let s2 := set_threads (threads s ++ [false])
              (set_shutdown_event false
                 (sock (SockConnect (command_uri s1))
                    (set_sockets_connected true s1))) in
  start sends s =
  if snd (start_threads (threads s ++ [false]))
  then Raised (set_threads (fst (start_threads (threads s ++ [false]))) s2)
  else send_command_msg MT_PING sends
         (set_threads (fst (start_threads (threads s ++ [false]))) s2).
Proof.
  intros Hag s1 s2.
  assert (connected s1 = false) as Hc.
  { pose proof (cmd_update_state_agrees "Connecting" (set_command_state "Trying" s) Hag) as H.
    fold s1 in H. unfold agrees in H.
    assert (state s1 = "Connecting") as Hs by apply cmd_update_state_state.
    destruct (connected s1); [|done]. destruct H as [H _]. specialize (H eq_refl).
    congruence. }
  assert (threads s1 = threads s) as Ht.
  { by destruct (cmd_update_state_frame "Connecting" (set_command_state "Trying" s))
      as (_ & _ & _ & _ & H & _). }
  unfold start, connect_sockets. fold s1.
  cbn [threads set_shutdown_event set_threads sock set_command_socket
       set_sockets_connected command_socket command_uri].
  rewrite Ht.
  destruct (start_threads (threads s ++ [false])) as [ts raised].
  cbn [fst snd]. destruct raised; [reflexivity|].
  unfold start_command_heartbeat.
  cbn [connected sock set_threads set_shutdown_event set_command_socket
       set_sockets_connected].
  rewrite Hc. reflexivity.
Qed.

Lemma cmd_start_Inv sends s : Inv s -> Inv (state_of (start sends s)).
Proof.
  intros HI. pose proof HI as (Hag & Htm & Hto).
  rewrite start_unfold by done.
  assert (Inv (update_state "Connecting" (set_command_state "Trying" s))) as HI1.
  { apply cmd_update_state_Inv; [done|]. exact HI. }
  destruct (snd (start_threads (threads s ++ [false]))); cbn [state_of].
  - exact HI1.
  - eapply Inv_beside; [apply send_command_msg_beside|]. exact HI1.
Qed.

Lemma cmd_stop_unfold s :
  state_of (stop s) =
  if join_threads (threads s)
  then update_state "Disconnected"
         (cleanup (set_threads [] (set_shutdown_event true (set_is_ready false s))))
  else set_shutdown_event true (set_is_ready false s).
Proof.
  unfold stop. cbn [threads set_shutdown_event set_is_ready].
  by destruct (join_threads _).
Qed.

Lemma cleanup_frame s :
  tx (cleanup s) = tx s /\ connected (cleanup s) = connected s
  /\ state (cleanup s) = state s /\ heartbeat_timer (cleanup s) = None.
Proof.
  unfold cleanup, disconnect_sockets, stop_command_heartbeat.
  destruct (heartbeat_timer s) eqn:E;
    cbn [sockets_connected set_heartbeat_timer];
    destruct (sockets_connected s); cbn; rewrite ?E; done.
Qed.

Lemma cmd_stop_Inv s : Inv s -> Inv (state_of (stop s)).
Proof.
  intros (Hag & Htm & Hto). rewrite cmd_stop_unfold.
  destruct (join_threads (threads s)); [|exact (conj Hag (conj Htm Hto))].
  apply cmd_update_state_Inv; [done|].
  destruct (cleanup_frame (set_threads [] (set_shutdown_event true (set_is_ready false s))))
    as (_ & H2 & H3 & H4).
  unfold Inv. rewrite H2, H3, H4.
  exact (conj Hag (conj eq_refl Hto)).
Qed.

Lemma process_command_Inv msg s : Inv s -> Inv (process_command msg s).
Proof.
  intros (Hag & Htm & Hto). unfold process_command.
  destruct (c_type msg) as [[]|]; try exact (conj Hag (conj Htm Hto)).
  cbn [command_state set_ping_error_count set_rx].
  destruct (String.eqb (command_state s) "Up"); cbn [negb];
    [exact (conj Hag (conj Htm Hto))|].
  apply cmd_update_state_Inv; [done|]. exact (conj Hag (conj Htm Hto)).
Qed.

(** *** The command operations *)

Section Commands.
Context (accepts : string -> pyval -> bool).

Lemma call_not_connected c sends s :
  connected s = false -> call accepts c sends s = Returned s.
Proof.
  intros Hc.
  destruct c; cbn [call]; unfold_commands; rewrite Hc; reflexivity.
Qed.

Lemma call_beside c sends s :
  beside_tx (state_of (call accepts c sends s)) = beside_tx s.
Proof.
  destruct c; cbn [call]; unfold_commands;
    destruct (connected s); cbn [negb]; try reflexivity;
    step_through; reflexivity.
Qed.

Lemma call_frame c sends s :
  connected (state_of (call accepts c sends s)) = connected s
  /\ state (state_of (call accepts c sends s)) = state s
  /\ heartbeat_timer (state_of (call accepts c sends s)) = heartbeat_timer s
  /\ threads (state_of (call accepts c sends s)) = threads s
  /\ shutdown_event (state_of (call accepts c sends s)) = shutdown_event s.
Proof.
  pose proof (call_beside c sends s) as H.
  apply beside_proj in H as (H1 & H2 & _ & H4 & H5 & _ & _ & _ & _ & _ & H11 & _).
  done.
Qed.

(** A call sends at most one message, and none when it raises or when
    its send is refused. *)
Lemma call_sent c sends s :
  sent (state_of (call accepts c sends s)) = sent s
  \/ (returned (call accepts c sends s) = true /\ sends = true
      /\ exists msg, sent (state_of (call accepts c sends s)) = (sent s ++ [msg])%list).
Proof.
  destruct c; cbn [call]; unfold_commands;
    destruct (connected s); cbn [negb]; try (by left);
    step_through; cbn [state_of returned];
    first
      [ by left
      | right; split; [reflexivity|]; split; [reflexivity|]; eexists;
        rewrite sent_tx_clear, sent_snoc_send; reflexivity ].
Qed.

(** A call that returns from an empty container leaves it empty. *)
Lemma call_tx c sends s :
  tx s = empty_container -> returned (call accepts c sends s) = true ->
  tx (state_of (call accepts c sends s)) = empty_container.
Proof.
  intros Htx.
  destruct c; cbn [call]; unfold_commands;
    destruct (connected s); cbn [negb]; try (intros _; exact Htx);
    step_through; cbn [state_of returned];
    first [ discriminate | intros _; first [ reflexivity | exact Htx ] ].
Qed.

(** On the invalid-argument path the container is cleared, whatever it
    held, and nothing is sent. *)
Lemma call_invalid c sends s :
  invalid_argument c = true -> connected s = true ->
  sent (state_of (call accepts c sends s)) = sent s
  /\ (returned (call accepts c sends s) = true ->
      tx (state_of (call accepts c sends s)) = empty_container).
Proof.
  destruct c; cbn [invalid_argument]; try discriminate; intros Hi Hc;
    cbn [call]; unfold_commands; rewrite Hc; cbn [negb].
  - do 3 (destruct (_ =? _); [discriminate Hi|]).
    unfold and_then, tx_param. destruct (accepts _ _); cbn [state_of returned];
      split; first [ reflexivity | discriminate | intros _; reflexivity ].
  - do 6 (destruct (_ =? _); [cbn in Hi; discriminate Hi|]).
    split; [reflexivity|intros _; reflexivity].
Qed.

Lemma cmd_handle_Inv e s s' : Inv s -> handle accepts e s = Some s' -> Inv s'.
Proof.
  intros HI. destruct e; cbn [handle].
  - intros [= <-]. exact HI.
  - intros [= <-]. exact HI.
  - intros [= <-]. unfold ready. destruct (is_ready s); [done|].
    apply cmd_start_Inv. exact HI.
  - intros [= <-]. by apply cmd_start_Inv.
  - intros [= <-]. by apply cmd_stop_Inv.
  - intros [= <-]. eapply Inv_beside; [apply call_beside|exact HI].
  - destruct (worker_polls _ _); [|done]. intros [= <-]. by apply process_command_Inv.
  - destruct HI as (_ & Htm & _). by rewrite Htm.
Qed.

Lemma cmd_reachable_Inv s : reachable accepts s -> Inv s.
Proof.
  induction 1 as [id|s e s' _ IH Hh]; [apply cmd_Inv_init|].
  by eapply cmd_handle_Inv.
Qed.

Lemma cmd_run_reachable es : forall s s',
  reachable accepts s -> run accepts es s = Some s' -> reachable accepts s'.
Proof.
  induction es as [|e es IH]; intros s s' Hr; cbn [run].
  - by intros [= <-].
  - destruct (handle accepts e s) as [s1|] eqn:He; [|done].
    apply IH. by eapply reachable_step.
Qed.

End Commands.

End CommandFacts.

(* ------------------------------------------------------------------ *)
(** ** ApplicationError *)
(* ------------------------------------------------------------------ *)

Module ErrorFacts.
Import ApplicationError ErrorView.

Lemma fold_left_log {S X O} (log : S -> list O) (op : X -> O) (f : S -> X -> S)
    (l : list X) :
  (forall s x, log (f s x) = (log s ++ [op x])%list) ->
  forall s, log (fold_left f l s) = (log s ++ (op <$> l))%list.
Proof.
  intros Hf. induction l as [|x l IH]; intros s; cbn [fold_left fmap list_fmap].
  - by rewrite app_nil_r.
  - rewrite IH, Hf, <- app_assoc. reflexivity.
Qed.

Lemma fold_left_adds {S} (subs : S -> gset string) (f : S -> string -> S)
    (l : list string) :
  (forall s x, subs (f s x) = {[ x ]} ∪ subs s) ->
  forall s, subs (fold_left f l s) = list_to_set l ∪ subs s.
Proof.
  intros Hf. induction l as [|x l IH]; intros s; cbn [fold_left].
  - set_solver.
  - rewrite IH, Hf, list_to_set_cons. set_solver.
Qed.

(** *** Subscriptions *)

Lemma subscribe_view s :
  error_view (subscribe s)
  = (connected s, state s, "Trying", heartbeat_timer s, heartbeat_period s).
Proof.
  unfold subscribe.
  apply (fold_left_preserves
           (fun s' => error_view s'
                      = (connected s, state s, "Trying", heartbeat_timer s,
                         heartbeat_period s))); [|done].
  intros a b Ha. exact Ha.
Qed.

Lemma err_subscribe_socket s :
  socket (subscribe s) = (socket s ++ (SockSubscribe <$> elements channels))%list.
Proof.
  unfold subscribe.
  rewrite (fold_left_log socket SockSubscribe); [reflexivity|].
  intros a x. reflexivity.
Qed.

Lemma subscribe_subscriptions s :
  subscriptions (subscribe s) = channels ∪ subscriptions s.
Proof.
  unfold subscribe.
  rewrite (fold_left_adds subscriptions); [|intros a x; reflexivity].
  rewrite list_to_set_elements_L. reflexivity.
Qed.

Lemma subscribe_buffer s :
  error_list (subscribe s) = error_list s /\ heap (subscribe s) = heap s
  /\ threads (subscribe s) = threads s /\ shutdown (subscribe s) = shutdown s.
Proof.
  unfold subscribe.
  apply (fold_left_preserves
           (fun s' => error_list s' = error_list s /\ heap s' = heap s
                      /\ threads s' = threads s /\ shutdown s' = shutdown s)); [|done].
  intros a b Ha. exact Ha.
Qed.

Lemma unsubscribe_view s :
  error_view (unsubscribe s)
  = (connected s, state s, "Down", heartbeat_timer s, heartbeat_period s).
Proof.
  unfold unsubscribe.
  match goal with
  | |- error_view (set_subscriptions _ (fold_left ?f ?l ?a)) = ?v =>
      change (error_view (fold_left f l a) = v);
      apply (fold_left_preserves (fun s' => error_view s' = v)); [|done]
  end.
  intros a b Ha. exact Ha.
Qed.

Lemma err_unsubscribe_socket s :
  socket (unsubscribe s)
  = (socket s ++ (SockUnsubscribe <$> elements (subscriptions s)))%list.
Proof.
  unfold unsubscribe.
  match goal with
  | |- socket (set_subscriptions _ (fold_left ?f ?l ?a)) = _ =>
      change (socket (fold_left f l a)
              = (socket s ++ (SockUnsubscribe <$> elements (subscriptions s)))%list)
  end.
  rewrite (fold_left_log socket SockUnsubscribe); [reflexivity|].
  intros a x. reflexivity.
Qed.

Lemma unsubscribe_subscriptions s : subscriptions (unsubscribe s) = ∅.
Proof. reflexivity. Qed.

Lemma unsubscribe_buffer s :
  error_list (unsubscribe s) = error_list s /\ heap (unsubscribe s) = heap s.
Proof.
  unfold unsubscribe.
  match goal with
  | |- error_list (set_subscriptions ?x (fold_left ?f ?l ?a)) = _ /\ _ =>
      change (error_list (fold_left f l a) = error_list s
              /\ heap (fold_left f l a) = heap s);
      apply (fold_left_preserves
               (fun s' => error_list s' = error_list s /\ heap s' = heap s)); [|done]
  end.
  intros a b Ha. exact Ha.
Qed.

(** *** [update_state] and the keepalive *)

Lemma update_state_view new s :
  error_view (update_state new s) =
  if String.eqb new (state s) then error_view s
  else if String.eqb new "Connected"
       then (true, new, socket_state s, heartbeat_timer s, heartbeat_period s)
       else if connected s
            then (false, new, socket_state s, None, heartbeat_period s)
            else (connected s, new, socket_state s, heartbeat_timer s,
                  heartbeat_period s).
Proof.
  unfold update_state, stop_error_heartbeat.
  destruct (String.eqb new (state s)); [done|].
  destruct (String.eqb new "Connected"); [done|].
  cbn [connected set_state set_connected heartbeat_timer].
  destruct (connected s) eqn:Hc.
  - destruct (heartbeat_timer s) eqn:Ht; unfold error_view; cbn; by rewrite ?Ht.
  - unfold error_view; cbn. by rewrite Hc.
Qed.

Lemma err_update_state_state new s : state (update_state new s) = new.
Proof.
  unfold update_state, stop_error_heartbeat.
  destruct (String.eqb_spec new (state s)) as [->|]; [done|].
  destruct (String.eqb new "Connected"); [done|].
  cbn [connected set_state set_connected heartbeat_timer].
  destruct (connected s); [|done]. destruct (heartbeat_timer s); done.
Qed.

Lemma err_update_state_frame new s :
  socket (update_state new s) = socket s
  /\ subscriptions (update_state new s) = subscriptions s
  /\ error_list (update_state new s) = error_list s
  /\ heap (update_state new s) = heap s
  /\ threads (update_state new s) = threads s
  /\ shutdown (update_state new s) = shutdown s.
Proof.
  unfold update_state, stop_error_heartbeat.
  destruct (String.eqb new (state s)); [done|].
  destruct (String.eqb new "Connected"); [done|].
  cbn [connected set_state set_connected heartbeat_timer].
  destruct (connected s); [|done]. destruct (heartbeat_timer s); done.
Qed.

Lemma err_update_state_not_connected new s :
  connected s = false -> new <> "Connected" ->
  connected (update_state new s) = false
  /\ heartbeat_timer (update_state new s) = heartbeat_timer s
  /\ heartbeat_period (update_state new s) = heartbeat_period s.
Proof.
  intros Hc Hn. unfold update_state.
  destruct (String.eqb new (state s)); [done|].
  destruct (String.eqb_spec new "Connected"); [done|].
  cbn [connected set_state]. rewrite Hc. done.
Qed.

Lemma err_update_state_agrees new s :
  agrees (connected s) (state s) ->
  agrees (connected (update_state new s)) (state (update_state new s)).
Proof.
  intros H. pose proof (update_state_view new s) as Hv. unfold error_view in Hv.
  destruct (String.eqb_spec new (state s)) as [->|Hne].
  { injection Hv as -> -> _ _ _. exact H. }
  destruct (String.eqb_spec new "Connected") as [->|Hnc].
  { injection Hv as -> -> _ _ _. done. }
  destruct (connected s) eqn:Hconn; injection Hv as -> -> _ _ _;
    unfold agrees; split; intros; congruence.
Qed.

Lemma refresh_error_heartbeat_frame s :
  connected (refresh_error_heartbeat s) = connected s
  /\ state (refresh_error_heartbeat s) = state s
  /\ socket_state (refresh_error_heartbeat s) = socket_state s
  /\ socket (refresh_error_heartbeat s) = socket s
  /\ subscriptions (refresh_error_heartbeat s) = subscriptions s
  /\ error_list (refresh_error_heartbeat s) = error_list s
  /\ heap (refresh_error_heartbeat s) = heap s.
Proof. unfold refresh_error_heartbeat. destruct (heartbeat_timer s); done. Qed.

Lemma start_error_heartbeat_frame i s :
  connected (start_error_heartbeat i s) = connected s
  /\ state (start_error_heartbeat i s) = state s
  /\ socket_state (start_error_heartbeat i s) = socket_state s
  /\ socket (start_error_heartbeat i s) = socket s
  /\ subscriptions (start_error_heartbeat i s) = subscriptions s
  /\ error_list (start_error_heartbeat i s) = error_list s
  /\ heap (start_error_heartbeat i s) = heap s.
Proof.
  unfold start_error_heartbeat.
  destruct (heartbeat_timer s); cbn [set_heartbeat_timer set_heartbeat_period];
    destruct (0 <? i); done.
Qed.

Lemma start_error_heartbeat_arms i s :
  heartbeat_period (start_error_heartbeat i s) = i
  /\ (0 < i -> heartbeat_timer (start_error_heartbeat i s) = Some (new_timer i)).
Proof.
  unfold start_error_heartbeat.
  destruct (heartbeat_timer s); cbn [set_heartbeat_timer set_heartbeat_period];
    destruct (Z.ltb_spec 0 i); split; try done; intros; lia.
Qed.

(** *** The buffer *)

(** The per-note loop of [process_error]: each round appends the note to
    the dictionary at [a] and one more reference to [a] to the buffer. *)
Lemma note_loop notes : forall a s,
  let s' := fold_left (fun s note => append_error a (append_note a note s)) notes s in
  error_list s' = (error_list s ++ replicate (length notes) a)%list
  /\ heap s' = alter (fun e => mkError (err_type e) (err_notes e ++ notes)%list) a (heap s)
  /\ connected s' = connected s /\ state s' = state s
  /\ heartbeat_timer s' = heartbeat_timer s
  /\ heartbeat_period s' = heartbeat_period s
  /\ socket_state s' = socket_state s /\ socket s' = socket s
  /\ subscriptions s' = subscriptions s.
Proof.
  induction notes as [|note notes IH]; intros a s; cbn [fold_left length replicate].
  - rewrite app_nil_r. repeat split; try done.
    symmetry. apply list_alter_id. intros [ty ns]. cbn. by rewrite app_nil_r.
  - destruct (IH a (append_error a (append_note a note s)))
      as (H1 & H2 & H3 & H4 & H5 & H6 & H7 & H8 & H9).
    cbn zeta in *. rewrite H1, H2, H3, H4, H5, H6, H7, H8, H9.
    cbn [error_list heap append_error append_note set_error_list set_heap].
    repeat split; try done.
    + rewrite <- app_assoc. reflexivity.
    + rewrite list_alter_alter_eq. apply list_alter_ext; [|done].
      intros [ty ns] _. cbn. by rewrite <- app_assoc.
Qed.

Lemma process_error_notification topic msg ty s :
  c_type msg = Some ty -> is_notification ty = true ->
  let s' := process_error topic msg s in
  error_list s' = (error_list s ++ replicate (length (c_note msg)) (length (heap s)))%list
  /\ heap s' = (heap s ++ [mkError ty (c_note msg)])%list
  /\ connected s' = connected s /\ state s' = state s
  /\ socket_state s' = socket_state s /\ socket s' = socket s
  /\ subscriptions s' = subscriptions s.
Proof.
  intros Hty Hn. unfold process_error. rewrite Hty, Hn.
  cbn [heap set_rx].
  destruct (note_loop (c_note msg) (length (heap s))
              (set_heap (heap s ++ [mkError ty []]) (set_rx msg s)))
    as (H1 & H2 & H3 & H4 & _ & _ & H7 & H8 & H9).
  cbn zeta in *.
  destruct (refresh_error_heartbeat_frame
              (fold_left (fun s0 note =>
                            append_error (length (heap s))
                              (append_note (length (heap s)) note s0))
                 (c_note msg) (set_heap (heap s ++ [mkError ty []]) (set_rx msg s))))
    as (F1 & F2 & F3 & F4 & F5 & F6 & F7).
  cbn zeta. rewrite F1, F2, F3, F4, F5, F6, F7, H1, H2, H3, H4, H7, H8, H9.
  cbn [error_list heap connected state socket_state socket subscriptions set_heap set_rx].
  repeat split; try done.
  replace (length (heap s)) with (length (heap s) + 0)%nat at 1 by lia.
  rewrite alter_app_r. reflexivity.
Qed.

Lemma process_error_ping topic msg s :
  c_type msg = Some MT_PING ->
  process_error topic msg s = arm (c_pparams msg) (ping_branch (set_rx msg s)).
Proof. intros Hty. unfold process_error. rewrite Hty. reflexivity. Qed.

Lemma process_error_other topic msg s :
  match c_type msg with
  | Some ty => is_notification ty = false /\ ty <> MT_PING
  | None => True
  end ->
  process_error topic msg s = set_rx msg s.
Proof.
  unfold process_error. destruct (c_type msg) as [ty|]; [|done].
  intros [-> Hp]. destruct ty; try done.
Qed.

Lemma view_proj s c st x tm p :
  error_view s = (c, st, x, tm, p) ->
  connected s = c /\ state s = st /\ socket_state s = x
  /\ heartbeat_timer s = tm /\ heartbeat_period s = p.
Proof. unfold error_view. by intros [= -> -> -> -> ->]. Qed.

Lemma view_agrees s c st x tm p :
  error_view s = (c, st, x, tm, p) -> agrees c st ->
  agrees (connected s) (state s).
Proof. unfold error_view. by intros [= -> -> _ _ _]. Qed.

Lemma ping_branch_agrees s :
  agrees (connected s) (state s) ->
  agrees (connected (ping_branch s)) (state (ping_branch s)).
Proof.
  intros H. unfold ping_branch.
  destruct (String.eqb (socket_state s) "Up").
  { destruct (refresh_error_heartbeat_frame s) as (-> & -> & _). exact H. }
  destruct (String.eqb (state s) "Timeout").
  - eapply view_agrees; [apply subscribe_view|].
    eapply view_agrees; [apply unsubscribe_view|].
    by apply err_update_state_agrees.
  - apply err_update_state_agrees. exact H.
Qed.

Lemma arm_agrees pp s :
  agrees (connected s) (state s) ->
  agrees (connected (arm pp s)) (state (arm pp s)).
Proof.
  intros H. destruct pp as [i|]; [|exact H]. cbn [arm].
  destruct (start_error_heartbeat_frame (i * 2) s) as (-> & -> & _). exact H.
Qed.

Lemma process_error_agrees topic msg s :
  agrees (connected s) (state s) ->
  agrees (connected (process_error topic msg s)) (state (process_error topic msg s)).
Proof.
  intros H.
  destruct (c_type msg) as [ty|] eqn:Hty.
  - destruct (is_notification ty) eqn:Hn.
    + destruct (process_error_notification topic msg ty s Hty Hn)
        as (_ & _ & -> & -> & _). exact H.
    + assert (ty = MT_PING \/ ty <> MT_PING) as [->|Hp]
        by (destruct ty; first [by left | by right]).
      * rewrite process_error_ping by done. apply arm_agrees, ping_branch_agrees. exact H.
      * rewrite process_error_other; [exact H|]. by rewrite Hty.
  - rewrite process_error_other; [exact H|]. by rewrite Hty.
Qed.

Lemma start_view s :
  connected (state_of (start s))
  = connected (update_state "Connecting" (set_socket_state "Trying" s))
  /\ state (state_of (start s)) = "Connecting".
Proof.
  unfold start, connect_sockets.
  cbn [threads set_shutdown set_threads sock set_socket set_sockets_connected].
  destruct (start_threads _) as [ts raised].
  destruct raised; cbn [state_of].
  - split; [reflexivity|]. apply (err_update_state_state "Connecting").
  - match goal with
    | |- context [subscribe ?x] => pose proof (subscribe_view x) as Hv
    end.
    apply view_proj in Hv as (H1 & H2 & _). rewrite H1, H2.
    split; [reflexivity|]. apply (err_update_state_state "Connecting").
Qed.

Lemma start_agrees s :
  agrees (connected s) (state s) ->
  agrees (connected (state_of (start s))) (state (state_of (start s))).
Proof.
  intros H. destruct (start_view s) as [Hc Hs].
  pose proof (err_update_state_agrees "Connecting" (set_socket_state "Trying" s) H) as Ha.
  rewrite err_update_state_state in Ha. rewrite Hc, Hs. exact Ha.
Qed.

Lemma cleanup_view s :
  connected (cleanup s) = connected s /\ state (cleanup s) = state s.
Proof.
  unfold cleanup, disconnect_sockets.
  destruct (connected s) eqn:Hc.
  - pose proof (unsubscribe_view s) as Hv.
    apply view_proj in Hv as (H1 & H2 & _).
    destruct (sockets_connected (unsubscribe s));
      cbn [connected state set_subscriptions set_sockets_connected sock set_socket];
      rewrite H1, H2; done.
  - destruct (sockets_connected s); done.
Qed.

Lemma err_stop_unfold s :
  state_of (stop s) =
  if join_threads (threads s)
  then update_state "Disconnected"
         (cleanup (set_threads [] (set_shutdown true (set_is_ready false s))))
  else set_shutdown true (set_is_ready false s).
Proof. unfold stop. cbn [threads set_shutdown set_is_ready]. by destruct (join_threads _). Qed.

Lemma stop_agrees s :
  agrees (connected s) (state s) ->
  agrees (connected (state_of (stop s))) (state (state_of (stop s))).
Proof.
  intros H. rewrite err_stop_unfold.
  destruct (join_threads (threads s)); [|exact H].
  apply err_update_state_agrees.
  destruct (cleanup_view (set_threads [] (set_shutdown true (set_is_ready false s))))
    as [-> ->]. exact H.
Qed.

Lemma handle_agrees e s s' :
  agrees (connected s) (state s) -> handle e s = Some s' ->
  agrees (connected s') (state s').
Proof.
  intros H. destruct e; cbn [handle].
  - intros [= <-]. exact H.
  - intros [= <-]. unfold ready. destruct (is_ready s); [exact H|].
    apply start_agrees. exact H.
  - intros [= <-]. by apply start_agrees.
  - intros [= <-]. by apply stop_agrees.
  - intros [= <-]. exact H.
  - destruct (worker_polls _ _); [|done]. intros [= <-]. by apply process_error_agrees.
  - destruct (heartbeat_timer s) as [tm|]; [|done].
    destruct (timer_pending tm); [|done]. intros [= <-].
    unfold heartbeat_timer_tick. apply err_update_state_agrees. exact H.
Qed.

Lemma reachable_agrees s : reachable s -> agrees (connected s) (state s).
Proof.
  induction 1 as [|s e s' _ IH Hh]; [done|].
  by eapply handle_agrees.
Qed.

Lemma err_run_reachable es : forall s s', reachable s -> run es s = Some s' -> reachable s'.
Proof.
  induction es as [|e es IH]; intros s s' Hr; cbn [run].
  - by intros [= <-].
  - destruct (handle e s) as [s1|] eqn:He; [|done].
    apply IH. by eapply reachable_step.
Qed.

End ErrorFacts.

(* ------------------------------------------------------------------ *)
(** ** [PING] on the status endpoint *)
(* ------------------------------------------------------------------ *)

Module StatusPing.
Import ApplicationStatus StatusView StatusFacts.

Lemma process_status_ping topic msg s :
  c_type msg = Some MT_PING ->
  process_status topic msg s =
  if String.eqb (status_state s) "Up" then refresh_status_heartbeat (set_rx msg s)
  else subscribe (unsubscribe (update_state "Connecting" (set_rx msg s))).
Proof. intros Hty. unfold process_status. rewrite Hty. reflexivity. Qed.

Lemma status_subscribe_socket s :
  status_socket (subscribe s)
  = (status_socket s ++ (SockSubscribe <$> elements channels))%list.
Proof.
  unfold subscribe.
  rewrite (ErrorFacts.fold_left_log status_socket SockSubscribe); [reflexivity|].
  intros a x. reflexivity.
Qed.

Lemma clear_subscription_socket x s :
  status_socket (clear_subscription x s) = status_socket s.
Proof. unfold clear_subscription. string_cases; reflexivity. Qed.

Lemma status_unsubscribe_socket s :
  status_socket (unsubscribe s)
  = (status_socket s ++ (SockUnsubscribe <$> elements (subscriptions s)))%list.
Proof.
  unfold unsubscribe.
  match goal with
  | |- status_socket (set_subscriptions _ (fold_left ?f ?l ?a)) = _ =>
      change (status_socket (fold_left f l a)
              = (status_socket s
                 ++ (SockUnsubscribe <$> elements (subscriptions s)))%list)
  end.
  rewrite (ErrorFacts.fold_left_log status_socket SockUnsubscribe); [reflexivity|].
  intros a x. by rewrite clear_subscription_socket.
Qed.

Lemma update_state_socket new s :
  status_socket (update_state new s) = status_socket s
  /\ subscriptions (update_state new s) = subscriptions s.
Proof.
  unfold update_state, stop_status_heartbeat.
  destruct (String.eqb new (state s)); [done|].
  destruct (String.eqb new "Connected"); [done|].
  cbn. destruct (connected s); [|done].
  destruct (status_timer s); destruct (String.eqb new "Timeout"); done.
Qed.

(** The decoded message kept in [rx] has no influence on a state update. *)
Lemma update_state_rx new m1 m2 s :
  connected (update_state new (set_rx m1 s))
  = connected (update_state new (set_rx m2 s))
  /\ status_timer (update_state new (set_rx m1 s))
     = status_timer (update_state new (set_rx m2 s)).
Proof.
  unfold update_state, stop_status_heartbeat. cbn [state set_rx].
  destruct (String.eqb new (state s)); [done|].
  destruct (String.eqb new "Connected"); [done|].
  cbn. destruct (connected s); [|done].
  destruct (status_timer s); destruct (String.eqb new "Timeout"); done.
Qed.

(** The unsubscribe-and-resubscribe path taken when the socket state is
    not [Up]. *)
Lemma resubscribe msg s :
  let s' := subscribe (unsubscribe (update_state "Connecting" (set_rx msg s))) in
  state s' = "Connecting" /\ status_state s' = "Trying"
  /\ connected s' = connected (update_state "Connecting" (set_rx msg s))
  /\ status_timer s' = status_timer (update_state "Connecting" (set_rx msg s))
  /\ status_socket s'
     = (status_socket s ++ (SockUnsubscribe <$> elements (subscriptions s))
        ++ (SockSubscribe <$> elements channels))%list.
Proof.
  set (s1 := update_state "Connecting" (set_rx msg s)). cbn zeta.
  pose proof (subscribe_control (unsubscribe s1)) as Hs.
  apply control_proj in Hs as (Hs1 & Hs2 & Hs3 & _).
  pose proof (unsubscribe_control s1) as Hu.
  apply control_proj in Hu as (Hu1 & Hu2 & _).
  destruct (subscribe_timer (unsubscribe s1)) as [Ht1 _].
  destruct (unsubscribe_timer s1) as [Ht2 _].
  destruct (update_state_socket "Connecting" (set_rx msg s)) as [Hk1 Hk2].
  fold s1 in Hk1, Hk2.
  split; [rewrite Hs2, Hu2; apply update_state_state|].
  split; [exact Hs3|]. split; [congruence|]. split; [congruence|].
  rewrite status_subscribe_socket, status_unsubscribe_socket, Hk1, Hk2, <- app_assoc.
  reflexivity.
Qed.

End StatusPing.

Section StatusClaims.
Import ApplicationStatus StatusView StatusFacts StatusScenarios.

(** C6.  In every reachable state [synced] is true exactly when the sync
    set is the full five-channel set.  After [start()], the receipt of any
    sequence of update messages is processed, leaves the sync set equal to
    the set of channels that received a full update with their payload, so
    that [synced] is true exactly when all five channels did, and then the
    state is [Connected]. *)
Theorem synced_exactly_when_all_channels_updated :
  forall (s : t) (ms : list (string * Container)),
    reachable s ->
    forallb is_update ms = true ->
    (synced s = true <-> synced_channels s = channels)
    /\ exists s', run (Start :: (receive <$> ms)) s = Some s'
         /\ synced_channels s' = full_topics ms
         /\ (synced s' = true <-> full_topics ms = channels)
         /\ (full_topics ms = channels -> state s' = "Connected").
Proof.
  intros s ms Hr Hall.
  pose proof (reachable_Inv s Hr) as HI.
  split; [apply (Inv_proj s HI)|].
  pose proof (start_Inv s HI) as HI1.
  destruct (receive_updates ms (state_of (start s)) Hall (start_workers s) HI1)
    as (s' & Hrun & HI' & Hsync).
  assert (synced_channels (state_of (start s)) = ∅) as Hemp.
  { apply Inv_proj in HI1 as (_ & _ & _ & _ & He). apply He.
    by rewrite start_state. }
  rewrite Hemp, (right_id_L ∅ (∪)) in Hsync.
  exists s'. split.
  { rewrite run_cons. cbn [handle]. exact Hrun. }
  split; [exact Hsync|].
  apply Inv_proj in HI' as (_ & _ & _ & Hsyn & He).
  rewrite Hsync in Hsyn, He. split; [exact Hsyn|].
  intros Hfull. destruct (decide (state s' = "Connected")) as [|Hne]; [done|].
  apply He in Hne. rewrite Hfull in Hne. by apply channels_nonempty in Hne.
Qed.

Lemma synced_exactly_when_all_channels_updated_witness :
  exists s', run (Start :: (receive <$> S1_messages)) (set_status_uri uri init) = Some s'
    /\ synced s' = true /\ state s' = "Connected".
Proof.
  destruct (synced_exactly_when_all_channels_updated
              (set_status_uri uri init) S1_messages) as (_ & s' & Hrun & _ & Hsyn & Hst).
  - apply (reachable_step init (SetUri uri)); [apply reachable_init|reflexivity].
  - reflexivity.
  - exists s'. split; [exact Hrun|].
    assert (full_topics S1_messages = channels) as Hfull by (vm_compute; reflexivity).
    split; [apply Hsyn, Hfull|apply Hst, Hfull].
Defined.

(** C10.  Any full update received while the socket state is not [Up]
    brings the socket state to [Up] and the public state to [Connected],
    whether or not it carries a payload for its topic.  When it carries
    none (the topic is none of the five channels, or the channel's payload
    field is absent) no mirror is merged and the sync set and [synced] are
    unchanged.  Hence [Connected] is reachable with all five mirrors
    cleared and [synced] false. *)
Theorem full_update_without_payload_connects :
  forall (s : t) (topic : string) (msg : Container),
    c_type msg = Some MT_EMCSTAT_FULL_UPDATE ->
    status_state s <> "Up" ->
    let s' := process_status topic msg s in
    (status_state s' = "Up" /\ state s' = "Connected")
    /\ (topic ∉ channels -> channel_payload topic msg = None)
    /\ (channel_payload topic msg = None ->
        mirrors s' = mirrors s
        /\ synced_channels s' = synced_channels s /\ synced s' = synced s)
    /\ exists s0, reachable s0 /\ state s0 = "Connected"
         /\ mirrors s0 = cleared /\ synced_channels s0 = ∅ /\ synced s0 = false.
Proof.
  intros s topic msg Hty Hup s'.
  assert (is_update (topic, msg) = true) as Hu
    by (unfold is_update; cbn [snd]; by rewrite Hty).
  split; [|split; [|split]].
  - subst s'. rewrite process_status_update by done.
    pose proof (absorb_control topic msg (set_rx msg s)) as Ha. cbn zeta in Ha.
    apply control_proj in Ha as (_ & _ & Hss & _).
    cbn [status_state set_rx] in Hss.
    pose proof (bring_up_control msg (absorb topic msg (set_rx msg s))) as Hb.
    rewrite Hty in Hb. cbn [is_full_update] in Hb. rewrite Hss in Hb.
    destruct (String.eqb_spec (status_state s) "Up") as [|_]; [done|].
    revert Hb. generalize (absorb topic msg (set_rx msg s)). intros s1 Hb.
    destruct (update_state_workers "Connected" (set_status_state "Up" s1))
      as (_ & _ & Hw).
    cbn [status_state set_status_state] in Hw.
    pose proof (update_state_state "Connected" (set_status_state "Up" s1)) as Hst.
    apply control_proj in Hb as (_ & H2 & H3 & _).
    split; congruence.
  - intros Hin. destruct (channel_payload topic msg) as [data|] eqn:Hp; [|done].
    apply channel_payload_topic in Hp. done.
  - intros Hp. subst s'.
    rewrite process_status_update, absorb_none by done.
    rewrite bring_up_mirrors.
    pose proof (bring_up_control msg (set_rx msg s)) as Hb.
    rewrite Hty in Hb. cbn [is_full_update status_state set_rx] in Hb.
    destruct (String.eqb_spec (status_state s) "Up") as [|_]; [done|].
    rewrite update_state_control in Hb.
    cbn [state connected status_state synced synced_channels set_status_state set_rx] in Hb.
    destruct (String.eqb_spec "Connected" (state s)) as [He|Hne];
      apply control_proj in Hb as (_ & H2 & H3 & H4 & H5);
      cbn [state connected status_state synced synced_channels set_status_state set_rx]
        in H2, H3, H4, H5; repeat split; congruence.
  - exists (process_status "motion" full_bare started). split.
    + apply (reachable_step started (Receive "motion" full_bare)).
      * apply (reachable_step (set_status_uri uri init) Start);
          [|unfold started; cbn [handle]; reflexivity].
        apply (reachable_step init (SetUri uri));
          [apply reachable_init|cbn [handle]; reflexivity].
      * cbn [handle]. unfold started. by rewrite start_workers.
    + vm_compute. repeat split; reflexivity.
Qed.

Lemma full_update_without_payload_connects_witness :
  (status_state (process_status "motion" full_bare started) = "Up"
   /\ state (process_status "motion" full_bare started) = "Connected"
   /\ mirrors (process_status "motion" full_bare started) = mirrors started)
  /\ (status_state
        (process_status "motion" (full_motion None {[ "feed" := 100 ]}) started) = "Up"
      /\ state
           (process_status "motion" (full_motion None {[ "feed" := 100 ]}) started)
         = "Connected").
Proof.
  assert (status_state started <> "Up") as Hs by (vm_compute; discriminate).
  split.
  - destruct (full_update_without_payload_connects started "motion" full_bare
                eq_refl Hs) as ((H1 & H2) & _ & H3 & _).
    destruct (H3 eq_refl) as (H4 & _).
    exact (conj H1 (conj H2 H4)).
  - destruct (full_update_without_payload_connects started "motion"
                (full_motion None {[ "feed" := 100 ]}) eq_refl Hs) as (H & _).
    exact H.
Defined.

(** C4 (as amended).  On every transition of the public state out of
    [Connected] the status heartbeat is stopped and the sync set is
    cleared; if the new state is [Timeout] the five mirrors are unchanged,
    and if it is any other state the five mirrors are cleared. *)
Theorem leaving_connected_stops_heartbeat_and_clears_sync :
  forall (s : t) (e : event) (s' : t),
    reachable s ->
    handle e s = Some s' ->
    state s = "Connected" ->
    state s' <> "Connected" ->
    status_timer s' = None /\ synced_channels s' = ∅ /\ synced s' = false
    /\ (state s' = "Timeout" -> mirrors s' = mirrors s)
    /\ (state s' <> "Timeout" -> mirrors s' = cleared).
Proof.
  intros s e s' Hr Hh Hst Hne.
  pose proof (reachable_Inv s Hr) as HI.
  assert (forall x : t,
            (state x = "Connecting" \/ state x = "Disconnected") ->
            status_timer x = None /\ synced_channels x = ∅ /\ synced x = false
            /\ mirrors x = cleared ->
            status_timer x = None /\ synced_channels x = ∅ /\ synced x = false
            /\ (state x = "Timeout" -> mirrors x = mirrors s)
            /\ (state x <> "Timeout" -> mirrors x = cleared)) as Hfin.
  { intros x Hx (H1 & H2 & H3 & H4). repeat split; try done.
    intros Ht. destruct Hx as [Hx|Hx]; rewrite Hx in Ht; discriminate. }
  destruct e; cbn [handle] in Hh.
  - injection Hh as <-. by destruct Hne.
  - injection Hh as <-. unfold ready in *.
    destruct (is_ready s); [by destruct Hne|].
    destruct (leave_by_start (set_is_ready true s)) as (H0 & H); [by apply (Inv_same s)|done|].
    apply Hfin; [by left|exact H].
  - injection Hh as <-.
    destruct (leave_by_start s) as (H0 & H); [done|done|].
    apply Hfin; [by left|exact H].
  - injection Hh as <-.
    destruct (leave_by_stop s) as (H0 & H); [done|done|done|].
    apply Hfin; [by right|exact H].
  - destruct (worker_polls _ _); [|done]. injection Hh as <-.
    destruct (process_status_keeps_connected topic msg s HI Hst Hne) as (_ & _ & Heq).
    rewrite Heq.
    destruct (leave_by_ping msg s) as (H0 & H); [done|done|].
    apply Hfin; [by left|exact H].
  - destruct (status_timer s) as [tm|]; [|done].
    destruct (timer_pending tm); [|done]. injection Hh as <-.
    destruct (leave_by_timer tm s) as (H0 & H1 & H2 & H3 & H4); [done|done|].
    repeat split; done.
Qed.

Lemma mirrors_cleared_motion (x : t) : mirrors x = cleared -> _motion x = ClearStatus.
Proof. unfold mirrors, cleared. by intros [= -> _ _ _ _]. Qed.

Lemma timed_out_run : run timed_out_trace init = Some timed_out.
Proof. vm_compute. reflexivity. Qed.

Lemma connected_run : run connected_trace init = Some connected_state.
Proof. vm_compute. reflexivity. Qed.

Lemma leaving_connected_stops_heartbeat_and_clears_sync_witness :
  state timed_out = "Timeout"
  /\ status_timer timed_out = None /\ synced_channels timed_out = ∅
  /\ synced timed_out = false /\ mirrors timed_out = mirrors connected_state.
Proof.
  assert (state timed_out = "Timeout") as Ht by (vm_compute; reflexivity).
  destruct (leaving_connected_stops_heartbeat_and_clears_sync
              connected_state TimerExpires timed_out)
    as (H1 & H2 & H3 & H4 & _).
  - apply (run_reachable connected_trace init); [apply reachable_init|apply connected_run].
  - vm_compute. reflexivity.
  - vm_compute. reflexivity.
  - rewrite Ht. discriminate.
  - exact (conj Ht (conj H1 (conj H2 (conj H3 (H4 Ht))))).
Defined.

(** C4, the claim as stated fails: [stop()] called while in [Timeout]
    moves to [Disconnected] and leaves the retained mirrors as they are. *)
Lemma stop_in_timeout_keeps_mirrors :
  exists s s', reachable s /\ state s = "Timeout"
    /\ handle Stop s = Some s' /\ state s' = "Disconnected"
    /\ _motion s' !! "feed" = Some 100 /\ mirrors s' <> cleared.
Proof.
  exists timed_out, (state_of (stop timed_out)).
  assert (_motion (state_of (stop timed_out)) !! "feed" = Some 100) as Hfeed
    by (vm_compute; reflexivity).
  split; [apply (run_reachable timed_out_trace init);
            [apply reachable_init|apply timed_out_run]|].
  split; [vm_compute; reflexivity|].
  split; [cbn [handle]; reflexivity|].
  split; [vm_compute; reflexivity|].
  split; [exact Hfeed|].
  intros Hm. apply mirrors_cleared_motion in Hm.
  pose proof (eq_trans (eq_sym (f_equal (fun m : EmcStatus => m !! "feed") Hm)) Hfeed)
    as Habs.
  unfold ClearStatus in Habs. rewrite lookup_empty in Habs. discriminate Habs.
Qed.

End StatusClaims.

Section CommandClaims.
Import ApplicationCommand CommandView CommandFacts CommandScenarios.

Lemma started_reachable accepts : reachable accepts started.
Proof.
  apply (reachable_step accepts (set_command_uri uri (init client_id)) (Start true));
    [|unfold started; cbn [handle]; reflexivity].
  apply (reachable_step accepts (init client_id) (SetUri uri));
    [apply reachable_init|cbn [handle]; reflexivity].
Qed.

Lemma connected_state_reachable accepts : reachable accepts connected_state.
Proof.
  apply (reachable_step accepts started (Receive ping_acknowledge));
    [apply started_reachable|].
  cbn [handle].
  assert (worker_polls (threads started) (shutdown_event started) = true) as ->
    by (vm_compute; reflexivity).
  reflexivity.
Qed.

Lemma connected_state_facts :
  connected connected_state = true /\ tx connected_state = empty_container.
Proof. vm_compute. done. Qed.

(** C7.  Every public command operation invoked while [connected] is
    false returns, and returns the endpoint as it was: nothing is sent and
    no variable, the outbound container included, is modified, whatever
    the serialization layer and the transport would have answered. *)
Theorem commands_are_noops_when_not_connected :
  forall (accepts : string -> pyval -> bool) (c : command) (sends : bool) (s : t),
    connected s = false -> call accepts c sends s = Returned s.
Proof. intros accepts c sends s Hc. by apply call_not_connected. Qed.

Lemma commands_are_noops_when_not_connected_witness :
  call permissive (Jog INCREMENT_JOG 2 10 5) true started = Returned started.
Proof.
  apply (commands_are_noops_when_not_connected permissive
           (Jog INCREMENT_JOG 2 10 5) true started).
  vm_compute. reflexivity.
Defined.

(** C8 (as amended).  A public command operation that is invoked with the
    outbound container empty and returns leaves it empty: a send that goes
    through appends exactly the typed container to the messages sent and
    clears it, every operation sends at most one message, on the
    invalid-argument path (unknown jog kind or spindle mode) the container
    is cleared, whatever it held, and nothing is sent, and a call on an
    endpoint that is not connected returns it untouched. *)
Theorem tx_empty_after_every_command :
  forall (accepts : string -> pyval -> bool) (s : t) (c : command)
         (sends : bool) (ty : ContainerType),
    (tx s = empty_container -> returned (call accepts c sends s) = true ->
     tx (state_of (call accepts c sends s)) = empty_container)
    /\ (returned (send_command_msg ty true s) = true
        /\ tx (state_of (send_command_msg ty true s)) = empty_container
        /\ sent (state_of (send_command_msg ty true s))
           = (sent s ++ [tx (tx_type ty s)])%list)
    /\ (sent (state_of (call accepts c sends s)) = sent s
        \/ exists msg,
             sent (state_of (call accepts c sends s)) = (sent s ++ [msg])%list)
    /\ (invalid_argument c = true -> connected s = true ->
        sent (state_of (call accepts c sends s)) = sent s
        /\ (returned (call accepts c sends s) = true ->
            tx (state_of (call accepts c sends s)) = empty_container))
    /\ (connected s = false -> call accepts c sends s = Returned s).
Proof.
  intros accepts s c sends ty.
  split; [apply call_tx|].
  split.
  { split; [reflexivity|]. split; [reflexivity|].
    apply (send_command_msg_sent ty true). }
  split.
  { destruct (call_sent accepts c sends s) as [H|(_ & _ & msg & H)];
      [by left|right; by exists msg]. }
  split; [apply call_invalid|apply call_not_connected].
Qed.

Lemma tx_empty_after_every_command_witness :
  tx (state_of (call permissive (Jog 99 2 10 5) true connected_state))
  = empty_container
  /\ sent (state_of (call permissive (Jog 99 2 10 5) true connected_state))
     = sent connected_state.
Proof.
  destruct connected_state_facts as [Hc Htx].
  destruct (tx_empty_after_every_command permissive connected_state
              (Jog 99 2 10 5) true MT_PING) as (H1 & _ & _ & H4 & _).
  destruct (H4 eq_refl Hc) as [H5 _].
  split; [|exact H5]. apply (H1 Htx). vm_compute. reflexivity.
Defined.

(** C8, the claim as stated fails: a call that raises leaves what it
    wrote in the outbound container, and a later call that returns without
    sending or clearing returns with the container not empty.  On the
    connected endpoint [set_debug_level(5)] raises at the assignment to
    [interp_name], and a [home_axis(1)] whose send is refused raises at the
    send; [set_spindle_brake(7)] then returns and the container still
    holds the debug level, respectively the axis index. *)
Lemma dirty_tx_survives_a_returning_call :
  tx connected_state = empty_container
  /\ returned (call permissive (SetDebugLevel 5) true connected_state) = false
  /\ returned (call permissive (SetSpindleBrake 7) true after_debug_level) = true
  /\ c_emc_command_params
       (tx (state_of (call permissive (SetSpindleBrake 7) true after_debug_level)))
     !! "debug_level" = Some (PInt 5)
  /\ tx (state_of (call permissive (SetSpindleBrake 7) true after_debug_level))
     <> empty_container
  /\ returned (call permissive (HomeAxis 1) false connected_state) = false
  /\ returned (call permissive (SetSpindleBrake 7) true after_refused_send) = true
  /\ c_emc_command_params
       (tx (state_of (call permissive (SetSpindleBrake 7) true after_refused_send)))
     !! "index" = Some (PInt 1)
  /\ tx (state_of (call permissive (SetSpindleBrake 7) true after_refused_send))
     <> empty_container.
Proof.
  assert (forall x : t,
            c_emc_command_params (tx x) !! "debug_level" = Some (PInt 5) ->
            tx x <> empty_container) as Hd.
  { intros x H E. rewrite E in H. discriminate H. }
  assert (forall x : t,
            c_emc_command_params (tx x) !! "index" = Some (PInt 1) ->
            tx x <> empty_container) as Hi.
  { intros x H E. rewrite E in H. discriminate H. }
  assert (c_emc_command_params
            (tx (state_of (call permissive (SetSpindleBrake 7) true after_debug_level)))
          !! "debug_level" = Some (PInt 5)) as H1 by (vm_compute; reflexivity).
  assert (c_emc_command_params
            (tx (state_of (call permissive (SetSpindleBrake 7) true after_refused_send)))
          !! "index" = Some (PInt 1)) as H2 by (vm_compute; reflexivity).
  split; [vm_compute; reflexivity|].
  split; [vm_compute; reflexivity|].
  split; [vm_compute; reflexivity|].
  split; [exact H1|]. split; [exact (Hd _ H1)|].
  split; [vm_compute; reflexivity|].
  split; [vm_compute; reflexivity|].
  split; [exact H2|]. exact (Hi _ H2).
Qed.

(** C2, evaluated.  [start()] on a fresh endpoint with the default
    [heartbeat_period] of 3000 returns when its send goes through,
    connects the socket, launches the worker and sends one [PING], but it
    leaves the heartbeat timer unarmed: [start_command_heartbeat] returns
    at its [connected] guard.  No timer expiry is then possible and the
    state stays [Connecting].  The timer is as little armed when the send
    is refused and [start()] raises. *)
Theorem start_leaves_heartbeat_unarmed :
  returned (start true (set_command_uri uri (init client_id))) = true
  /\ heartbeat_period started = 3000
  /\ command_socket started =
       [ SockIdentity client_id; SockConnect uri;
         SockSend (mkContainer (Some MT_PING) None [] None ∅
                     None None None None None) ]
  /\ worker_polls (threads started) (shutdown_event started) = true
  /\ state started = "Connecting"
  /\ heartbeat_timer started = None
  /\ (forall (accepts : string -> pyval -> bool) (sends : bool),
        handle accepts (TimerExpires sends) started = None)
  /\ returned (start false (set_command_uri uri (init client_id))) = false
  /\ heartbeat_timer (state_of (start false (set_command_uri uri (init client_id))))
     = None
  /\ state (state_of (start false (set_command_uri uri (init client_id))))
     = "Connecting".
Proof.
  assert (heartbeat_timer started = None) as Htm by (vm_compute; reflexivity).
  split; [vm_compute; reflexivity|]. split; [vm_compute; reflexivity|].
  split; [vm_compute; reflexivity|]. split; [vm_compute; reflexivity|].
  split; [vm_compute; reflexivity|]. split; [exact Htm|].
  split; [intros accepts sends; cbn [handle]; by rewrite Htm|].
  split; [vm_compute; reflexivity|]. split; vm_compute; reflexivity.
Qed.

End CommandClaims.

Section ErrorClaims.
Import ApplicationError ErrorView ErrorFacts ErrorScenarios.

(** C9.  [get_messages()] returns the current buffer (the copied list of
    references, read through an unchanged store) and leaves the buffer
    empty; a second call right after it returns the empty list and changes
    nothing. *)
Theorem get_messages_drains_the_buffer :
  forall s : t,
    let '(first, s1) := get_messages s in
    let '(second, s2) := get_messages s1 in
    first = error_list s
    /\ read_messages s1 first = read_messages s (error_list s)
    /\ s1 = set_error_list [] s
    /\ error_list s1 = []
    /\ second = []
    /\ s2 = s1.
Proof. intros s. cbn. repeat split; reflexivity. Qed.

Lemma S4_run : run S4_trace init = Some S4_state.
Proof. vm_compute. reflexivity. Qed.

(** C1, evaluated.  After an [OPERATOR_TEXT] with notes [a], [b] and an
    [NML_ERROR] with note [x], [get_messages()] returns three entries, not
    two: the entry of the first message is in the buffer once per note. *)
Theorem S4_drain_returns_an_entry_per_note :
  run S4_trace init = Some S4_state
  /\ read_messages S4_state (fst (get_messages S4_state)) =
     [ mkError MT_EMC_OPERATOR_TEXT ["a"; "b"];
       mkError MT_EMC_OPERATOR_TEXT ["a"; "b"];
       mkError MT_EMC_NML_ERROR ["x"] ]
  /\ fst (get_messages (snd (get_messages S4_state))) = [].
Proof. split; [exact S4_run|]. vm_compute. split; reflexivity. Qed.

End ErrorClaims.

Section EndpointClaims.
Import ErrorView ErrorScenarios.

#[local] Opaque ApplicationError.subscribe ApplicationError.unsubscribe
  ApplicationStatus.subscribe ApplicationStatus.unsubscribe.

Lemma error_resubscribe msg (s : ApplicationError.t) :
  ApplicationError.connected s = false ->
  let s' := ApplicationError.subscribe (ApplicationError.unsubscribe (ApplicationError.update_state "Connecting" (ApplicationError.set_rx msg s))) in
  ApplicationError.state s' = "Connecting" /\ ApplicationError.socket_state s' = "Trying"
  /\ ApplicationError.connected s' = false
  /\ ApplicationError.heartbeat_timer s' = ApplicationError.heartbeat_timer s
  /\ ApplicationError.socket s'
     = (ApplicationError.socket s ++ (SockUnsubscribe <$> elements (ApplicationError.subscriptions s))
        ++ (SockSubscribe <$> elements ApplicationError.channels))%list
  /\ ApplicationError.subscriptions s' = ApplicationError.channels.
Proof.
  intros Hc. set (s1 := ApplicationError.update_state "Connecting" (ApplicationError.set_rx msg s)). cbn zeta.
  pose proof (ErrorFacts.subscribe_view (ApplicationError.unsubscribe s1)) as Hs.
  apply ErrorFacts.view_proj in Hs as (Hs1 & Hs2 & Hs3 & Hs4 & _).
  pose proof (ErrorFacts.unsubscribe_view s1) as Hu.
  apply ErrorFacts.view_proj in Hu as (Hu1 & Hu2 & _ & Hu4 & _).
  destruct (ErrorFacts.err_update_state_not_connected "Connecting"
              (ApplicationError.set_rx msg s) Hc) as (Hc1 & Ht1 & _); [done|].
  fold s1 in Hc1, Ht1.
  cbn [ApplicationError.heartbeat_timer ApplicationError.set_rx] in Ht1.
  destruct (ErrorFacts.err_update_state_frame "Connecting" (ApplicationError.set_rx msg s))
    as (Hk1 & Hk2 & _). fold s1 in Hk1, Hk2.
  split; [rewrite Hs2, Hu2; apply ErrorFacts.err_update_state_state|].
  split; [exact Hs3|]. split; [congruence|]. split; [congruence|].
  split.
  - rewrite ErrorFacts.err_subscribe_socket, ErrorFacts.err_unsubscribe_socket, Hk1, Hk2,
      <- app_assoc. reflexivity.
  - rewrite ErrorFacts.subscribe_subscriptions, ErrorFacts.unsubscribe_subscriptions.
    set_solver.
Qed.

(** C3 (as amended).  For a received [PING], with the status and the error
    endpoint in the same connection situation:
    - when the message carries no [pparams] and either the socket state is
      [Up] (with equal keepalive periods) or the socket state is not [Up]
      and the state is [Timeout], the two endpoints end in the same
      situation;
    - with the socket state [Up] the error endpoint keeps its state and
      its subscriptions;
    - with the socket state not [Up] and the state [Timeout] it goes to
      [Connecting], unsubscribes the recorded topics and resubscribes;
    - with the socket state not [Up] and any other state it sets the
      socket state to [Up] and the state to [Connected] and leaves the
      subscriptions alone;
    - whenever the message carries [pparams] it arms the keepalive from
      twice [keepalive_timer];
    - the status endpoint resubscribes for every socket state other than
      [Up], and never reads [pparams] on a [PING]. *)
Theorem error_ping_compared_with_status_ping :
  forall (ss : ApplicationStatus.t) (se : ApplicationError.t) (topic : string) (msg : Container),
    c_type msg = Some MT_PING ->
    status_conn ss = error_conn se ->
    agrees (ApplicationError.connected se) (ApplicationError.state se) ->
    let ss' := ApplicationStatus.process_status topic msg ss in
    let se' := ApplicationError.process_error topic msg se in
    (c_pparams msg = None ->
     (ApplicationError.socket_state se = "Up" /\ ApplicationStatus.status_period ss = ApplicationError.heartbeat_period se)
     \/ (ApplicationError.socket_state se <> "Up" /\ ApplicationError.state se = "Timeout") ->
     status_conn ss' = error_conn se')
    /\ (ApplicationError.socket_state se = "Up" ->
        ApplicationError.state se' = ApplicationError.state se /\ ApplicationError.socket_state se' = "Up"
        /\ ApplicationError.socket se' = ApplicationError.socket se
        /\ ApplicationError.subscriptions se' = ApplicationError.subscriptions se)
    /\ (ApplicationError.socket_state se <> "Up" -> ApplicationError.state se = "Timeout" ->
        ApplicationError.state se' = "Connecting" /\ ApplicationError.socket_state se' = "Trying"
        /\ ApplicationError.socket se'
           = (ApplicationError.socket se ++ (SockUnsubscribe <$> elements (ApplicationError.subscriptions se))
              ++ (SockSubscribe <$> elements ApplicationError.channels))%list
        /\ ApplicationError.subscriptions se' = ApplicationError.channels)
    /\ (ApplicationError.socket_state se <> "Up" -> ApplicationError.state se <> "Timeout" ->
        ApplicationError.state se' = "Connected" /\ ApplicationError.socket_state se' = "Up"
        /\ ApplicationError.socket se' = ApplicationError.socket se
        /\ ApplicationError.subscriptions se' = ApplicationError.subscriptions se)
    /\ (forall k, c_pparams msg = Some k ->
        ApplicationError.heartbeat_period se' = k * 2
        /\ (0 < k * 2 -> ApplicationError.heartbeat_timer se' = Some (new_timer (k * 2))))
    /\ (ApplicationStatus.status_state ss <> "Up" ->
        ApplicationStatus.state ss' = "Connecting" /\ ApplicationStatus.status_state ss' = "Trying"
        /\ ApplicationStatus.status_socket ss'
           = (ApplicationStatus.status_socket ss
              ++ (SockUnsubscribe <$> elements (ApplicationStatus.subscriptions ss))
              ++ (SockSubscribe <$> elements ApplicationStatus.channels))%list)
    /\ status_conn ss'
       = status_conn (ApplicationStatus.process_status topic (without_pparams msg) ss).
Proof.
  intros ss se topic msg Hty Hconn Hag ss' se'. subst ss' se'.
  unfold status_conn, error_conn in Hconn. injection Hconn as Hc Hs Hss Ht.
  rewrite ErrorFacts.process_error_ping, StatusPing.process_status_ping by done.
  rewrite (StatusPing.process_status_ping topic (without_pparams msg)) by done.
  (* the arming step leaves everything but the keepalive alone *)
  assert (forall x : ApplicationError.t,
            ApplicationError.state (arm (c_pparams msg) x) = ApplicationError.state x
            /\ ApplicationError.socket_state (arm (c_pparams msg) x) = ApplicationError.socket_state x
            /\ ApplicationError.socket (arm (c_pparams msg) x) = ApplicationError.socket x
            /\ ApplicationError.subscriptions (arm (c_pparams msg) x) = ApplicationError.subscriptions x) as Harm.
  { intros x. destruct (c_pparams msg) as [k|]; [|done]. cbn [arm].
    destruct (ErrorFacts.start_error_heartbeat_frame (k * 2) x)
      as (_ & H2 & H3 & H4 & H5 & _). done. }
  unfold ping_branch. cbn [ApplicationError.socket_state ApplicationError.state ApplicationError.set_rx].
  repeat apply conj.
  - (* agreement *)
    intros Hpp Hcase. rewrite Hpp. cbn [arm].
    destruct Hcase as [[Hup Hper]|[Hnup Hto]].
    + rewrite Hss, Hup. cbn [String.eqb Ascii.eqb Bool.eqb].
      unfold ApplicationStatus.refresh_status_heartbeat, ApplicationError.refresh_error_heartbeat.
      cbn [ApplicationStatus.status_timer ApplicationStatus.set_rx ApplicationError.heartbeat_timer ApplicationError.set_rx].
      rewrite Ht. destruct (ApplicationError.heartbeat_timer se) eqn:E;
        unfold status_conn, error_conn; cbn; rewrite Hc, Hs, Hss, ?Hper, ?Ht, ?E;
        reflexivity.
    + rewrite Hss.
      destruct (String.eqb_spec (ApplicationError.socket_state se) "Up") as [|_]; [done|].
      rewrite Hto. cbn [String.eqb Ascii.eqb Bool.eqb].
      assert (ApplicationError.connected se = false) as Hce.
      { destruct (ApplicationError.connected se); [|done].
        destruct Hag as [Hag _]. specialize (Hag eq_refl). congruence. }
      destruct (error_resubscribe msg se Hce) as (E1 & E2 & E3 & E4 & _).
      destruct (StatusPing.resubscribe msg ss) as (S1 & S2 & S3 & S4 & _).
      destruct (StatusFacts.update_state_not_connected "Connecting" (ApplicationStatus.set_rx msg ss))
        as (_ & U2 & _); [cbn; congruence|done|].
      pose proof (StatusFacts.update_state_control "Connecting" (ApplicationStatus.set_rx msg ss)) as Hu.
      assert (ApplicationStatus.connected (ApplicationStatus.update_state "Connecting" (ApplicationStatus.set_rx msg ss)) = false) as U1.
      { cbn [ApplicationStatus.connected ApplicationStatus.state ApplicationStatus.status_state ApplicationStatus.synced ApplicationStatus.synced_channels
             ApplicationStatus.set_rx] in Hu.
        rewrite Hc, Hce in Hu.
        destruct (String.eqb "Connecting" (ApplicationStatus.state ss)).
        - apply StatusFacts.control_proj in Hu as (H1 & _). rewrite H1. cbn. congruence.
        - cbn in Hu. apply StatusFacts.control_proj in Hu as (H1 & _). exact H1. }
      unfold status_conn, error_conn.
      rewrite S1, S2, S3, S4, E1, E2, E3, E4, U1, U2. cbn. by rewrite Ht.
  - (* socket state Up *)
    intros Hup. rewrite Hup. cbn [String.eqb Ascii.eqb Bool.eqb].
    destruct (Harm (ApplicationError.refresh_error_heartbeat (ApplicationError.set_rx msg se))) as (-> & -> & -> & ->).
    destruct (ErrorFacts.refresh_error_heartbeat_frame (ApplicationError.set_rx msg se))
      as (_ & -> & -> & -> & -> & _). done.
  - (* not Up, Timeout *)
    intros Hnup Hto.
    destruct (String.eqb_spec (ApplicationError.socket_state se) "Up") as [|_]; [done|].
    rewrite Hto. cbn [String.eqb Ascii.eqb Bool.eqb].
    assert (ApplicationError.connected se = false) as Hce.
    { destruct (ApplicationError.connected se); [|done].
      destruct Hag as [Hag _]. specialize (Hag eq_refl). congruence. }
    destruct (error_resubscribe msg se Hce) as (E1 & E2 & _ & _ & E5 & E6).
    destruct (Harm (ApplicationError.subscribe (ApplicationError.unsubscribe
                      (ApplicationError.update_state "Connecting" (ApplicationError.set_rx msg se)))))
      as (-> & -> & -> & ->).
    exact (conj E1 (conj E2 (conj E5 E6))).
  - (* not Up, not Timeout *)
    intros Hnup Hnto.
    destruct (String.eqb_spec (ApplicationError.socket_state se) "Up") as [|_]; [done|].
    destruct (String.eqb_spec (ApplicationError.state se) "Timeout") as [|_]; [done|].
    destruct (Harm (ApplicationError.update_state "Connected"
                      (ApplicationError.set_socket_state "Up" (ApplicationError.set_rx msg se))))
      as (-> & -> & -> & ->).
    destruct (ErrorFacts.err_update_state_frame "Connected"
                (ApplicationError.set_socket_state "Up" (ApplicationError.set_rx msg se))) as (-> & -> & _).
    pose proof (ErrorFacts.update_state_view "Connected"
                  (ApplicationError.set_socket_state "Up" (ApplicationError.set_rx msg se))) as Hv.
    split; [apply ErrorFacts.err_update_state_state|]. split; [|done].
    cbn [ApplicationError.connected ApplicationError.state ApplicationError.socket_state ApplicationError.heartbeat_timer ApplicationError.heartbeat_period
         ApplicationError.set_rx ApplicationError.set_socket_state] in Hv.
    destruct (String.eqb "Connected" (ApplicationError.state se)).
    + unfold error_view in Hv. by injection Hv as _ _ -> _ _.
    + cbn in Hv. apply ErrorFacts.view_proj in Hv as (_ & _ & H3 & _). exact H3.
  - (* pparams arm the keepalive *)
    intros k Hk. rewrite Hk. cbn [arm]. apply ErrorFacts.start_error_heartbeat_arms.
  - (* the status endpoint resubscribes whenever not Up *)
    intros Hnup.
    destruct (String.eqb_spec (ApplicationStatus.status_state ss) "Up") as [|_]; [done|].
    destruct (StatusPing.resubscribe msg ss) as (S1 & S2 & _ & _ & S5).
    exact (conj S1 (conj S2 S5)).
  - (* the status endpoint does not read pparams *)
    destruct (String.eqb (ApplicationStatus.status_state ss) "Up").
    + unfold ApplicationStatus.refresh_status_heartbeat. cbn [ApplicationStatus.status_timer ApplicationStatus.set_rx].
      destruct (ApplicationStatus.status_timer ss); reflexivity.
    + destruct (StatusPing.resubscribe msg ss) as (S1 & S2 & S3 & S4 & _).
      destruct (StatusPing.resubscribe (without_pparams msg) ss) as (T1 & T2 & T3 & T4 & _).
      unfold status_conn. rewrite S1, S2, S3, S4, T1, T2, T3, T4.
      destruct (StatusPing.update_state_rx "Connecting" msg (without_pparams msg) ss)
        as [-> ->]. reflexivity.
Qed.

Lemma error_timed_out_run :
  ApplicationError.run timed_out_trace ApplicationError.init = Some timed_out.
Proof. vm_compute. reflexivity. Qed.

Lemma error_timed_out_reachable : ApplicationError.reachable timed_out.
Proof.
  apply (ErrorFacts.err_run_reachable timed_out_trace ApplicationError.init);
    [apply ApplicationError.reachable_init|apply error_timed_out_run].
Qed.

Lemma error_started_reachable : ApplicationError.reachable started.
Proof.
  apply (ApplicationError.reachable_step
           (ApplicationError.set_error_uri uri ApplicationError.init)
           ApplicationError.Start);
    [|unfold started; cbn [ApplicationError.handle]; reflexivity].
  apply (ApplicationError.reachable_step ApplicationError.init
           (ApplicationError.SetUri uri));
    [apply ApplicationError.reachable_init|cbn [ApplicationError.handle]; reflexivity].
Qed.

Lemma error_ping_compared_with_status_ping_witness :
  status_conn (ApplicationStatus.process_status "" (ping None) StatusScenarios.timed_out)
  = error_conn (ApplicationError.process_error "" (ping None) timed_out)
  /\ ApplicationError.state (ApplicationError.process_error "" (ping None) timed_out)
     = "Connecting".
Proof.
  assert (status_conn StatusScenarios.timed_out = error_conn timed_out) as Hconn
    by (vm_compute; reflexivity).
  assert (ApplicationError.socket_state timed_out <> "Up") as Hnup
    by (vm_compute; discriminate).
  assert (ApplicationError.state timed_out = "Timeout") as Hto
    by (vm_compute; reflexivity).
  destruct (error_ping_compared_with_status_ping
              StatusScenarios.timed_out timed_out "" (ping None) eq_refl Hconn
              (ErrorFacts.reachable_agrees timed_out error_timed_out_reachable))
    as (H1 & _ & H3 & _).
  split.
  - exact (H1 eq_refl (or_intror (conj Hnup Hto))).
  - exact (proj1 (H3 Hnup Hto)).
Defined.

Lemma conn_states_agree (ss : ApplicationStatus.t) (se : ApplicationError.t) :
  status_conn ss = error_conn se ->
  ApplicationStatus.state ss = ApplicationError.state se.
Proof. unfold status_conn, error_conn. by intros [= _ -> _ _]. Qed.

(** C3, the claim as stated fails: a started error endpoint (socket state
    [Trying], state [Connecting]) that receives a [PING] goes to
    [Connected] with socket state [Up] and touches no subscription, where
    the status endpoint in the same situation stays in [Connecting] and
    resubscribes. *)
Lemma error_ping_while_connecting_connects :
  status_conn StatusScenarios.started = error_conn started
  /\ ApplicationError.socket_state started <> "Up"
  /\ ApplicationError.state (ApplicationError.process_error "" (ping None) started)
     = "Connected"
  /\ ApplicationError.socket_state (ApplicationError.process_error "" (ping None) started)
     = "Up"
  /\ ApplicationError.socket (ApplicationError.process_error "" (ping None) started)
     = ApplicationError.socket started
  /\ ApplicationStatus.state
       (ApplicationStatus.process_status "" (ping None) StatusScenarios.started)
     = "Connecting"
  /\ status_conn (ApplicationStatus.process_status "" (ping None) StatusScenarios.started)
     <> error_conn (ApplicationError.process_error "" (ping None) started).
Proof.
  assert (ApplicationError.state (ApplicationError.process_error "" (ping None) started)
          = "Connected") as He by (vm_compute; reflexivity).
  assert (ApplicationStatus.state
            (ApplicationStatus.process_status "" (ping None) StatusScenarios.started)
          = "Connecting") as Hs by (vm_compute; reflexivity).
  split; [vm_compute; reflexivity|].
  split; [vm_compute; discriminate|].
  split; [exact He|].
  split; [vm_compute; reflexivity|].
  split; [vm_compute; reflexivity|].
  split; [exact Hs|].
  intros H. apply conn_states_agree in H.
  pose proof (eq_trans (eq_sym Hs) (eq_trans H He)) as Habs. discriminate Habs.
Qed.

(** C5.  In every reachable state of each of the three endpoints
    [connected] is true iff the public state label is [Connected]; the
    configuration holds initially and every [update_state], to any label,
    keeps it.  For the command endpoint this includes the states that a
    raising call leaves behind, whatever the serialization layer accepts. *)
Theorem connected_iff_state_is_connected :
  forall (accepts : string -> pyval -> bool)
         (ss : ApplicationStatus.t) (sc : ApplicationCommand.t)
         (se : ApplicationError.t),
    ApplicationStatus.reachable ss ->
    ApplicationCommand.reachable accepts sc ->
    ApplicationError.reachable se ->
    ((ApplicationStatus.connected ss = true
      <-> ApplicationStatus.state ss = "Connected")
     /\ (ApplicationCommand.connected sc = true
         <-> ApplicationCommand.state sc = "Connected")
     /\ (ApplicationError.connected se = true
         <-> ApplicationError.state se = "Connected"))
    /\ (forall new : string,
          (ApplicationStatus.connected (ApplicationStatus.update_state new ss) = true
           <-> ApplicationStatus.state (ApplicationStatus.update_state new ss)
               = "Connected")
          /\ (ApplicationCommand.connected (ApplicationCommand.update_state new sc) = true
              <-> ApplicationCommand.state (ApplicationCommand.update_state new sc)
                  = "Connected")
          /\ (ApplicationError.connected (ApplicationError.update_state new se) = true
              <-> ApplicationError.state (ApplicationError.update_state new se)
                  = "Connected")).
Proof.
  intros accepts ss sc se Hs Hc He.
  pose proof (StatusFacts.reachable_Inv ss Hs) as HIs.
  apply StatusFacts.Inv_proj in HIs as (Hss & _).
  destruct (CommandFacts.cmd_reachable_Inv accepts sc Hc) as (Hcc & _).
  pose proof (ErrorFacts.reachable_agrees se He) as Hee.
  split; [exact (conj Hss (conj Hcc Hee))|].
  intros new.
  exact (conj (StatusFacts.update_state_agrees new ss Hss)
           (conj (CommandFacts.cmd_update_state_agrees new sc Hcc)
                 (ErrorFacts.err_update_state_agrees new se Hee))).
Qed.

Lemma connected_iff_state_is_connected_witness :
  (ApplicationStatus.connected StatusScenarios.connected_state = true
   <-> ApplicationStatus.state StatusScenarios.connected_state = "Connected")
  /\ (ApplicationCommand.connected CommandScenarios.connected_state = true
      <-> ApplicationCommand.state CommandScenarios.connected_state = "Connected")
  /\ (ApplicationError.connected timed_out = true
      <-> ApplicationError.state timed_out = "Connected").
Proof.
  exact (proj1 (connected_iff_state_is_connected CommandScenarios.permissive
                  StatusScenarios.connected_state CommandScenarios.connected_state
                  timed_out
                  (StatusFacts.run_reachable StatusScenarios.connected_trace
                     ApplicationStatus.init StatusScenarios.connected_state
                     ApplicationStatus.reachable_init connected_run)
                  (connected_state_reachable CommandScenarios.permissive)
                  error_timed_out_reachable)).
Defined.

End EndpointClaims.

(* ------------------------------------------------------------------ *)
(** ** Further properties of ApplicationStatus *)
(* ------------------------------------------------------------------ *)

(** *** Thread lists *)

Lemma start_threads_raises ts :
  snd (start_threads (ts ++ [false])) = existsb id ts.
Proof.
  induction ts as [|b ts IH]; [done|]. simpl.
  destruct b; [done|].
  destruct (start_threads (ts ++ [false])) as [ts' r]. simpl in *. done.
Qed.

Lemma start_threads_wedged ts :
  existsb id ts = true -> wedged (fst (start_threads (ts ++ [false]))) = true.
Proof.
  induction ts as [|b ts IH]; [done|]. simpl.
  destruct b; simpl.
  - intros _. unfold wedged. simpl. rewrite existsb_app. simpl.
    by rewrite orb_true_r.
  - intros H. specialize (IH H).
    destruct (start_threads (ts ++ [false])) as [ts' r]. simpl in *.
    unfold wedged in *. simpl. by apply andb_true_iff in IH as [_ IH].
Qed.

Lemma wedged_started ts : wedged ts = true -> existsb id ts = true.
Proof. unfold wedged. by intros [H _]%andb_true_iff. Qed.

Lemma wedged_join ts : wedged ts = true -> join_threads ts = false.
Proof.
  unfold wedged, join_threads. intros [_ H]%andb_true_iff.
  induction ts as [|b ts IH]; [done|]. simpl in *.
  destruct b; simpl in *; [by apply IH|done].
Qed.

Module StatusMore.
Import ApplicationStatus StatusView StatusFacts StatusPing.

Lemma update_state_idle new s :
  idle_when_not_connected s -> idle_when_not_connected (update_state new s).
Proof.
  unfold idle_when_not_connected, update_state, stop_status_heartbeat. intros H.
  destruct (String.eqb new (state s)); [exact H|].
  destruct (String.eqb new "Connected"); [discriminate|].
  cbn [connected set_state].
  destruct (connected s) eqn:Hc.
  - intros _. destruct (status_timer s) eqn:E;
      destruct (String.eqb new "Timeout"); cbn; rewrite ?E; done.
  - cbn [connected status_timer status_period set_state]. rewrite Hc. exact H.
Qed.

Lemma update_state_connected_rest s :
  status_timer (update_state "Connected" s) = status_timer s
  /\ status_period (update_state "Connected" s) = status_period s.
Proof. unfold update_state. destruct (String.eqb "Connected" (state s)); done. Qed.

Lemma idle_same s s' :
  connected s' = connected s -> status_timer s' = status_timer s ->
  status_period s' = status_period s ->
  idle_when_not_connected s -> idle_when_not_connected s'.
Proof. unfold idle_when_not_connected. intros -> -> ->. done. Qed.

Lemma subscribe_idle s :
  idle_when_not_connected s -> idle_when_not_connected (subscribe s).
Proof.
  apply idle_same.
  - pose proof (subscribe_control s) as H. by apply control_proj in H as (-> & _).
  - apply subscribe_timer.
  - apply subscribe_timer.
Qed.

Lemma unsubscribe_idle s :
  idle_when_not_connected s -> idle_when_not_connected (unsubscribe s).
Proof.
  apply idle_same.
  - pose proof (unsubscribe_control s) as H. by apply control_proj in H as (-> & _).
  - apply unsubscribe_timer.
  - apply unsubscribe_timer.
Qed.

Lemma refresh_idle s :
  idle_when_not_connected s -> idle_when_not_connected (refresh_status_heartbeat s).
Proof.
  unfold idle_when_not_connected, refresh_status_heartbeat. intros H.
  destruct (status_timer s) eqn:E; cbn; [|by rewrite E].
  intros Hc. destruct (H Hc). discriminate.
Qed.

Lemma start_idle s :
  idle_when_not_connected s -> idle_when_not_connected (state_of (start s)).
Proof.
  intros H.
  assert (idle_when_not_connected (update_state "Connecting" (set_status_state "Trying" s)))
    as H1 by (by apply update_state_idle).
  revert H1. unfold start, connect_sockets.
  cbn [threads set_shutdown set_threads sock set_status_socket set_sockets_connected].
  generalize (update_state "Connecting" (set_status_state "Trying" s)). intros s1 H1.
  destruct (start_threads _) as [ts raised].
  destruct raised; cbn [state_of]; [exact H1|].
  apply subscribe_idle. exact H1.
Qed.

Lemma cleanup_idle s :
  idle_when_not_connected s -> idle_when_not_connected (cleanup s).
Proof.
  intros H. unfold cleanup.
  assert (idle_when_not_connected (if connected s then unsubscribe s else s)) as H1.
  { destruct (connected s); [by apply unsubscribe_idle|exact H]. }
  revert H1. generalize (if connected s then unsubscribe s else s). intros s1 H1.
  unfold disconnect_sockets. destruct (sockets_connected s1); exact H1.
Qed.

Lemma stop_idle s :
  idle_when_not_connected s -> idle_when_not_connected (state_of (stop s)).
Proof.
  intros H. rewrite stop_unfold.
  destruct (join_threads (threads s)); [|exact H].
  apply update_state_idle, cleanup_idle. exact H.
Qed.

Lemma process_status_idle topic msg s :
  Inv s -> idle_when_not_connected s ->
  idle_when_not_connected (process_status topic msg s).
Proof.
  intros HI H.
  destruct (is_update (topic, msg)) eqn:Hu.
  - pose proof (process_status_update_Inv topic msg s Hu HI) as HI'.
    rewrite process_status_update in * by done.
    pose proof (absorb_control topic msg (set_rx msg s)) as Ha. cbn zeta in Ha.
    apply control_proj in Ha as (Hc1 & Hs1 & Hss1 & _).
    cbn [connected state status_state set_rx] in Hc1, Hs1, Hss1.
    pose proof (absorb_rest topic msg (set_rx msg s)) as Hr.
    unfold rest in Hr. cbn [status_timer status_period threads shutdown set_rx] in Hr.
    injection Hr as Ht Hp _ _.
    assert (idle_when_not_connected (absorb topic msg (set_rx msg s))) as H1
      by (by apply (idle_same s)).
    revert HI' H1 Hss1 Hs1. generalize (absorb topic msg (set_rx msg s)).
    intros s1 HI' H1 Hss1 Hs1. unfold bring_up in *.
    destruct (is_full_update (c_type msg)); [|by apply refresh_idle].
    intros Hc. exfalso.
    apply Inv_proj in HI' as (Hag & _). apply Inv_proj in HI as (_ & Hup & _).
    assert (state (if negb (String.eqb (status_state s1) "Up")
                   then update_state "Connected" (set_status_state "Up" s1)
                   else s1) = "Connected") as Hst.
    { destruct (String.eqb_spec (status_state s1) "Up") as [He|]; cbn [negb].
      - rewrite Hs1. apply Hup. congruence.
      - apply update_state_state. }
    revert Hag Hc Hst.
    generalize (if negb (String.eqb (status_state s1) "Up")
                then update_state "Connected" (set_status_state "Up" s1)
                else s1). intros s2 Hag Hc Hst.
    destruct (c_pparams msg) as [k|].
    + destruct (start_status_heartbeat_frame (k * 2) s2) as (Hk & _).
      apply control_proj in Hk as (Hk1 & Hk2 & _).
      rewrite Hk1, Hk2 in Hag. rewrite Hk1 in Hc.
      apply Hag in Hst. congruence.
    + apply Hag in Hst. congruence.
  - unfold is_update in Hu; cbn [snd] in Hu. unfold process_status.
    destruct (c_type msg) as [[]|]; try discriminate Hu; try exact H.
    cbn [status_state set_rx].
    destruct (String.eqb (status_state s) "Up").
    + apply refresh_idle. exact H.
    + apply subscribe_idle, unsubscribe_idle, update_state_idle. exact H.
Qed.

Lemma handle_idle e s s' :
  Inv s -> idle_when_not_connected s -> handle e s = Some s' ->
  idle_when_not_connected s'.
Proof.
  intros HI H. destruct e; cbn [handle].
  - intros [= <-]. exact H.
  - intros [= <-]. unfold ready. destruct (is_ready s); [exact H|].
    apply start_idle. exact H.
  - intros [= <-]. by apply start_idle.
  - intros [= <-]. by apply stop_idle.
  - destruct (worker_polls _ _); [|done]. intros [= <-]. by apply process_status_idle.
  - destruct (status_timer s) as [tm|] eqn:E; [|done].
    destruct (timer_pending tm); [|done]. intros [= <-].
    unfold status_timer_tick. apply update_state_idle.
    destruct (connected s) eqn:Hc.
    + intros Hc'. cbn in Hc'. congruence.
    + destruct (H Hc). congruence.
Qed.

Lemma reachable_idle s : reachable s -> idle_when_not_connected s.
Proof.
  induction 1 as [|s e s' Hr IH Hh]; [done|].
  eapply handle_idle; [by apply reachable_Inv|exact IH|exact Hh].
Qed.

Lemma process_status_other topic msg s :
  is_update (topic, msg) = false -> c_type msg <> Some MT_PING ->
  process_status topic msg s = set_rx msg s.
Proof.
  unfold is_update, process_status. cbn [snd].
  destruct (c_type msg) as [[]|]; try discriminate; try congruence; done.
Qed.

Lemma process_status_control_cases topic msg s :
  control (process_status topic msg s) = control (absorb topic msg (set_rx msg s))
  \/ (exists s1, control (process_status topic msg s)
                 = control (update_state "Connected" (set_status_state "Up" s1)))
  \/ state (process_status topic msg s) = "Connecting"
  \/ control (process_status topic msg s) = control s.
Proof.
  destruct (is_update (topic, msg)) eqn:Hu.
  - rewrite process_status_update by done. rewrite bring_up_control.
    destruct (is_full_update (c_type msg)); [|by left].
    destruct (String.eqb _ "Up"); [by left|]. right; left. eauto.
  - destruct (c_type msg) as [ty|] eqn:Hty.
    + assert (ty = MT_PING \/ ty <> MT_PING) as [->|Hne]
        by (destruct ty; first [by left | by right]).
      * rewrite process_status_ping by done.
        destruct (String.eqb (status_state s) "Up").
        -- right; right; right.
           by destruct (refresh_status_heartbeat_frame (set_rx msg s)) as (-> & _).
        -- right; right; left.
           by destruct (resubscribe msg s) as (-> & _).
      * right; right; right. rewrite process_status_other; [done|done|congruence].
    + right; right; right. rewrite process_status_other; [done|done|congruence].
Qed.

(** The socket state is [Up] whenever the label is [Connected]. *)
Lemma handle_up e s s' :
  (state s = "Connected" -> status_state s = "Up") ->
  handle e s = Some s' ->
  state s' = "Connected" -> status_state s' = "Up".
Proof.
  intros HU. destruct e; cbn [handle].
  - intros [= <-]. exact HU.
  - intros [= <-]. unfold ready. destruct (is_ready s); [exact HU|].
    rewrite start_state. discriminate.
  - intros [= <-]. rewrite start_state. discriminate.
  - intros [= <-]. rewrite stop_unfold.
    destruct (join_threads (threads s)); [|exact HU].
    rewrite update_state_state. discriminate.
  - destruct (worker_polls _ _); [|done]. intros [= <-].
    destruct (process_status_control_cases topic msg s) as [H|[[s1 H]|[H|H]]].
    + pose proof (absorb_control topic msg (set_rx msg s)) as Ha. cbn zeta in Ha.
      rewrite <- H in Ha. apply control_proj in Ha as (_ & -> & -> & _). exact HU.
    + intros _.
      destruct (update_state_workers "Connected" (set_status_state "Up" s1))
        as (_ & _ & Hs).
      assert (status_state (process_status topic msg s)
              = status_state (update_state "Connected" (set_status_state "Up" s1)))
        as -> by (unfold control in H; congruence).
      exact Hs.
    + rewrite H. discriminate.
    + assert (state (process_status topic msg s) = state s
              /\ status_state (process_status topic msg s) = status_state s)
        as [-> ->] by (unfold control in H; split; congruence).
      exact HU.
  - destruct (status_timer s) as [tm|]; [|done].
    destruct (timer_pending tm); [|done]. intros [= <-].
    unfold status_timer_tick. rewrite update_state_state. discriminate.
Qed.

Lemma reachable_up s : reachable s -> state s = "Connected" -> status_state s = "Up".
Proof.
  induction 1 as [|s e s' Hr IH Hh]; [discriminate|].
  by apply (handle_up e s s').
Qed.

(** *** The socket side *)

Lemma merge_for_wire topic data s :
  wire (merge_for topic data s) = wire s
  /\ running (merge_for topic data s)
     = (if String.eqb topic "task" || String.eqb topic "interp"
        then running (merge_for topic data s) else running s).
Proof. unfold merge_for. string_cases; done. Qed.

Lemma update_sync_wire c s :
  wire (update_sync c s) = wire s /\ running (update_sync c s) = running s.
Proof.
  unfold update_sync. cbn [synced_channels set_synced_channels].
  case_bool_decide; done.
Qed.

Lemma absorb_wire topic msg s : wire (absorb topic msg s) = wire s.
Proof.
  unfold absorb.
  destruct (channel_payload topic msg) as [data|]; [|done].
  destruct (is_full_update (c_type msg)).
  - destruct (update_sync_wire topic (merge_for topic data s)) as [-> _].
    apply merge_for_wire.
  - apply merge_for_wire.
Qed.

Lemma update_state_wire new s :
  wire (update_state new s) = wire s /\ running (update_state new s) = running s
  /\ is_ready (update_state new s) = is_ready s.
Proof.
  unfold update_state, stop_status_heartbeat.
  destruct (String.eqb new (state s)); [done|].
  destruct (String.eqb new "Connected"); [done|].
  cbn. destruct (connected s); [|done].
  destruct (status_timer s); destruct (String.eqb new "Timeout"); done.
Qed.

Lemma start_status_heartbeat_wire i s :
  wire (start_status_heartbeat i s) = wire s
  /\ running (start_status_heartbeat i s) = running s.
Proof.
  unfold start_status_heartbeat.
  destruct (status_timer s); cbn [status_timer set_status_timer set_status_period];
    destruct (0 <? i); done.
Qed.

Lemma refresh_status_heartbeat_wire s :
  wire (refresh_status_heartbeat s) = wire s
  /\ running (refresh_status_heartbeat s) = running s.
Proof. unfold refresh_status_heartbeat. destruct (status_timer s); done. Qed.

Lemma bring_up_wire msg s :
  wire (bring_up msg s) = wire s /\ running (bring_up msg s) = running s.
Proof.
  unfold bring_up.
  destruct (is_full_update (c_type msg)); [|apply refresh_status_heartbeat_wire].
  assert (wire (if negb (String.eqb (status_state s) "Up")
                then update_state "Connected" (set_status_state "Up" s)
                else s) = wire s
          /\ running (if negb (String.eqb (status_state s) "Up")
                      then update_state "Connected" (set_status_state "Up" s)
                      else s) = running s) as H.
  { destruct (String.eqb (status_state s) "Up"); cbn [negb]; [done|].
    destruct (update_state_wire "Connected" (set_status_state "Up" s)) as (-> & -> & _).
    done. }
  revert H.
  generalize (if negb (String.eqb (status_state s) "Up")
              then update_state "Connected" (set_status_state "Up" s)
              else s). intros s2 [H1 H2].
  destruct (c_pparams msg) as [k|]; [|done].
  destruct (start_status_heartbeat_wire (k * 2) s2) as [-> ->]. done.
Qed.

Lemma wire_proj s a b c d :
  wire s = (a, b, c, d) ->
  status_socket s = a /\ subscriptions s = b /\ sockets_connected s = c
  /\ status_uri s = d.
Proof. unfold wire. intros H. repeat split; congruence. Qed.

Lemma wire_eq s s' :
  wire s' = wire s ->
  status_socket s' = status_socket s /\ subscriptions s' = subscriptions s
  /\ sockets_connected s' = sockets_connected s /\ status_uri s' = status_uri s.
Proof. intros H. by apply wire_proj in H. Qed.

(** *** The keepalive armed by a full update *)

Lemma bring_up_full_timer msg s :
  is_full_update (c_type msg) = true ->
  match c_pparams msg with
  | Some k =>
      status_period (bring_up msg s) = k * 2
      /\ (0 < k * 2 -> status_timer (bring_up msg s) = Some (new_timer (k * 2)))
      /\ (k * 2 <= 0 ->
          match status_timer (bring_up msg s) with
          | Some tm => timer_pending tm = false
          | None => True
          end)
  | None =>
      status_timer (bring_up msg s) = status_timer s
      /\ status_period (bring_up msg s) = status_period s
  end.
Proof.
  intros Hf. unfold bring_up. rewrite Hf.
  assert (status_timer (if negb (String.eqb (status_state s) "Up")
                        then update_state "Connected" (set_status_state "Up" s)
                        else s) = status_timer s
          /\ status_period (if negb (String.eqb (status_state s) "Up")
                            then update_state "Connected" (set_status_state "Up" s)
                            else s) = status_period s) as H.
  { destruct (String.eqb (status_state s) "Up"); cbn [negb]; [done|].
    apply (update_state_connected_rest (set_status_state "Up" s)). }
  revert H.
  generalize (if negb (String.eqb (status_state s) "Up")
              then update_state "Connected" (set_status_state "Up" s)
              else s). intros s2 [H1 H2].
  destruct (c_pparams msg) as [k|]; [|done].
  unfold start_status_heartbeat.
  destruct (status_timer s2) as [tm|] eqn:E;
    cbn [status_timer status_period set_status_timer set_status_period];
    destruct (Z.ltb_spec 0 (k * 2));
    cbn [status_timer status_period set_status_timer set_status_period];
    rewrite ?E; repeat split; intros; try done; lia.
Qed.

(** *** The mirrors *)

Lemma mirror_of_mirrors topic s s' :
  mirrors s' = mirrors s -> mirror_of topic s' = mirror_of topic s.
Proof.
  unfold mirrors, mirror_of. intros [= -> -> -> -> ->]. done.
Qed.

Lemma merge_for_mirror topic data s :
  topic ∈ channels ->
  mirror_of topic (merge_for topic data s) = MergeFrom data (mirror_of topic s)
  /\ forall other, other <> topic ->
       mirror_of other (merge_for topic data s) = mirror_of other s.
Proof.
  intros Hin. unfold merge_for, mirror_of.
  destruct (String.eqb_spec topic "motion") as [->|].
  { split; [done|]. intros other Ho.
    destruct (String.eqb_spec other "motion"); done. }
  destruct (String.eqb_spec topic "config") as [->|].
  { split; [done|]. intros other Ho.
    destruct (String.eqb_spec other "config"); done. }
  destruct (String.eqb_spec topic "io") as [->|].
  { split; [done|]. intros other Ho.
    destruct (String.eqb_spec other "io"); done. }
  destruct (String.eqb_spec topic "task") as [->|].
  { split; [done|]. intros other Ho.
    destruct (String.eqb_spec other "task"); done. }
  destruct (String.eqb_spec topic "interp") as [->|].
  { split; [done|]. intros other Ho.
    destruct (String.eqb_spec other "interp"); done. }
  unfold channels in Hin. set_solver.
Qed.

Lemma absorb_mirror topic msg s :
  mirror_of topic (absorb topic msg s)
  = match channel_payload topic msg with
    | Some data => MergeFrom data (mirror_of topic s)
    | None => mirror_of topic s
    end
  /\ forall other, other <> topic ->
       mirror_of other (absorb topic msg s) = mirror_of other s.
Proof.
  unfold absorb.
  destruct (channel_payload topic msg) as [data|] eqn:Hp; [|done].
  apply channel_payload_topic in Hp.
  destruct (merge_for_mirror topic data s Hp) as [H1 H2].
  destruct (is_full_update (c_type msg)); [|done].
  destruct (update_sync_frame topic (merge_for topic data s)) as [_ Hm].
  split.
  - by rewrite (mirror_of_mirrors topic _ _ Hm).
  - intros other Ho. rewrite (mirror_of_mirrors other _ _ Hm). by apply H2.
Qed.

(** *** [subscribe], [unsubscribe], [cleanup] on the remaining variables *)

Lemma status_subscribe_subscriptions s :
  subscriptions (subscribe s) = channels ∪ subscriptions s.
Proof.
  unfold subscribe.
  rewrite (ErrorFacts.fold_left_adds subscriptions); [|intros a x; reflexivity].
  rewrite list_to_set_elements_L. reflexivity.
Qed.

Lemma subscribe_others s :
  running (subscribe s) = running s /\ is_ready (subscribe s) = is_ready s
  /\ sockets_connected (subscribe s) = sockets_connected s
  /\ status_uri (subscribe s) = status_uri s.
Proof.
  unfold subscribe.
  apply (fold_left_preserves
           (fun s' => running s' = running s /\ is_ready s' = is_ready s
                      /\ sockets_connected s' = sockets_connected s
                      /\ status_uri s' = status_uri s)); [|done].
  intros a b Ha. exact Ha.
Qed.

Lemma clear_subscription_others x s :
  running (clear_subscription x s) = running s
  /\ is_ready (clear_subscription x s) = is_ready s
  /\ sockets_connected (clear_subscription x s) = sockets_connected s
  /\ status_uri (clear_subscription x s) = status_uri s
  /\ threads (clear_subscription x s) = threads s
  /\ shutdown (clear_subscription x s) = shutdown s.
Proof. unfold clear_subscription. string_cases; done. Qed.

Lemma unsubscribe_others s :
  running (unsubscribe s) = running s /\ is_ready (unsubscribe s) = is_ready s
  /\ sockets_connected (unsubscribe s) = sockets_connected s
  /\ status_uri (unsubscribe s) = status_uri s
  /\ threads (unsubscribe s) = threads s
  /\ shutdown (unsubscribe s) = shutdown s.
Proof.
  unfold unsubscribe.
  set (f := fun s0 sub => clear_subscription sub (sock (SockUnsubscribe sub) s0)).
  set (s1 := set_status_state "Down" s).
  set (P := fun s' : t =>
              running s' = running s /\ is_ready s' = is_ready s
              /\ sockets_connected s' = sockets_connected s
              /\ status_uri s' = status_uri s
              /\ threads s' = threads s /\ shutdown s' = shutdown s).
  change (P (fold_left f (elements (subscriptions s1)) s1)).
  apply (fold_left_preserves P); [|done].
  intros a b Ha. unfold f, P.
  destruct (clear_subscription_others b (sock (SockUnsubscribe b) a))
    as (-> & -> & -> & -> & -> & ->). exact Ha.
Qed.

Lemma status_unsubscribe_subscriptions s : subscriptions (unsubscribe s) = ∅.
Proof. reflexivity. Qed.

Lemma unsubscribe_all_cleared s :
  subscriptions s = channels -> mirrors (unsubscribe s) = cleared.
Proof.
  intros H. unfold unsubscribe. cbn [subscriptions set_status_state].
  rewrite H, elements_channels. reflexivity.
Qed.

Lemma cleanup_others s :
  status_socket (cleanup s)
  = (status_socket s
     ++ (if connected s then SockUnsubscribe <$> elements (subscriptions s) else [])
     ++ (if sockets_connected s then [SockDisconnect (status_uri s)] else []))%list
  /\ subscriptions (cleanup s) = ∅
  /\ sockets_connected (cleanup s) = false
  /\ threads (cleanup s) = threads s /\ shutdown (cleanup s) = shutdown s
  /\ is_ready (cleanup s) = is_ready s /\ running (cleanup s) = running s.
Proof.
  unfold cleanup.
  assert (forall s1 : t,
            status_socket (disconnect_sockets s1)
            = (status_socket s1
               ++ (if sockets_connected s1 then [SockDisconnect (status_uri s1)]
                   else []))%list
            /\ sockets_connected (disconnect_sockets s1) = false
            /\ threads (disconnect_sockets s1) = threads s1
            /\ shutdown (disconnect_sockets s1) = shutdown s1
            /\ is_ready (disconnect_sockets s1) = is_ready s1
            /\ running (disconnect_sockets s1) = running s1) as Hd.
  { intros s1. unfold disconnect_sockets.
    destruct (sockets_connected s1) eqn:E; cbn; rewrite ?E, ?app_nil_r; done. }
  destruct (connected s).
  - destruct (Hd (unsubscribe s)) as (H1 & H2 & H3 & H4 & H5 & H6).
    destruct (unsubscribe_others s) as (U1 & U2 & U3 & U4 & U5 & U6).
    cbn [status_socket subscriptions sockets_connected threads shutdown is_ready
         running set_subscriptions].
    rewrite H1, H2, H3, H4, H5, H6, U1, U2, U3, U4, U5, U6,
      status_unsubscribe_socket, <- app_assoc.
    done.
  - destruct (Hd s) as (H1 & H2 & H3 & H4 & H5 & H6).
    cbn [status_socket subscriptions sockets_connected threads shutdown is_ready
         running set_subscriptions].
    rewrite H1, H2, H3, H4, H5, H6. done.
Qed.

Lemma cleanup_mirrors s : connected s = false -> mirrors (cleanup s) = mirrors s.
Proof.
  intros Hc. unfold cleanup. rewrite Hc.
  change (mirrors (disconnect_sockets s) = mirrors s).
  apply disconnect_sockets_frame.
Qed.

(** *** [start] and [stop] *)

Lemma status_start_unfold s :
  let s1 := update_state "Connecting" (set_status_state "Trying" s) in
  let s2 := set_threads (fst (start_threads (threads s ++ [false])))
              (set_shutdown false
                 (sock (SockConnect (status_uri s))
                    (set_sockets_connected true s1))) in
  start s = if existsb id (threads s) then Raised s2 else Returned (subscribe s2).
Proof.
  intros s1 s2.
  destruct (update_state_workers "Connecting" (set_status_state "Trying" s))
    as (Ht & _ & _). fold s1 in Ht. cbn [threads set_status_state] in Ht.
  destruct (update_state_wire "Connecting" (set_status_state "Trying" s))
    as (Hw & _ & _). fold s1 in Hw. apply wire_eq in Hw as (_ & _ & _ & Hu).
  cbn [status_uri set_status_state] in Hu.
  rewrite <- start_threads_raises.
  unfold start, connect_sockets. fold s1.
  cbn [threads status_uri set_shutdown set_threads sock set_status_socket
       set_sockets_connected].
  rewrite Ht, Hu. subst s2.
  destruct (start_threads (threads s ++ [false])) as [ts raised].
  cbn [fst snd]. destruct raised; reflexivity.
Qed.

Lemma status_stop_returns s : returned (stop s) = join_threads (threads s).
Proof. unfold stop. cbn [threads set_shutdown set_is_ready]. by destruct (join_threads _). Qed.

Lemma status_start_threads s :
  threads (state_of (start s)) = fst (start_threads (threads s ++ [false]))
  /\ subscriptions (state_of (start s))
     = (if existsb id (threads s) then subscriptions s
        else channels ∪ subscriptions s)
  /\ running (state_of (start s)) = running s.
Proof.
  rewrite status_start_unfold.
  destruct (update_state_wire "Connecting" (set_status_state "Trying" s))
    as (Hw & Hr & _). apply wire_eq in Hw as (_ & Hs & _).
  cbn [subscriptions running set_status_state] in Hs, Hr.
  destruct (existsb id (threads s)); cbn [state_of].
  - cbn [threads subscriptions running set_threads set_shutdown sock
         set_status_socket set_sockets_connected]. done.
  - match goal with
    | |- context [subscribe ?x] =>
        destruct (subscribe_workers x) as [-> _];
        destruct (subscribe_others x) as (-> & _);
        rewrite (status_subscribe_subscriptions x)
    end.
    cbn [threads subscriptions running set_threads set_shutdown sock
         set_status_socket set_sockets_connected].
    rewrite Hs, Hr. done.
Qed.

(** *** What [process_status] does, by message kind *)

Lemma process_status_cases topic msg s :
  (is_update (topic, msg) = true
   /\ process_status topic msg s = bring_up msg (absorb topic msg (set_rx msg s)))
  \/ (c_type msg = Some MT_PING
      /\ process_status topic msg s
         = if String.eqb (status_state s) "Up"
           then refresh_status_heartbeat (set_rx msg s)
           else subscribe (unsubscribe (update_state "Connecting" (set_rx msg s))))
  \/ process_status topic msg s = set_rx msg s.
Proof.
  destruct (is_update (topic, msg)) eqn:Hu.
  { left. split; [done|]. by apply process_status_update. }
  right.
  destruct (c_type msg) as [ty|] eqn:Hty.
  - assert (ty = MT_PING \/ ty <> MT_PING) as [->|Hne]
      by (destruct ty; first [by left | by right]).
    + left. split; [done|]. by apply process_status_ping.
    + right. apply process_status_other; [done|congruence].
  - right. apply process_status_other; [done|congruence].
Qed.

Lemma process_status_threads topic msg s :
  threads (process_status topic msg s) = threads s
  /\ shutdown (process_status topic msg s) = shutdown s.
Proof.
  destruct (process_status_cases topic msg s) as [[Hu _]|[[_ ->]| ->]]; [| |done].
  - by apply process_status_update_workers.
  - destruct (String.eqb (status_state s) "Up").
    + destruct (refresh_status_heartbeat_frame (set_rx msg s)) as (_ & _ & -> & ->).
      done.
    + match goal with
      | |- context [subscribe ?x] => destruct (subscribe_workers x) as [-> ->]
      end.
      match goal with
      | |- context [unsubscribe ?x] =>
          destruct (unsubscribe_others x) as (_ & _ & _ & _ & -> & ->)
      end.
      destruct (update_state_workers "Connecting" (set_rx msg s)) as (-> & -> & _).
      done.
Qed.

Lemma process_status_subscriptions topic msg s :
  subscriptions (process_status topic msg s) = subscriptions s
  \/ subscriptions (process_status topic msg s) = channels.
Proof.
  destruct (process_status_cases topic msg s) as [[Hu ->]|[[_ ->]| ->]];
    [| |by left].
  - left.
    destruct (bring_up_wire msg (absorb topic msg (set_rx msg s))) as [Hw _].
    apply wire_eq in Hw as (_ & -> & _).
    pose proof (absorb_wire topic msg (set_rx msg s)) as Hw.
    by apply wire_eq in Hw as (_ & -> & _).
  - destruct (String.eqb (status_state s) "Up").
    + left. destruct (refresh_status_heartbeat_wire (set_rx msg s)) as [Hw _].
      by apply wire_eq in Hw as (_ & -> & _).
    + right. rewrite status_subscribe_subscriptions, status_unsubscribe_subscriptions.
      by rewrite (right_id_L ∅ (∪)).
Qed.

Lemma process_status_running topic msg s :
  running (process_status topic msg s) <> running s ->
  is_update (topic, msg) = true
  /\ (topic = "task" \/ topic = "interp")
  /\ channel_payload topic msg <> None.
Proof.
  destruct (process_status_cases topic msg s) as [[Hu ->]|[[_ ->]| ->]]; [| |done].
  - destruct (bring_up_wire msg (absorb topic msg (set_rx msg s))) as [_ ->].
    unfold absorb.
    destruct (channel_payload topic msg) as [data|] eqn:Hp; [|done].
    assert (running (if is_full_update (c_type msg)
                     then update_sync topic (merge_for topic data (set_rx msg s))
                     else merge_for topic data (set_rx msg s))
            = running (merge_for topic data (set_rx msg s))) as ->.
    { destruct (is_full_update (c_type msg)); [|done].
      by destruct (update_sync_wire topic (merge_for topic data (set_rx msg s)))
        as [_ ->]. }
    destruct (merge_for_wire topic data (set_rx msg s)) as [_ Hr].
    destruct (String.eqb_spec topic "task") as [->|]; [intros _; by auto|].
    destruct (String.eqb_spec topic "interp") as [->|]; [intros _; by auto|].
    cbn [orb] in Hr. rewrite Hr. done.
  - destruct (String.eqb (status_state s) "Up").
    + by destruct (refresh_status_heartbeat_wire (set_rx msg s)) as [_ ->].
    + match goal with
      | |- context [subscribe ?x] => destruct (subscribe_others x) as (-> & _)
      end.
      match goal with
      | |- context [unsubscribe ?x] => destruct (unsubscribe_others x) as (-> & _)
      end.
      by destruct (update_state_wire "Connecting" (set_rx msg s)) as (_ & -> & _).
Qed.

Lemma status_stop_running s : running (state_of (stop s)) = running s.
Proof.
  rewrite stop_unfold. destruct (join_threads (threads s)); [|done].
  destruct (update_state_wire "Disconnected"
              (cleanup (set_threads [] (set_shutdown true (set_is_ready false s)))))
    as (_ & -> & _).
  by destruct (cleanup_others (set_threads [] (set_shutdown true (set_is_ready false s))))
    as (_ & _ & _ & _ & _ & _ & ->).
Qed.

Lemma handle_running e s s' :
  handle e s = Some s' -> running s' <> running s ->
  exists topic msg, e = Receive topic msg /\ is_update (topic, msg) = true
    /\ (topic = "task" \/ topic = "interp")
    /\ channel_payload topic msg <> None.
Proof.
  destruct e; cbn [handle].
  - intros [= <-]. done.
  - intros [= <-]. unfold ready. destruct (is_ready s); [done|].
    by destruct (status_start_threads (set_is_ready true s)) as (_ & _ & ->).
  - intros [= <-]. by destruct (status_start_threads s) as (_ & _ & ->).
  - intros [= <-]. by rewrite status_stop_running.
  - destruct (worker_polls _ _); [|done]. intros [= <-] H.
    exists topic, msg. split; [done|]. by apply (process_status_running topic msg s).
  - destruct (status_timer s) as [tm|]; [|done].
    destruct (timer_pending tm); [|done]. intros [= <-].
    unfold status_timer_tick.
    by destruct (update_state_wire "Timeout"
                   (set_status_state "Down" (set_status_timer (Some (fired tm)) s)))
      as (_ & -> & _).
Qed.

(** *** Subscriptions and threads *)

Lemma handle_subscribed e s s' :
  subscribed_while_running s -> handle e s = Some s' ->
  subscribed_while_running s'.
Proof.
  unfold subscribed_while_running. intros HK.
  assert (forall x : t,
            subscriptions x = (if existsb id (threads x) then channels else ∅) ->
            subscriptions (state_of (start x))
            = (if existsb id (threads (state_of (start x))) then channels else ∅))
    as Hstart.
  { intros x Hx. destruct (status_start_threads x) as (-> & -> & _).
    pose proof (start_threads_polls (threads x) false) as Hp.
    unfold worker_polls in Hp. cbn [negb] in Hp. rewrite andb_true_r in Hp.
    rewrite Hp, Hx.
    destruct (existsb id (threads x)); [done|]. by rewrite (right_id_L ∅ (∪)). }
  destruct e; cbn [handle].
  - intros [= <-]. exact HK.
  - intros [= <-]. unfold ready. destruct (is_ready s); [exact HK|].
    by apply Hstart.
  - intros [= <-]. by apply Hstart.
  - intros [= <-]. rewrite stop_unfold.
    destruct (join_threads (threads s)); [|exact HK].
    destruct (update_state_wire "Disconnected"
                (cleanup (set_threads [] (set_shutdown true (set_is_ready false s)))))
      as (Hw & _). apply wire_eq in Hw as (_ & -> & _).
    destruct (update_state_workers "Disconnected"
                (cleanup (set_threads [] (set_shutdown true (set_is_ready false s)))))
      as (-> & _).
    destruct (cleanup_others (set_threads [] (set_shutdown true (set_is_ready false s))))
      as (_ & -> & _ & -> & _). done.
  - destruct (worker_polls _ _) eqn:Hp; [|done]. intros [= <-].
    unfold worker_polls in Hp. apply andb_true_iff in Hp as [Hp _].
    destruct (process_status_threads topic msg s) as [-> _].
    rewrite Hp in HK |- *.
    destruct (process_status_subscriptions topic msg s) as [-> | ->]; done.
  - destruct (status_timer s) as [tm|]; [|done].
    destruct (timer_pending tm); [|done]. intros [= <-].
    unfold status_timer_tick.
    destruct (update_state_wire "Timeout"
                (set_status_state "Down" (set_status_timer (Some (fired tm)) s)))
      as (Hw & _). apply wire_eq in Hw as (_ & -> & _).
    destruct (update_state_workers "Timeout"
                (set_status_state "Down" (set_status_timer (Some (fired tm)) s)))
      as (-> & _). exact HK.
Qed.

Lemma reachable_subscribed s : reachable s -> subscribed_while_running s.
Proof.
  induction 1 as [|s e s' Hr IH Hh]; [done|].
  by apply (handle_subscribed e s s').
Qed.

(** *** A wedged thread list *)

Lemma handle_wedged e s s' :
  wedged (threads s) = true -> handle e s = Some s' ->
  wedged (threads s') = true.
Proof.
  intros Hw.
  assert (forall x : t, threads x = threads s ->
            wedged (threads (state_of (start x))) = true) as Hstart.
  { intros x Hx. destruct (status_start_threads x) as (-> & _).
    rewrite Hx. by apply start_threads_wedged, wedged_started. }
  destruct e; cbn [handle].
  - intros [= <-]. exact Hw.
  - intros [= <-]. unfold ready. destruct (is_ready s); [exact Hw|].
    by apply Hstart.
  - intros [= <-]. by apply Hstart.
  - intros [= <-]. rewrite stop_unfold, (wedged_join _ Hw). exact Hw.
  - destruct (worker_polls _ _); [|done]. intros [= <-].
    by destruct (process_status_threads topic msg s) as [-> _].
  - destruct (status_timer s) as [tm|]; [|done].
    destruct (timer_pending tm); [|done]. intros [= <-].
    unfold status_timer_tick.
    by destruct (update_state_workers "Timeout"
                   (set_status_state "Down" (set_status_timer (Some (fired tm)) s)))
      as (-> & _).
Qed.

Lemma run_wedged es : forall s s',
  wedged (threads s) = true -> run es s = Some s' -> wedged (threads s') = true.
Proof.
  induction es as [|e es IH]; intros s s' Hw; [by intros [= <-]|].
  rewrite run_cons. destruct (handle e s) as [s1|] eqn:Hh; [|done].
  apply IH. by apply (handle_wedged e s s1).
Qed.

End StatusMore.

Section StatusExtras.
Import ApplicationStatus StatusView StatusFacts StatusPing StatusMore StatusScenarios.

(** X1.  Outside [Connected] the status endpoint has no keepalive timer,
    a keepalive period of 0, an empty sync set and [synced] false. *)
Theorem status_idle_outside_connected :
  forall s : t,
    reachable s -> state s <> "Connected" ->
    connected s = false /\ status_timer s = None /\ status_period s = 0
    /\ synced_channels s = ∅ /\ synced s = false.
Proof.
  intros s Hr Hst.
  pose proof (reachable_Inv s Hr) as HI.
  apply Inv_proj in HI as (Hag & _ & _ & Hsyn & Hemp).
  assert (connected s = false) as Hc.
  { destruct (connected s); [|done]. destruct Hag as [Hag _]. by specialize (Hag eq_refl). }
  destruct (reachable_idle s Hr Hc) as [Ht Hp].
  specialize (Hemp Hst).
  repeat split; try done.
  destruct (synced s); [|done]. destruct Hsyn as [Hsyn _]. specialize (Hsyn eq_refl).
  rewrite Hemp in Hsyn. symmetry in Hsyn. by apply channels_nonempty in Hsyn.
Qed.

Lemma status_idle_outside_connected_witness :
  connected timed_out = false /\ status_timer timed_out = None
  /\ status_period timed_out = 0
  /\ synced_channels timed_out = ∅ /\ synced timed_out = false.
Proof.
  assert (state timed_out = "Timeout") as Ht by (vm_compute; reflexivity).
  apply (status_idle_outside_connected timed_out).
  - apply (run_reachable timed_out_trace init); [apply reachable_init|apply timed_out_run].
  - rewrite Ht. discriminate.
Defined.

(** X2.  The status keepalive can expire only in [Connected]; the expiry
    moves the endpoint to [Timeout] with socket state [Down], keeps the
    five mirrors, and leaves no timer that could expire again. *)
Theorem status_keepalive_expiry :
  forall s s' : t,
    reachable s -> handle TimerExpires s = Some s' ->
    state s = "Connected"
    /\ state s' = "Timeout" /\ status_state s' = "Down" /\ connected s' = false
    /\ synced s' = false /\ mirrors s' = mirrors s
    /\ handle TimerExpires s' = None.
Proof.
  intros s s' Hr Hh.
  pose proof (reachable_Inv s Hr) as HI.
  pose proof (reachable_idle s Hr) as Hidle.
  cbn [handle] in Hh.
  destruct (status_timer s) as [tm|] eqn:E; [|done].
  destruct (timer_pending tm); [|done]. injection Hh as <-.
  assert (connected s = true) as Hc.
  { destruct (connected s) eqn:Hc0; [done|]. destruct (Hidle Hc0). congruence. }
  assert (state s = "Connected") as Hst.
  { apply Inv_proj in HI as (Hag & _). by apply Hag. }
  destruct (leave_by_timer tm s HI Hst) as (H1 & H2 & H3 & H4 & H5).
  cbn zeta in *.
  assert (status_state (status_timer_tick (set_status_timer (Some (fired tm)) s)) = "Down")
    as Hd.
  { unfold status_timer_tick.
    by destruct (update_state_workers "Timeout"
                   (set_status_state "Down" (set_status_timer (Some (fired tm)) s)))
      as (_ & _ & ->). }
  assert (connected (status_timer_tick (set_status_timer (Some (fired tm)) s)) = false)
    as Hcf.
  { pose proof (update_state_agrees "Timeout"
                  (set_status_state "Down" (set_status_timer (Some (fired tm)) s))) as Ha.
    apply Inv_proj in HI as (Hag & _). specialize (Ha Hag).
    unfold status_timer_tick.
    destruct (connected (update_state "Timeout" _)); [|done].
    destruct Ha as [Ha _]. specialize (Ha eq_refl). rewrite update_state_state in Ha.
    discriminate. }
  split; [exact Hst|]. split; [exact H1|]. split; [exact Hd|]. split; [exact Hcf|].
  split; [exact H4|]. split; [exact H5|].
  cbn [handle]. by rewrite H2.
Qed.

Lemma status_keepalive_expiry_witness :
  state connected_state = "Connected" /\ state timed_out = "Timeout"
  /\ mirrors timed_out = mirrors connected_state
  /\ handle TimerExpires timed_out = None.
Proof.
  destruct (status_keepalive_expiry connected_state timed_out)
    as (H1 & H2 & _ & _ & _ & H6 & H7).
  - apply (run_reachable connected_trace init); [apply reachable_init|apply connected_run].
  - vm_compute. reflexivity.
  - exact (conj H1 (conj H2 (conj H6 H7))).
Defined.

(** X3.  In every reachable state of the status endpoint the socket state
    is [Up] exactly when the public state is [Connected]. *)
Theorem status_socket_up_iff_connected :
  forall s : t, reachable s -> (status_state s = "Up" <-> state s = "Connected").
Proof.
  intros s Hr. split.
  - pose proof (reachable_Inv s Hr) as HI.
    apply Inv_proj in HI as (_ & Hup & _). exact Hup.
  - by apply reachable_up.
Qed.

Lemma status_socket_up_iff_connected_witness :
  status_state connected_state = "Up" <-> state connected_state = "Connected".
Proof.
  apply (status_socket_up_iff_connected connected_state).
  apply (run_reachable connected_trace init); [apply reachable_init|apply connected_run].
Defined.

(** X4.  A full update that carries [pparams] sets the keepalive period
    to twice [keepalive_timer] and, when that is positive, arms a fresh
    timer of that period; when it is not positive no pending timer is
    left.  A full update without [pparams] leaves timer and period as they
    were: it does not rearm the keepalive. *)
Theorem status_full_update_arms_keepalive :
  forall (s : t) (topic : string) (msg : Container),
    c_type msg = Some MT_EMCSTAT_FULL_UPDATE ->
    let s' := process_status topic msg s in
    match c_pparams msg with
    | Some k =>
        status_period s' = k * 2
        /\ (0 < k * 2 -> status_timer s' = Some (new_timer (k * 2)))
        /\ (k * 2 <= 0 -> handle TimerExpires s' = None)
    | None =>
        status_timer s' = status_timer s /\ status_period s' = status_period s
    end.
Proof.
  intros s topic msg Hty s'.
  assert (is_update (topic, msg) = true) as Hu
    by (unfold is_update; cbn [snd]; by rewrite Hty).
  assert (is_full_update (c_type msg) = true) as Hf by (by rewrite Hty).
  subst s'. rewrite process_status_update by done.
  pose proof (absorb_rest topic msg (set_rx msg s)) as Hr.
  unfold rest in Hr. cbn [status_timer status_period threads shutdown set_rx] in Hr.
  injection Hr as Ht Hp _ _.
  pose proof (bring_up_full_timer msg (absorb topic msg (set_rx msg s)) Hf) as H.
  destruct (c_pparams msg) as [k|].
  - destruct H as (H1 & H2 & H3). split; [exact H1|]. split; [exact H2|].
    intros Hk. specialize (H3 Hk). cbn [handle].
    destruct (status_timer (bring_up msg _)) as [tm|]; [|done]. by rewrite H3.
  - destruct H as [H1 H2]. split; congruence.
Qed.

Lemma status_full_update_arms_keepalive_witness :
  status_period (process_status "motion" (full_motion (Some 1000) ∅) started) = 2000
  /\ status_timer (process_status "motion" (full_motion (Some 1000) ∅) started)
     = Some (new_timer 2000).
Proof.
  pose proof (status_full_update_arms_keepalive started "motion"
                (full_motion (Some 1000) ∅) eq_refl) as H.
  cbn [c_pparams full_motion] in H.
  destruct H as (H1 & H2 & _).
  split; [exact H1|]. apply H2. lia.
Defined.

(** X5.  An incremental update never changes the connection state, the
    socket state, the sync set, the subscriptions or the socket: it cannot
    connect the endpoint.  It rearms a keepalive timer that exists with
    the current period and creates none. *)
Theorem status_incremental_update_keeps_connection :
  forall (s : t) (topic : string) (msg : Container),
    c_type msg = Some MT_EMCSTAT_INCREMENTAL_UPDATE ->
    let s' := process_status topic msg s in
    control s' = control s /\ wire s' = wire s
    /\ status_period s' = status_period s
    /\ status_timer s'
       = match status_timer s with
         | Some _ => Some (new_timer (status_period s))
         | None => None
         end.
Proof.
  intros s topic msg Hty s'.
  assert (is_update (topic, msg) = true) as Hu
    by (unfold is_update; cbn [snd]; by rewrite Hty).
  subst s'. rewrite process_status_update by done.
  pose proof (absorb_rest topic msg (set_rx msg s)) as Hr.
  unfold rest in Hr. cbn [status_timer status_period threads shutdown set_rx] in Hr.
  injection Hr as Ht Hp _ _.
  pose proof (absorb_control topic msg (set_rx msg s)) as Hc. cbn zeta in Hc.
  assert (full_topic (topic, msg) = ∅) as Hft
    by (unfold full_topic; cbn [fst snd]; by rewrite Hty).
  rewrite Hft, decide_True, (left_id_L ∅ (∪)) in Hc by done.
  pose proof (absorb_wire topic msg (set_rx msg s)) as Hw.
  revert Ht Hp Hc Hw. generalize (absorb topic msg (set_rx msg s)).
  intros s1 Ht Hp Hc Hw.
  unfold bring_up. rewrite Hty. cbn [is_full_update].
  destruct (refresh_status_heartbeat_frame s1) as (-> & _).
  destruct (refresh_status_heartbeat_wire s1) as (-> & _).
  split; [exact Hc|]. split; [exact Hw|].
  unfold refresh_status_heartbeat. rewrite Ht.
  destruct (status_timer s); cbn [status_timer status_period set_status_timer];
    rewrite ?Hp, ?Ht; done.
Qed.

Lemma status_incremental_update_keeps_connection_witness :
  control (process_status "motion" (incremental_motion ∅) started) = control started
  /\ wire (process_status "motion" (incremental_motion ∅) started) = wire started.
Proof.
  destruct (status_incremental_update_keeps_connection started "motion"
              (incremental_motion ∅) eq_refl) as (H1 & H2 & _).
  exact (conj H1 H2).
Defined.

(** X6.  An update message merges its payload into the mirror of the
    channel named by its topic and leaves every other mirror as it was;
    without a payload for its topic it changes no mirror. *)
Theorem status_update_merges_its_channel_only :
  forall (s : t) (topic : string) (msg : Container),
    is_update (topic, msg) = true ->
    let s' := process_status topic msg s in
    mirror_of topic s'
    = match channel_payload topic msg with
      | Some data => MergeFrom data (mirror_of topic s)
      | None => mirror_of topic s
      end
    /\ forall other, other <> topic -> mirror_of other s' = mirror_of other s.
Proof.
  intros s topic msg Hu s'. subst s'. rewrite process_status_update by done.
  pose proof (bring_up_mirrors msg (absorb topic msg (set_rx msg s))) as Hm.
  destruct (absorb_mirror topic msg (set_rx msg s)) as [H1 H2].
  split.
  - rewrite (mirror_of_mirrors topic _ _ Hm). exact H1.
  - intros other Ho. rewrite (mirror_of_mirrors other _ _ Hm). by apply H2.
Qed.

Lemma status_update_merges_its_channel_only_witness :
  mirror_of "motion" (process_status "motion" (full_motion None {[ "feed" := 100 ]}) started)
  = MergeFrom {[ "feed" := 100 ]} (mirror_of "motion" started)
  /\ mirror_of "task" (process_status "motion" (full_motion None {[ "feed" := 100 ]}) started)
     = mirror_of "task" started.
Proof.
  destruct (status_update_merges_its_channel_only started "motion"
              (full_motion None {[ "feed" := 100 ]}) eq_refl) as [H1 H2].
  split; [exact H1|]. apply H2. discriminate.
Defined.

(** X7.  [running] changes only when an update message with a payload is
    received on the topic [task] or [interp]: no other message and no
    [start()], [stop()], [ready()] or timer expiry recomputes it, also not
    those that clear the task and interp mirrors. *)
Theorem status_running_follows_task_and_interp :
  forall (e : event) (s s' : t),
    handle e s = Some s' -> running s' <> running s ->
    exists topic msg, e = Receive topic msg /\ is_update (topic, msg) = true
      /\ (topic = "task" \/ topic = "interp")
      /\ channel_payload topic msg <> None.
Proof.
  intros e s s' Hh Hr.
  destruct (handle_running e s s' Hh Hr) as (topic & msg & H1 & H2 & H3 & H4).
  exists topic, msg. auto.
Qed.

Lemma status_running_follows_task_and_interp_witness :
  exists topic msg,
    Receive "task" (full_task {[ "task_mode" := EMC_TASK_MODE_AUTO ]})
    = Receive topic msg
    /\ is_update (topic, msg) = true
    /\ (topic = "task" \/ topic = "interp")
    /\ channel_payload topic msg <> None.
Proof.
  apply (status_running_follows_task_and_interp
           (Receive "task" (full_task {[ "task_mode" := EMC_TASK_MODE_AUTO ]}))
           started
           (process_status "task" (full_task {[ "task_mode" := EMC_TASK_MODE_AUTO ]})
              started)).
  - vm_compute. reflexivity.
  - vm_compute. discriminate.
Defined.

(** X8.  A [PING] received in [Connected] changes neither the connection
    variables, nor the mirrors, nor the socket.  Received in any other
    state it moves the endpoint to [Connecting] with socket state
    [Trying], unsubscribes and resubscribes all five channels and clears
    all five mirrors, also those retained in [Timeout]. *)
Theorem status_ping_outside_connected_resubscribes :
  forall (s s' : t) (topic : string) (msg : Container),
    reachable s -> handle (Receive topic msg) s = Some s' ->
    c_type msg = Some MT_PING ->
    (state s = "Connected" ->
       control s' = control s /\ mirrors s' = mirrors s /\ wire s' = wire s)
    /\ (state s <> "Connected" ->
       state s' = "Connecting" /\ status_state s' = "Trying"
       /\ mirrors s' = cleared /\ subscriptions s' = channels
       /\ status_socket s'
          = (status_socket s ++ (SockUnsubscribe <$> elements channels)
             ++ (SockSubscribe <$> elements channels))%list).
Proof.
  intros s s' topic msg Hr Hh Hty. cbn [handle] in Hh.
  destruct (worker_polls _ _) eqn:Hp; [|done]. injection Hh as <-.
  unfold worker_polls in Hp. apply andb_true_iff in Hp as [Hp _].
  pose proof (reachable_subscribed s Hr) as HK.
  unfold subscribed_while_running in HK. rewrite Hp in HK.
  pose proof (reachable_Inv s Hr) as HI. apply Inv_proj in HI as (_ & Hup & _).
  rewrite process_status_ping by done.
  split.
  - intros Hst. rewrite (reachable_up s Hr Hst). cbn [String.eqb Ascii.eqb Bool.eqb].
    destruct (refresh_status_heartbeat_frame (set_rx msg s)) as (-> & -> & _).
    destruct (refresh_status_heartbeat_wire (set_rx msg s)) as (-> & _). done.
  - intros Hst.
    destruct (String.eqb_spec (status_state s) "Up") as [He|Hne]; [by apply Hup in He|].
    destruct (resubscribe msg s) as (H1 & H2 & _ & _ & H5).
    destruct (update_state_socket "Connecting" (set_rx msg s)) as [_ Hs].
    cbn [subscriptions set_rx] in Hs.
    split; [exact H1|]. split; [exact H2|]. split; [|split].
    + rewrite subscribe_mirrors. apply unsubscribe_all_cleared. by rewrite Hs.
    + rewrite status_subscribe_subscriptions, status_unsubscribe_subscriptions.
      by rewrite (right_id_L ∅ (∪)).
    + rewrite H5, HK. done.
Qed.

Lemma status_ping_outside_connected_resubscribes_witness :
  state (process_status "" bare_ping timed_out) = "Connecting"
  /\ mirrors (process_status "" bare_ping timed_out) = cleared
  /\ subscriptions (process_status "" bare_ping timed_out) = channels.
Proof.
  assert (state timed_out <> "Connected") as Hst by (vm_compute; discriminate).
  destruct (status_ping_outside_connected_resubscribes timed_out
              (process_status "" bare_ping timed_out) "" bare_ping) as [_ H].
  - apply (run_reachable timed_out_trace init); [apply reachable_init|apply timed_out_run].
  - vm_compute. reflexivity.
  - reflexivity.
  - destruct (H Hst) as (H1 & _ & H3 & H4 & _). exact (conj H1 (conj H3 H4)).
Defined.

(** X9.  When [stop()] returns, the endpoint is [Disconnected] and
    quiescent: no threads, no subscriptions, the socket disconnected, no
    message can be processed and no timer can expire.  On the socket it
    unsubscribes the recorded topics only if it was connected and
    disconnects only if the socket was connected; the mirrors are cleared
    only if it was connected, and [running] keeps its last value. *)
Theorem status_stop_disconnects :
  forall s : t,
    reachable s -> returned (stop s) = true ->
    let s' := state_of (stop s) in
    state s' = "Disconnected" /\ connected s' = false
    /\ threads s' = [] /\ shutdown s' = true /\ is_ready s' = false
    /\ subscriptions s' = ∅ /\ sockets_connected s' = false
    /\ status_socket s'
       = (status_socket s
          ++ (if connected s then SockUnsubscribe <$> elements (subscriptions s)
              else [])
          ++ (if sockets_connected s then [SockDisconnect (status_uri s)] else []))%list
    /\ mirrors s' = (if connected s then cleared else mirrors s)
    /\ running s' = running s
    /\ (forall topic msg, handle (Receive topic msg) s' = None)
    /\ handle TimerExpires s' = None.
Proof.
  intros s Hr Hret s'.
  assert (reachable s') as Hr' by (by apply (reachable_step s Stop)).
  assert (running s' = running s) as Hrun by apply status_stop_running.
  rewrite status_stop_returns in Hret.
  pose proof (stop_unfold s) as Hs'. fold s' in Hs'. rewrite Hret in Hs'.
  set (s0 := set_threads [] (set_shutdown true (set_is_ready false s))) in Hs'.
  destruct (cleanup_others s0) as (C1 & C2 & C3 & C4 & C5 & C6 & _).
  cbn [status_socket connected subscriptions sockets_connected status_uri threads
       shutdown is_ready s0 set_threads set_shutdown set_is_ready] in C1, C4, C5, C6.
  destruct (update_state_wire "Disconnected" (cleanup s0)) as (Hw & _ & Hrd).
  apply wire_eq in Hw as (W1 & W2 & W3 & _).
  destruct (update_state_workers "Disconnected" (cleanup s0)) as (T1 & T2 & _).
  rewrite <- Hs' in W1, W2, W3, T1, T2, Hrd.
  assert (state s' = "Disconnected") as Hst
    by (rewrite Hs'; apply update_state_state).
  pose proof (reachable_Inv s' Hr') as HI'. apply Inv_proj in HI' as (Hag' & _).
  assert (connected s' = false) as Hc'.
  { destruct (connected s') eqn:E; [|done].
    destruct Hag' as [Hag' _]. specialize (Hag' eq_refl). congruence. }
  destruct (reachable_idle s' Hr' Hc') as [Htm _].
  pose proof (reachable_Inv s Hr) as HI. apply Inv_proj in HI as (Hag & _).
  split; [exact Hst|]. split; [exact Hc'|].
  split; [congruence|]. split; [congruence|]. split; [congruence|].
  split; [congruence|]. split; [congruence|]. split; [congruence|].
  split; [|split; [exact Hrun|split]].
  - rewrite Hs'.
    pose proof (cleanup_control s0) as Hcc. apply control_proj in Hcc as (K1 & K2 & _).
    cbn [connected state s0 set_threads set_shutdown set_is_ready] in K1, K2.
    destruct (connected s) eqn:Hc.
    + assert (state s = "Connected") as Hsc by (by apply Hag).
      destruct (update_state_leaves_connected "Disconnected" (cleanup s0))
        as (_ & _ & _ & _ & Hm); [done|by rewrite K2, Hsc|done|].
      exact Hm.
    + destruct (update_state_not_connected "Disconnected" (cleanup s0))
        as (Hm & _); [done|done|].
      rewrite Hm. apply (cleanup_mirrors s0). exact Hc.
  - intros topic msg. cbn [handle]. by rewrite T1, C4.
  - cbn [handle]. by rewrite Htm.
Qed.

Lemma status_stop_disconnects_witness :
  state stopped_state = "Disconnected" /\ threads stopped_state = []
  /\ mirrors stopped_state = cleared
  /\ running stopped_state = running synced_state.
Proof.
  assert (connected synced_state = true) as Hc by (vm_compute; reflexivity).
  destruct (status_stop_disconnects synced_state)
    as (H1 & _ & H3 & _ & _ & _ & _ & _ & H9 & H10 & _).
  - apply (run_reachable synced_trace init); [apply reachable_init|].
    vm_compute. reflexivity.
  - vm_compute. reflexivity.
  - rewrite Hc in H9. exact (conj H1 (conj H3 (conj H9 H10))).
Defined.

(** X10.  [start()] raises when the thread list already holds a started
    thread, that is when it is called again without a [stop()] in
    between.  From then on the endpoint is wedged: whatever happens next,
    every later [start()] raises and every later [stop()] raises as
    well. *)
Theorem status_second_start_wedges :
  forall s : t,
    existsb id (threads s) = true ->
    returned (start s) = false
    /\ forall (es : list event) (s' : t),
         run es (state_of (start s)) = Some s' ->
         returned (start s') = false /\ returned (stop s') = false.
Proof.
  intros s Hs. split.
  - rewrite status_start_unfold, Hs. reflexivity.
  - intros es s' Hrun.
    assert (wedged (threads (state_of (start s))) = true) as Hw.
    { destruct (status_start_threads s) as (-> & _). by apply start_threads_wedged. }
    pose proof (run_wedged es _ _ Hw Hrun) as Hw'. split.
    + rewrite status_start_unfold, (wedged_started _ Hw'). reflexivity.
    + rewrite status_stop_returns. by apply wedged_join.
Qed.

Lemma status_second_start_wedges_witness :
  returned (start started) = false
  /\ returned (stop (state_of (start started))) = false.
Proof.
  destruct (status_second_start_wedges started) as [H1 H2].
  - vm_compute. reflexivity.
  - split; [exact H1|]. apply (H2 [] (state_of (start started))). reflexivity.
Defined.

(** X11.  [start()] on a reachable endpoint without threads (fresh, or
    stopped) returns: the state is [Connecting] with socket state
    [Trying], one worker runs, the socket has been connected to the
    configured URI and subscribed to the five channels, in this order. *)
Theorem status_start_connects_and_subscribes :
  forall s : t,
    reachable s -> threads s = [] ->
    returned (start s) = true
    /\ let s' := state_of (start s) in
       state s' = "Connecting" /\ status_state s' = "Trying"
       /\ threads s' = [true] /\ shutdown s' = false
       /\ sockets_connected s' = true /\ subscriptions s' = channels
       /\ status_socket s'
          = (status_socket s ++ [SockConnect (status_uri s)]
             ++ (SockSubscribe <$> elements channels))%list
       /\ worker_polls (threads s') (shutdown s') = true.
Proof.
  intros s Hr Ht.
  pose proof (reachable_subscribed s Hr) as HK.
  unfold subscribed_while_running in HK. rewrite Ht in HK. cbn [existsb] in HK.
  pose proof (status_start_unfold s) as Hu. cbn zeta in Hu.
  rewrite Ht in Hu. cbn [existsb app start_threads fst] in Hu.
  split; [by rewrite Hu|]. cbn zeta.
  pose proof (start_control s) as Hc.
  pose proof (update_state_control "Connecting" (set_status_state "Trying" s)) as Hc2.
  destruct (status_start_threads s) as (T1 & T2 & _).
  rewrite Ht in T1, T2. cbn [existsb app start_threads fst] in T1, T2.
  rewrite HK, (right_id_L ∅ (∪)) in T2.
  destruct (update_state_wire "Connecting" (set_status_state "Trying" s)) as (Hw & _).
  apply wire_eq in Hw as (W1 & _). cbn [status_socket set_status_state] in W1.
  split; [apply start_state|].
  split.
  { rewrite Hu. cbn [state_of].
    match goal with
    | |- context [subscribe ?x] =>
        pose proof (subscribe_control x) as Hsc
    end.
    by apply control_proj in Hsc as (_ & _ & -> & _). }
  split; [exact T1|].
  rewrite Hu. cbn [state_of].
  match goal with
  | |- context [subscribe ?x] =>
      destruct (subscribe_workers x) as [Hx1 Hx2];
      destruct (subscribe_others x) as (_ & _ & Hx3 & _);
      pose proof (status_subscribe_socket x) as Hx4
  end.
  rewrite Hx1, Hx2, Hx3, Hx4.
  cbn [threads shutdown sockets_connected status_socket set_threads set_shutdown
       sock set_status_socket set_sockets_connected].
  rewrite W1, <- app_assoc.
  split; [done|]. split; [done|]. split; [by rewrite Hu in T2|].
  split; [done|]. reflexivity.
Qed.

Lemma status_start_connects_and_subscribes_witness :
  returned (start (set_status_uri uri init)) = true
  /\ state started = "Connecting"
  /\ status_socket started
     = ([SockConnect uri] ++ (SockSubscribe <$> elements channels))%list.
Proof.
  destruct (status_start_connects_and_subscribes (set_status_uri uri init))
    as (H1 & H2 & _ & _ & _ & _ & _ & H8 & _).
  - apply (reachable_step init (SetUri uri)); [apply reachable_init|reflexivity].
  - reflexivity.
  - exact (conj H1 (conj H2 H8)).
Defined.

End StatusExtras.

(* ------------------------------------------------------------------ *)
(** ** Further properties of ApplicationCommand *)
(* ------------------------------------------------------------------ *)

Module CommandMore.
Import ApplicationCommand CommandView CommandFacts.

Lemma cmd_update_state_others new s :
  ping_error_count (update_state new s) = ping_error_count s
  /\ ping_error_threshold (update_state new s) = ping_error_threshold s
  /\ command_state (update_state new s) = command_state s
  /\ sockets_connected (update_state new s) = sockets_connected s
  /\ command_uri (update_state new s) = command_uri s.
Proof.
  unfold update_state.
  destruct (String.eqb new (state s)); [done|].
  destruct (String.eqb new "Connected"); [done|].
  cbn. destruct (connected s); done.
Qed.

Lemma cmd_start_others sends s :
  agrees (connected s) (state s) ->
  ping_error_count (state_of (start sends s)) = ping_error_count s
  /\ command_state (state_of (start sends s)) = "Trying"
  /\ state (state_of (start sends s)) = "Connecting".
Proof.
  intros Hag. rewrite (start_unfold sends s Hag).
  destruct (cmd_update_state_others "Connecting" (set_command_state "Trying" s))
    as (H1 & _ & H2 & _).
  pose proof (cmd_update_state_state "Connecting" (set_command_state "Trying" s)) as H3.
  destruct (snd (start_threads (threads s ++ [false]))); cbn [state_of]; [done|].
  match goal with
  | |- context [send_command_msg ?ty ?b ?x] =>
      pose proof (send_command_msg_beside ty b x) as Hb
  end.
  apply beside_proj in Hb as (_ & _ & _ & _ & B5 & B6 & _ & _ & B9 & _).
  rewrite B5, B6, B9. done.
Qed.

Lemma cmd_stop_others s :
  ping_error_count (state_of (stop s)) = ping_error_count s
  /\ command_state (state_of (stop s)) = command_state s
  /\ (join_threads (threads s) = true ->
      threads (state_of (stop s)) = [] /\ state (state_of (stop s)) = "Disconnected")
  /\ (join_threads (threads s) = false ->
      threads (state_of (stop s)) = threads s /\ state (state_of (stop s)) = state s).
Proof.
  rewrite cmd_stop_unfold.
  destruct (join_threads (threads s)); [|done].
  set (s0 := cleanup (set_threads [] (set_shutdown_event true (set_is_ready false s)))).
  destruct (cmd_update_state_others "Disconnected" s0) as (-> & _ & -> & _).
  destruct (cmd_update_state_frame "Disconnected" s0) as (_ & _ & _ & _ & -> & _).
  rewrite cmd_update_state_state.
  assert (ping_error_count s0 = ping_error_count s
          /\ command_state s0 = command_state s /\ threads s0 = []) as (-> & -> & ->).
  { unfold s0, cleanup, disconnect_sockets, stop_command_heartbeat.
    cbn [heartbeat_timer set_threads set_shutdown_event set_is_ready].
    destruct (heartbeat_timer s);
      cbn [sockets_connected set_heartbeat_timer set_threads set_shutdown_event
           set_is_ready];
      destruct (sockets_connected s); done. }
  done.
Qed.

(** The error count is never raised, and the socket state is [Up] only
    while connected or after a [stop()]. *)
Lemma cmd_handle_quiet accepts e s s' :
  Inv s ->
  ping_error_count s = 0
  /\ (command_state s = "Up" -> state s = "Connected" \/ threads s = []) ->
  handle accepts e s = Some s' ->
  ping_error_count s' = 0
  /\ (command_state s' = "Up" -> state s' = "Connected" \/ threads s' = []).
Proof.
  intros HI [Hz Hup].
  pose proof HI as (Hag & Htm & _).
  destruct e; cbn [handle].
  - intros [= <-]. done.
  - intros [= <-]. done.
  - intros [= <-]. unfold ready. destruct (is_ready s); [done|].
    destruct (cmd_start_others sends (set_is_ready true s) Hag) as (-> & -> & _).
    cbn [ping_error_count set_is_ready]. done.
  - intros [= <-]. destruct (cmd_start_others sends s Hag) as (-> & -> & _). done.
  - intros [= <-]. destruct (cmd_stop_others s) as (-> & -> & Hj & Hn).
    split; [exact Hz|]. intros Hu.
    destruct (join_threads (threads s)).
    + right. by apply Hj.
    + destruct (Hn eq_refl) as [-> ->]. by apply Hup.
  - intros [= <-]. pose proof (call_beside accepts c sends s) as Hb.
    apply beside_proj in Hb as (-> & _ & _ & _ & -> & -> & _ & _ & -> & _). done.
  - destruct (worker_polls _ _); [|done]. intros [= <-].
    unfold process_command.
    destruct (c_type msg) as [[]|]; try done.
    cbn [command_state set_ping_error_count set_rx].
    destruct (String.eqb_spec (command_state s) "Up") as [He|Hne]; cbn [negb].
    + split; [done|]. intros _. by apply Hup.
    + destruct (cmd_update_state_others "Connected"
                  (set_command_state "Up" (set_ping_error_count 0 (set_rx msg s))))
        as (-> & _ & -> & _).
      rewrite cmd_update_state_state. split; [done|]. by left.
  - by rewrite Htm.
Qed.

Lemma cmd_reachable_quiet accepts s :
  reachable accepts s ->
  ping_error_count s = 0
  /\ (command_state s = "Up" -> state s = "Connected" \/ threads s = []).
Proof.
  induction 1 as [cid|s e s' Hr IH Hh]; [done|].
  apply (cmd_handle_quiet accepts e s s');
    [by apply (cmd_reachable_Inv accepts)|exact IH|exact Hh].
Qed.

(** *** One expiry of the heartbeat timer *)

Lemma heartbeat_timer_tick_step s :
  tx s = empty_container ->
  let s' := state_of (heartbeat_timer_tick true s) in
  returned (heartbeat_timer_tick true s) = true
  /\ ping_error_count s' = ping_error_count s + 1
  /\ ping_error_threshold s' = ping_error_threshold s
  /\ heartbeat_period s' = heartbeat_period s
  /\ sent s' = (sent s ++ [ping_message])%list
  /\ tx s' = empty_container
  /\ heartbeat_timer s' = Some (new_timer (heartbeat_period s))
  /\ state s' = (if ping_error_threshold s <? ping_error_count s + 1
                 then "Timeout" else state s).
Proof.
  intros Htx. unfold heartbeat_timer_tick.
  cbn [ping_error_threshold ping_error_count set_ping_error_count].
  set (s0 := set_ping_error_count (ping_error_count s + 1) s).
  assert (exists s1 : t,
            (if ping_error_threshold s <? ping_error_count s + 1
             then update_state "Timeout" (set_command_state "Trying" s0)
             else s0) = s1
            /\ ping_error_count s1 = ping_error_count s + 1
            /\ ping_error_threshold s1 = ping_error_threshold s
            /\ heartbeat_period s1 = heartbeat_period s
            /\ command_socket s1 = command_socket s
            /\ tx s1 = empty_container
            /\ state s1 = (if ping_error_threshold s <? ping_error_count s + 1
                           then "Timeout" else state s))
    as (s1 & -> & H1 & H2 & H3 & H4 & H5 & H6).
  { eexists. split; [reflexivity|].
    destruct (ping_error_threshold s <? ping_error_count s + 1); [|done].
    destruct (cmd_update_state_others "Timeout" (set_command_state "Trying" s0))
      as (-> & -> & _).
    destruct (cmd_update_state_frame "Timeout" (set_command_state "Trying" s0))
      as (-> & _ & -> & -> & _).
    rewrite cmd_update_state_state. done. }
  rewrite send_command_msg_through. unfold and_then. cbn [state_of returned].
  unfold tx_clear, tx_type, sock, sent.
  cbn [ping_error_count ping_error_threshold heartbeat_period heartbeat_timer tx
       state command_socket set_heartbeat_timer set_tx set_command_socket].
  rewrite H1, H2, H3, H4, H5, H6, omap_app. done.
Qed.

(** An expiry whose [PING] is refused raises before the timer is
    rearmed. *)
Lemma heartbeat_timer_tick_refused s :
  returned (heartbeat_timer_tick false s) = false
  /\ heartbeat_timer (state_of (heartbeat_timer_tick false s)) = heartbeat_timer s
  /\ sent (state_of (heartbeat_timer_tick false s)) = sent s.
Proof.
  unfold heartbeat_timer_tick.
  cbn [ping_error_threshold ping_error_count set_ping_error_count].
  rewrite send_command_msg_refused. unfold and_then. cbn [state_of returned].
  destruct (ping_error_threshold s <? ping_error_count s + 1).
  - destruct (cmd_update_state_frame "Timeout"
                (set_command_state "Trying"
                   (set_ping_error_count (ping_error_count s + 1) s)))
      as (_ & Ht & _ & Hs & _).
    unfold sent, tx_type. cbn [heartbeat_timer command_socket set_tx].
    rewrite Ht, Hs. done.
  - done.
Qed.

(** *** The message of a call *)

Ltac same_message :=
  cbn [state_of returned];
  rewrite ?sent_tx_clear, ?sent_snoc_send, ?sent_tx_type, ?sent_write_param,
    ?sent_write_interp_name;
  match goal with
  | |- exists msg, (_ ++ [?m])%list = _ /\ _ => exists m
  end;
  split; [reflexivity|];
  split;
  [ f_equal; f_equal;
    repeat first [ apply tx_type_cong | apply write_param_cong
                 | apply write_interp_name_cong ];
    congruence
  | rewrite tx_type_type; split; discriminate ].

End CommandMore.

Section CommandExtras.
Import ApplicationCommand CommandView CommandFacts CommandMore CommandScenarios.

(** X12.  In every reachable state of the command endpoint the heartbeat
    timer is unarmed, the ping error count is 0 and the state is not
    [Timeout]: no heartbeat tick ever runs, so the only [PING] sent is the
    one of [start()].  This holds whatever the serialization layer accepts
    and whichever sends are refused. *)
Theorem command_heartbeat_is_never_armed :
  forall (accepts : string -> pyval -> bool) (s : t),
    reachable accepts s ->
    heartbeat_timer s = None /\ ping_error_count s = 0
    /\ state s <> "Timeout"
    /\ forall sends, handle accepts (TimerExpires sends) s = None.
Proof.
  intros accepts s Hr.
  destruct (cmd_reachable_Inv accepts s Hr) as (_ & Htm & Hto).
  destruct (cmd_reachable_quiet accepts s Hr) as [Hz _].
  split; [exact Htm|]. split; [exact Hz|]. split; [exact Hto|].
  intros sends. cbn [handle]. by rewrite Htm.
Qed.

Lemma command_heartbeat_is_never_armed_witness :
  heartbeat_timer connected_state = None /\ ping_error_count connected_state = 0
  /\ state connected_state <> "Timeout"
  /\ forall sends, handle permissive (TimerExpires sends) connected_state = None.
Proof.
  apply (command_heartbeat_is_never_armed permissive connected_state).
  apply connected_state_reachable.
Defined.

(** X13.  [heartbeat_timer_tick], run [n] times from a state with a
    pending heartbeat timer, each [PING] going through: each expiry raises
    the error count by one, sends one bare [PING] and rearms the timer,
    also after the timeout; the state becomes [Timeout] at the first
    expiry that brings the count above [ping_error_threshold] (the third
    one with the defaults), and is unchanged before.  An expiry whose
    [PING] is refused raises before the timer is rearmed, so that no
    further expiry follows. *)
Theorem command_heartbeat_ticks :
  forall (accepts : string -> pyval -> bool) (n : nat) (s : t) (tm : Timer),
    heartbeat_timer s = Some tm -> timer_pending tm = true ->
    tx s = empty_container ->
    (exists s', run accepts (replicate n (TimerExpires true)) s = Some s'
       /\ ping_error_count s' = ping_error_count s + Z.of_nat n
       /\ sent s' = (sent s ++ replicate n ping_message)%list
       /\ state s'
          = (if (0 <? Z.of_nat n)
                && (ping_error_threshold s <? ping_error_count s + Z.of_nat n)
             then "Timeout" else state s))
    /\ (exists s', handle accepts (TimerExpires false) s = Some s'
          /\ sent s' = sent s
          /\ forall sends, handle accepts (TimerExpires sends) s' = None).
Proof.
  intros accepts n s tm Htm Hp Htx. split.
  - revert s tm Htm Hp Htx.
    induction n as [|k IH]; intros s tm Htm Hp Htx.
    + exists s. cbn [replicate run Z.of_nat Z.ltb Z.compare andb].
      rewrite Z.add_0_r, app_nil_r. done.
    + set (s0 := set_heartbeat_timer (Some (fired tm)) s).
      destruct (heartbeat_timer_tick_step s0 Htx)
        as (_ & H1 & H2 & H3 & H4 & H5 & H6 & H7).
      cbn [s0 ping_error_count ping_error_threshold heartbeat_period state
           set_heartbeat_timer] in H1, H2, H3, H6, H7.
      assert (sent s0 = sent s) as Hs0 by reflexivity. rewrite Hs0 in H4.
      destruct (IH (state_of (heartbeat_timer_tick true s0))
                  (new_timer (heartbeat_period s)) H6 eq_refl H5)
        as (s' & R1 & R2 & R3 & R4).
      exists s'.
      split.
      { cbn [replicate run handle]. rewrite Htm, Hp. exact R1. }
      split; [rewrite R2, H1; lia|].
      split.
      { rewrite R3, H4, <- app_assoc. reflexivity. }
      rewrite R4, H1, H2, H7.
      replace (ping_error_count s + 1 + Z.of_nat k)
        with (ping_error_count s + Z.of_nat (S k)) by lia.
      destruct (Z.ltb_spec 0 (Z.of_nat k)); destruct (Z.ltb_spec 0 (Z.of_nat (S k)));
        destruct (Z.ltb_spec (ping_error_threshold s)
                    (ping_error_count s + Z.of_nat (S k)));
        destruct (Z.ltb_spec (ping_error_threshold s) (ping_error_count s + 1));
        cbn [andb]; try reflexivity; lia.
  - set (s0 := set_heartbeat_timer (Some (fired tm)) s).
    destruct (heartbeat_timer_tick_refused s0) as (_ & H2 & H3).
    exists (state_of (heartbeat_timer_tick false s0)).
    split; [cbn [handle]; by rewrite Htm, Hp|].
    split; [exact H3|].
    intros sends. cbn [handle]. rewrite H2. reflexivity.
Qed.

Lemma command_heartbeat_ticks_witness :
  (exists s', run permissive (replicate 2 (TimerExpires true)) armed = Some s'
              /\ state s' = "Connected" /\ length (sent s') = 3%nat)
  /\ (exists s', run permissive (replicate 3 (TimerExpires true)) armed = Some s'
                 /\ state s' = "Timeout" /\ length (sent s') = 4%nat).
Proof.
  assert (heartbeat_timer armed = Some (new_timer 3000)) as Ha
    by (vm_compute; reflexivity).
  assert (tx armed = empty_container) as Htx by (vm_compute; reflexivity).
  split.
  - destruct (command_heartbeat_ticks permissive 2 armed (new_timer 3000) Ha eq_refl Htx)
      as ((s' & H1 & _ & H3 & H4) & _).
    exists s'. split; [exact H1|]. split.
    + rewrite H4. vm_compute. reflexivity.
    + rewrite H3. vm_compute. reflexivity.
  - destruct (command_heartbeat_ticks permissive 3 armed (new_timer 3000) Ha eq_refl Htx)
      as ((s' & H1 & _ & H3 & H4) & _).
    exists s'. split; [exact H1|]. split.
    + rewrite H4. vm_compute. reflexivity.
    + rewrite H3. vm_compute. reflexivity.
Defined.

(** X14.  A message processed by a reachable command endpoint sends
    nothing and arms no timer.  A [PING_ACKNOWLEDGE] always leaves the
    endpoint [Connected] with socket state [Up]; a message of any other
    type, [MT_ERROR] included, changes nothing but the receive buffer. *)
Theorem command_ping_acknowledge_connects :
  forall (accepts : string -> pyval -> bool) (s s' : t) (msg : Container),
    reachable accepts s -> handle accepts (Receive msg) s = Some s' ->
    sent s' = sent s /\ heartbeat_timer s' = None
    /\ (c_type msg = Some MT_PING_ACKNOWLEDGE ->
        state s' = "Connected" /\ connected s' = true /\ command_state s' = "Up")
    /\ (c_type msg <> Some MT_PING_ACKNOWLEDGE -> s' = set_rx msg s).
Proof.
  intros accepts s s' msg Hr Hh.
  pose proof (cmd_reachable_Inv accepts s Hr) as HI.
  pose proof (cmd_handle_Inv accepts _ _ _ HI Hh) as (Hag' & Htm' & _).
  destruct (cmd_reachable_quiet accepts s Hr) as [_ Hup].
  cbn [handle] in Hh. destruct (worker_polls _ _) eqn:Hp; [|done].
  injection Hh as <-.
  unfold worker_polls in Hp. apply andb_true_iff in Hp as [Hp _].
  assert (threads s <> []) as Hne by (intros E; rewrite E in Hp; discriminate).
  split.
  { unfold process_command.
    destruct (c_type msg) as [[]|]; try reflexivity.
    cbn [command_state set_ping_error_count set_rx].
    destruct (String.eqb (command_state s) "Up"); cbn [negb]; [reflexivity|].
    unfold sent.
    by destruct (cmd_update_state_frame "Connected"
                   (set_command_state "Up" (set_ping_error_count 0 (set_rx msg s))))
      as (_ & _ & _ & -> & _). }
  split; [exact Htm'|]. split.
  - intros Hty.
    assert (state (process_command msg s) = "Connected"
            /\ command_state (process_command msg s) = "Up") as [Hst Hcs].
    { unfold process_command. rewrite Hty.
      cbn [command_state set_ping_error_count set_rx].
      destruct (String.eqb_spec (command_state s) "Up") as [He|Hn]; cbn [negb].
      - cbn [state command_state set_ping_error_count set_rx].
        split; [|exact He]. destruct (Hup He) as [H|H]; [exact H|done].
      - destruct (cmd_update_state_others "Connected"
                    (set_command_state "Up" (set_ping_error_count 0 (set_rx msg s))))
          as (_ & _ & -> & _).
        by rewrite cmd_update_state_state. }
    split; [exact Hst|]. split; [by apply Hag'|exact Hcs].
  - intros Hty. unfold process_command.
    destruct (c_type msg) as [[]|]; try reflexivity. done.
Qed.

Lemma command_ping_acknowledge_connects_witness :
  state connected_state = "Connected" /\ connected connected_state = true
  /\ sent connected_state = sent started.
Proof.
  destruct (command_ping_acknowledge_connects permissive started connected_state
              ping_acknowledge) as (H1 & _ & H3 & _).
  - apply started_reachable.
  - vm_compute. reflexivity.
  - destruct (H3 eq_refl) as (Hs & Hc & _). exact (conj Hs (conj Hc H1)).
Defined.

(** X15.  On a connected endpoint with an empty outbound container:
    whether a command call returns or raises depends on its arguments
    only, a call that raises or whose send is refused sends nothing, and a
    call that returns sends exactly one message when it selects one, which
    is typed, is not a [PING] and depends on the arguments of the call
    only, and no message when it selects none (invalid jog kind or spindle
    mode, unknown brake value); after it the container is empty again. *)
Theorem command_sends_exactly_one_message :
  forall (accepts : string -> pyval -> bool) (c : command) (s1 s2 : t),
    connected s1 = true -> connected s2 = true ->
    tx s1 = empty_container -> tx s2 = empty_container ->
    returned (call accepts c true s1) = returned (call accepts c true s2)
    /\ sent (state_of (call accepts c false s1)) = sent s1
    /\ (returned (call accepts c true s1) = false ->
        sent (state_of (call accepts c true s1)) = sent s1)
    /\ (returned (call accepts c true s1) = true ->
        tx (state_of (call accepts c true s1)) = empty_container
        /\ if selects_no_message c
           then sent (state_of (call accepts c true s1)) = sent s1
           else exists msg,
                  sent (state_of (call accepts c true s1)) = (sent s1 ++ [msg])%list
                  /\ sent (state_of (call accepts c true s2)) = (sent s2 ++ [msg])%list
                  /\ c_type msg <> None /\ c_type msg <> Some MT_PING).
Proof.
  intros accepts c s1 s2 Hc1 Hc2 Ht1 Ht2.
  split; [|split; [|split]].
  - destruct c; cbn [call]; unfold_commands; rewrite Hc1, Hc2; cbn [negb];
      step_through; reflexivity.
  - destruct (call_sent accepts c false s1) as [H|(_ & H & _)]; [exact H|done].
  - intros Hr. destruct (call_sent accepts c true s1) as [H|(H & _)];
      [exact H|congruence].
  - intros Hr. split; [by apply call_tx|]. revert Hr.
    destruct c; cbn [call selects_no_message invalid_argument]; unfold_commands;
      rewrite ?Hc1, ?Hc2; cbn [negb];
      repeat match goal with
      | |- context [Z.eqb ?a ?b] => destruct (Z.eqb a b)
      end;
      cbn [negb orb];
      step_through; cbn [state_of returned];
      first [ discriminate | intros _; first [ reflexivity | same_message ] ].
Qed.

Lemma command_sends_exactly_one_message_witness :
  (exists msg, sent (state_of (call permissive (HomeAxis 1) true connected_state))
               = (sent connected_state ++ [msg])%list
               /\ sent (state_of (call permissive (HomeAxis 1) true connected_state))
                  = (sent connected_state ++ [msg])%list
               /\ c_type msg <> None /\ c_type msg <> Some MT_PING)
  /\ sent (state_of (call permissive (SetSpindleBrake 7) true connected_state))
     = sent connected_state.
Proof.
  destruct connected_state_facts as [Hc Ht].
  split.
  - destruct (command_sends_exactly_one_message permissive (HomeAxis 1)
                connected_state connected_state Hc Hc Ht Ht) as (_ & _ & _ & H).
    destruct H as [_ H]; [vm_compute; reflexivity|]. exact H.
  - destruct (command_sends_exactly_one_message permissive (SetSpindleBrake 7)
                connected_state connected_state Hc Hc Ht Ht) as (_ & _ & _ & H).
    destruct H as [_ H]; [vm_compute; reflexivity|]. exact H.
Defined.

(** X21.  [set_debug_level] on a connected endpoint raises for every
    argument and sends nothing: the level is assigned to [interp_name], a
    string field, after it has been written to [debug_level].  When the
    serialization layer accepts the level for [debug_level], the level
    stays in the outbound container, and the next command that sends
    carries it in its message. *)
Theorem set_debug_level_always_raises :
  forall (accepts : string -> pyval -> bool) (level : Z) (sends : bool) (s : t),
    connected s = true ->
    let s' := state_of (call accepts (SetDebugLevel level) sends s) in
    returned (call accepts (SetDebugLevel level) sends s) = false
    /\ sent s' = sent s
    /\ (accepts "debug_level" (PInt level) = true ->
        c_emc_command_params (tx s') !! "debug_level" = Some (PInt level)
        /\ forall index,
             accepts "index" (PInt index) = true ->
             exists msg,
               sent (state_of (call accepts (HomeAxis index) true s'))
               = (sent s ++ [msg])%list
               /\ c_type msg = Some MT_EMC_AXIS_HOME
               /\ c_emc_command_params msg !! "debug_level" = Some (PInt level)).
Proof.
  intros accepts level sends s Hc s'. subst s'.
  cbn [call]. unfold set_debug_level, home_axis. rewrite Hc. cbn [negb].
  unfold and_then, tx_param, tx_interp_name.
  destruct (accepts "debug_level" (PInt level)) eqn:Ha; cbn [state_of returned].
  - split; [reflexivity|]. split; [reflexivity|]. intros _.
    split.
    { unfold write_param. cbn [tx set_tx c_emc_command_params].
      apply lookup_insert_eq. }
    intros index Hi.
    cbn [connected write_param set_tx]. rewrite Hc. cbn [negb]. rewrite Hi.
    rewrite send_command_msg_through. cbn [state_of].
    rewrite sent_tx_clear, sent_snoc_send, sent_tx_type, !sent_write_param.
    eexists. split; [reflexivity|]. split; [reflexivity|].
    unfold tx_type, write_param. cbn [tx set_tx c_emc_command_params].
    rewrite lookup_insert_ne by done. apply lookup_insert_eq.
  - split; [reflexivity|]. split; [reflexivity|]. discriminate.
Qed.

Lemma set_debug_level_always_raises_witness :
  returned (call permissive (SetDebugLevel 5) true connected_state) = false
  /\ c_emc_command_params (tx after_debug_level) !! "debug_level" = Some (PInt 5)
  /\ exists msg,
       sent (state_of (call permissive (HomeAxis 1) true after_debug_level))
       = (sent connected_state ++ [msg])%list
       /\ c_type msg = Some MT_EMC_AXIS_HOME
       /\ c_emc_command_params msg !! "debug_level" = Some (PInt 5).
Proof.
  destruct connected_state_facts as [Hc _].
  destruct (set_debug_level_always_raises permissive 5 true connected_state Hc)
    as (H1 & _ & H3).
  destruct (H3 eq_refl) as [H4 H5].
  split; [exact H1|]. split; [exact H4|]. exact (H5 1 eq_refl).
Defined.

End CommandExtras.

(* ------------------------------------------------------------------ *)
(** ** Further properties of ApplicationError *)
(* ------------------------------------------------------------------ *)

Module ErrorMore.
Import ApplicationError ErrorView ErrorFacts.

Lemma process_error_cases topic msg s :
  (exists ty, c_type msg = Some ty /\ is_notification ty = true)
  \/ (c_type msg = Some MT_PING
      /\ process_error topic msg s = arm (c_pparams msg) (ping_branch (set_rx msg s)))
  \/ process_error topic msg s = set_rx msg s.
Proof.
  destruct (c_type msg) as [ty|] eqn:Hty.
  - destruct (is_notification ty) eqn:Hn; [left; eauto|]. right.
    assert (ty = MT_PING \/ ty <> MT_PING) as [->|Hp]
      by (destruct ty; first [by left | by right]).
    + left. split; [done|]. by apply process_error_ping.
    + right. apply process_error_other. by rewrite Hty.
  - right. right. apply process_error_other. by rewrite Hty.
Qed.

(** *** The buffer *)

Lemma arm_buffer pp s :
  error_list (arm pp s) = error_list s /\ heap (arm pp s) = heap s.
Proof.
  destruct pp as [i|]; [|done]. cbn [arm].
  by destruct (start_error_heartbeat_frame (i * 2) s) as (_ & _ & _ & _ & _ & -> & ->).
Qed.

Lemma ping_branch_buffer s :
  error_list (ping_branch s) = error_list s /\ heap (ping_branch s) = heap s.
Proof.
  unfold ping_branch.
  destruct (String.eqb (socket_state s) "Up").
  { by destruct (refresh_error_heartbeat_frame s) as (_ & _ & _ & _ & _ & -> & ->). }
  destruct (String.eqb (state s) "Timeout").
  - match goal with
    | |- context [subscribe ?x] => destruct (subscribe_buffer x) as (-> & -> & _)
    end.
    match goal with
    | |- context [unsubscribe ?x] => destruct (unsubscribe_buffer x) as (-> & ->)
    end.
    by destruct (err_update_state_frame "Connecting" s) as (_ & _ & -> & -> & _).
  - by destruct (err_update_state_frame "Connected" (set_socket_state "Up" s))
      as (_ & _ & -> & -> & _).
Qed.

Lemma err_start_buffer s :
  error_list (state_of (start s)) = error_list s
  /\ heap (state_of (start s)) = heap s.
Proof.
  destruct (err_update_state_frame "Connecting" (set_socket_state "Trying" s))
    as (_ & _ & H1 & H2 & _).
  cbn [error_list heap set_socket_state] in H1, H2.
  unfold start, connect_sockets.
  cbn [threads set_shutdown set_threads sock set_socket set_sockets_connected].
  destruct (start_threads _) as [ts raised].
  destruct raised; cbn [state_of].
  - cbn [error_list heap set_threads set_shutdown set_socket set_sockets_connected].
    done.
  - match goal with
    | |- context [subscribe ?x] => destruct (subscribe_buffer x) as (-> & -> & _)
    end.
    cbn [error_list heap set_threads set_shutdown set_socket set_sockets_connected].
    done.
Qed.

Lemma err_cleanup_others s :
  error_list (cleanup s) = error_list s /\ heap (cleanup s) = heap s
  /\ heartbeat_timer (cleanup s) = heartbeat_timer s
  /\ heartbeat_period (cleanup s) = heartbeat_period s
  /\ threads (cleanup s) = threads s /\ shutdown (cleanup s) = shutdown s
  /\ socket_state (cleanup s) = (if connected s then "Down" else socket_state s).
Proof.
  unfold cleanup, disconnect_sockets.
  destruct (connected s) eqn:Hc.
  - pose proof (unsubscribe_view s) as Hv.
    apply view_proj in Hv as (_ & _ & H3 & H4 & H5).
    destruct (unsubscribe_buffer s) as (B1 & B2).
    assert (threads (unsubscribe s) = threads s /\ shutdown (unsubscribe s) = shutdown s)
      as [T1 T2].
    { unfold unsubscribe.
      match goal with
      | |- threads (set_subscriptions _ (fold_left ?f ?l ?a)) = _ /\ _ =>
          change (threads (fold_left f l a) = threads s
                  /\ shutdown (fold_left f l a) = shutdown s);
          apply (fold_left_preserves
                   (fun s' => threads s' = threads s /\ shutdown s' = shutdown s));
          [intros x y Hx; exact Hx|done]
      end. }
    destruct (sockets_connected (unsubscribe s));
      cbn [error_list heap heartbeat_timer heartbeat_period threads shutdown
           socket_state set_subscriptions set_sockets_connected sock set_socket];
      rewrite B1, B2, H3, H4, H5, T1, T2; done.
  - destruct (sockets_connected s); done.
Qed.

Lemma err_stop_buffer s :
  error_list (state_of (stop s)) = error_list s
  /\ heap (state_of (stop s)) = heap s.
Proof.
  rewrite err_stop_unfold. destruct (join_threads (threads s)); [|done].
  set (s0 := set_threads [] (set_shutdown true (set_is_ready false s))).
  destruct (err_update_state_frame "Disconnected" (cleanup s0))
    as (_ & _ & -> & -> & _).
  by destruct (err_cleanup_others s0) as (-> & -> & _).
Qed.

Lemma process_error_buffer_other topic msg s :
  (forall ty, c_type msg = Some ty -> is_notification ty = false) ->
  error_list (process_error topic msg s) = error_list s
  /\ heap (process_error topic msg s) = heap s.
Proof.
  intros Hn.
  destruct (process_error_cases topic msg s) as [(ty & Hty & Hi)|[[_ ->]| ->]];
    [|..|done].
  - rewrite (Hn ty Hty) in Hi. discriminate.
  - destruct (arm_buffer (c_pparams msg) (ping_branch (set_rx msg s))) as [-> ->].
    by destruct (ping_branch_buffer (set_rx msg s)) as [-> ->].
Qed.

Lemma replicate_allocated (n a m : nat) :
  (a < m)%nat -> Forall (fun x => (x < m)%nat) (replicate n a).
Proof. intros H. induction n; simpl; constructor; done. Qed.

Lemma process_error_refs topic msg s :
  refs_allocated s -> refs_allocated (process_error topic msg s).
Proof.
  unfold refs_allocated. intros H.
  destruct (c_type msg) as [ty|] eqn:Hty.
  - destruct (is_notification ty) eqn:Hn.
    + destruct (process_error_notification topic msg ty s Hty Hn) as (-> & -> & _).
      rewrite length_app. cbn [length].
      apply Forall_app. split.
      * eapply Forall_impl; [exact H|]. cbn. intros; lia.
      * apply replicate_allocated. lia.
    + destruct (process_error_buffer_other topic msg s) as [-> ->]; [|exact H].
      intros ty' E. congruence.
  - destruct (process_error_buffer_other topic msg s) as [-> ->]; [|exact H].
    intros ty' E. congruence.
Qed.

Lemma handle_refs e s s' :
  refs_allocated s -> handle e s = Some s' -> refs_allocated s'.
Proof.
  unfold refs_allocated. intros H. destruct e; cbn [handle].
  - intros [= <-]. exact H.
  - intros [= <-]. unfold ready. destruct (is_ready s); [exact H|].
    by destruct (err_start_buffer (set_is_ready true s)) as [-> ->].
  - intros [= <-]. by destruct (err_start_buffer s) as [-> ->].
  - intros [= <-]. by destruct (err_stop_buffer s) as [-> ->].
  - intros [= <-]. cbn. constructor.
  - destruct (worker_polls _ _); [|done]. intros [= <-].
    by apply process_error_refs.
  - destruct (heartbeat_timer s) as [tm|]; [|done].
    destruct (timer_pending tm); [|done]. intros [= <-].
    unfold heartbeat_timer_tick.
    by destruct (err_update_state_frame "Timeout"
                   (set_socket_state "Down" (set_heartbeat_timer (Some (fired tm)) s)))
      as (_ & _ & -> & -> & _).
Qed.

Lemma reachable_refs s : reachable s -> refs_allocated s.
Proof.
  induction 1 as [|s e s' Hr IH Hh]; [constructor|].
  by apply (handle_refs e s s').
Qed.

Lemma read_messages_grown (refs : list nat) (h : list error_dict) (x : error_dict) :
  Forall (fun a => (a < length h)%nat) refs ->
  omap (fun a => (h ++ [x])%list !! a) refs = omap (fun a => h !! a) refs.
Proof.
  induction 1 as [|a refs Ha _ IH]; [done|]. simpl.
  rewrite lookup_app_l by done.
  destruct (h !! a); [f_equal|]; exact IH.
Qed.

Lemma read_messages_new (n : nat) (h : list error_dict) (x : error_dict) :
  omap (fun a => (h ++ [x])%list !! a) (replicate n (length h)) = replicate n x.
Proof.
  induction n as [|n IH]; [done|]. simpl.
  rewrite list_lookup_middle by done. f_equal. exact IH.
Qed.

(** *** Workers *)

Lemma err_unsubscribe_workers s :
  threads (unsubscribe s) = threads s /\ shutdown (unsubscribe s) = shutdown s.
Proof.
  unfold unsubscribe.
  match goal with
  | |- threads (set_subscriptions _ (fold_left ?f ?l ?a)) = _ /\ _ =>
      change (threads (fold_left f l a) = threads s
              /\ shutdown (fold_left f l a) = shutdown s);
      apply (fold_left_preserves
               (fun s' => threads s' = threads s /\ shutdown s' = shutdown s));
      [intros x y Hx; exact Hx|done]
  end.
Qed.

Lemma arm_workers pp s :
  threads (arm pp s) = threads s /\ shutdown (arm pp s) = shutdown s.
Proof.
  destruct pp as [i|]; [|done]. cbn [arm]. unfold start_error_heartbeat.
  destruct (heartbeat_timer s);
    cbn [heartbeat_timer set_heartbeat_timer set_heartbeat_period];
    destruct (0 <? i * 2); done.
Qed.

Lemma ping_branch_workers s :
  threads (ping_branch s) = threads s /\ shutdown (ping_branch s) = shutdown s.
Proof.
  unfold ping_branch.
  destruct (String.eqb (socket_state s) "Up").
  { unfold refresh_error_heartbeat. destruct (heartbeat_timer s); done. }
  destruct (String.eqb (state s) "Timeout").
  - match goal with
    | |- context [subscribe ?x] =>
        destruct (subscribe_buffer x) as (_ & _ & -> & ->)
    end.
    match goal with
    | |- context [unsubscribe ?x] =>
        destruct (err_unsubscribe_workers x) as (-> & ->)
    end.
    by destruct (err_update_state_frame "Connecting" s) as (_ & _ & _ & _ & -> & ->).
  - by destruct (err_update_state_frame "Connected" (set_socket_state "Up" s))
      as (_ & _ & _ & _ & -> & ->).
Qed.

Lemma err_stop_returns s : returned (stop s) = join_threads (threads s).
Proof. unfold stop. cbn [threads set_shutdown set_is_ready]. by destruct (join_threads _). Qed.

(** *** Socket state and label *)

Lemma err_update_state_socket_state new s :
  socket_state (update_state new s) = socket_state s.
Proof.
  pose proof (update_state_view new s) as Hv.
  destruct (String.eqb new (state s)); [by apply view_proj in Hv as (_ & _ & -> & _)|].
  destruct (String.eqb new "Connected");
    [by apply view_proj in Hv as (_ & _ & -> & _)|].
  destruct (connected s); by apply view_proj in Hv as (_ & _ & -> & _).
Qed.

Lemma ping_branch_up s : up_when_connected s -> up_when_connected (ping_branch s).
Proof.
  unfold up_when_connected, ping_branch. intros H.
  destruct (String.eqb (socket_state s) "Up").
  { by destruct (refresh_error_heartbeat_frame s) as (_ & -> & -> & _). }
  destruct (String.eqb (state s) "Timeout").
  - match goal with
    | |- context [subscribe ?x] => pose proof (subscribe_view x) as Hv
    end.
    apply view_proj in Hv as (_ & -> & -> & _).
    match goal with
    | |- context [unsubscribe ?x] => pose proof (unsubscribe_view x) as Hv
    end.
    apply view_proj in Hv as (_ & -> & _). rewrite err_update_state_state.
    split; discriminate.
  - rewrite err_update_state_state, err_update_state_socket_state. done.
Qed.

Lemma arm_up pp s : up_when_connected s -> up_when_connected (arm pp s).
Proof.
  unfold up_when_connected. destruct pp as [i|]; [|done]. cbn [arm].
  by destruct (start_error_heartbeat_frame (i * 2) s) as (_ & -> & -> & _).
Qed.

Lemma process_error_up topic msg s :
  up_when_connected s -> up_when_connected (process_error topic msg s).
Proof.
  intros H.
  destruct (process_error_cases topic msg s) as [(ty & Hty & Hi)|[[_ ->]| ->]];
    [| |exact H].
  - unfold up_when_connected.
    by destruct (process_error_notification topic msg ty s Hty Hi)
      as (_ & _ & _ & -> & -> & _).
  - apply arm_up, ping_branch_up. exact H.
Qed.

Lemma err_start_socket_state s :
  socket_state (state_of (start s)) = "Trying".
Proof.
  pose proof (err_update_state_socket_state "Connecting" (set_socket_state "Trying" s))
    as Hs. cbn [socket_state set_socket_state] in Hs.
  unfold start, connect_sockets.
  cbn [threads set_shutdown set_threads sock set_socket set_sockets_connected].
  destruct (start_threads _) as [ts raised].
  destruct raised; cbn [state_of].
  - exact Hs.
  - match goal with
    | |- context [subscribe ?x] => pose proof (subscribe_view x) as Hv
    end.
    by apply view_proj in Hv as (_ & _ & -> & _).
Qed.

Lemma err_start_up s : up_when_connected (state_of (start s)).
Proof.
  unfold up_when_connected. rewrite err_start_socket_state.
  destruct (start_view s) as [_ ->]. split; discriminate.
Qed.

Lemma err_stop_up s :
  agrees (connected s) (state s) -> up_when_connected s ->
  up_when_connected (state_of (stop s)).
Proof.
  unfold up_when_connected. intros Hag H. rewrite err_stop_unfold.
  destruct (join_threads (threads s)); [|exact H].
  set (s0 := set_threads [] (set_shutdown true (set_is_ready false s))).
  rewrite err_update_state_state, err_update_state_socket_state.
  destruct (err_cleanup_others s0) as (_ & _ & _ & _ & _ & _ & ->).
  cbn [connected socket_state s0 set_threads set_shutdown set_is_ready].
  split; [|discriminate].
  destruct (connected s) eqn:Hc; [discriminate|].
  intros Hu. apply H, Hag in Hu. congruence.
Qed.

Lemma err_handle_up e s s' :
  agrees (connected s) (state s) -> up_when_connected s ->
  handle e s = Some s' -> up_when_connected s'.
Proof.
  intros Hag H. destruct e; cbn [handle].
  - intros [= <-]. exact H.
  - intros [= <-]. unfold ready. destruct (is_ready s); [exact H|].
    apply err_start_up.
  - intros [= <-]. apply err_start_up.
  - intros [= <-]. by apply err_stop_up.
  - intros [= <-]. exact H.
  - destruct (worker_polls _ _); [|done]. intros [= <-]. by apply process_error_up.
  - destruct (heartbeat_timer s) as [tm|]; [|done].
    destruct (timer_pending tm); [|done]. intros [= <-].
    unfold heartbeat_timer_tick, up_when_connected.
    rewrite err_update_state_state, err_update_state_socket_state.
    cbn [socket_state set_socket_state]. split; discriminate.
Qed.

Lemma err_reachable_up s : reachable s -> up_when_connected s.
Proof.
  induction 1 as [|s e s' Hr IH Hh]; [by split|].
  apply (err_handle_up e s s'); [by apply reachable_agrees|exact IH|exact Hh].
Qed.

End ErrorMore.

Section ErrorExtras.
Import ApplicationError ErrorView ErrorFacts ErrorMore ErrorScenarios.

(** X16.  A notification with [n] notes received by a reachable error
    endpoint extends what [get_messages()] would return by [n] entries,
    each reading as the one dictionary that carries the message type and
    all [n] notes; with no note the message leaves no entry. *)
Theorem error_notification_adds_an_entry_per_note :
  forall (s : t) (topic : string) (msg : Container) (ty : ContainerType),
    reachable s -> c_type msg = Some ty -> is_notification ty = true ->
    let s' := process_error topic msg s in
    read_messages s' (error_list s')
    = (read_messages s (error_list s)
       ++ replicate (length (c_note msg)) (mkError ty (c_note msg)))%list.
Proof.
  intros s topic msg ty Hr Hty Hn s'.
  destruct (process_error_notification topic msg ty s Hty Hn) as (H1 & H2 & _).
  fold s' in H1, H2. unfold read_messages. rewrite H1, H2, omap_app.
  rewrite (read_messages_grown _ _ _ (reachable_refs s Hr)), read_messages_new.
  reflexivity.
Qed.

Lemma error_notification_adds_an_entry_per_note_witness :
  read_messages
    (process_error "text" (notification MT_EMC_OPERATOR_TEXT ["a"; "b"]) started)
    (error_list
       (process_error "text" (notification MT_EMC_OPERATOR_TEXT ["a"; "b"]) started))
  = [ mkError MT_EMC_OPERATOR_TEXT ["a"; "b"]; mkError MT_EMC_OPERATOR_TEXT ["a"; "b"] ].
Proof.
  pose proof (error_notification_adds_an_entry_per_note started "text"
                (notification MT_EMC_OPERATOR_TEXT ["a"; "b"]) MT_EMC_OPERATOR_TEXT
                error_started_reachable eq_refl eq_refl) as H.
  cbn zeta in H. rewrite H. vm_compute. reflexivity.
Defined.

(** X17.  A notification never changes the connection: [connected], the
    state, the socket state, the socket, the subscriptions and the
    keepalive period stay as they were, in [Connecting] and [Timeout] too.
    It rearms a keepalive timer that exists and creates none. *)
Theorem error_notification_keeps_connection :
  forall (s : t) (topic : string) (msg : Container) (ty : ContainerType),
    c_type msg = Some ty -> is_notification ty = true ->
    let s' := process_error topic msg s in
    connected s' = connected s /\ state s' = state s
    /\ socket_state s' = socket_state s /\ socket s' = socket s
    /\ subscriptions s' = subscriptions s
    /\ heartbeat_period s' = heartbeat_period s
    /\ heartbeat_timer s'
       = match heartbeat_timer s with
         | Some _ => Some (new_timer (heartbeat_period s))
         | None => None
         end.
Proof.
  intros s topic msg ty Hty Hn s'.
  destruct (process_error_notification topic msg ty s Hty Hn)
    as (_ & _ & H3 & H4 & H5 & H6 & H7).
  fold s' in H3, H4, H5, H6, H7.
  split; [exact H3|]. split; [exact H4|]. split; [exact H5|].
  split; [exact H6|]. split; [exact H7|].
  subst s'. unfold process_error. rewrite Hty, Hn. cbn [heap set_rx].
  destruct (note_loop (c_note msg) (length (heap s))
              (set_heap (heap s ++ [mkError ty []]) (set_rx msg s)))
    as (_ & _ & _ & _ & T & P & _).
  cbn zeta in T, P. cbn [heartbeat_timer heartbeat_period set_heap set_rx] in T, P.
  revert T P.
  generalize (fold_left
                (fun s0 note =>
                   append_error (length (heap s))
                     (append_note (length (heap s)) note s0))
                (c_note msg) (set_heap (heap s ++ [mkError ty []]) (set_rx msg s))).
  intros s1 T P. unfold refresh_error_heartbeat. rewrite T.
  destruct (heartbeat_timer s) eqn:E;
    cbn [heartbeat_timer heartbeat_period set_heartbeat_timer]; rewrite ?P, ?T; done.
Qed.

Lemma error_notification_keeps_connection_witness :
  state (process_error "error" (notification MT_EMC_NML_ERROR ["x"]) timed_out)
  = state timed_out
  /\ socket (process_error "error" (notification MT_EMC_NML_ERROR ["x"]) timed_out)
     = socket timed_out.
Proof.
  destruct (error_notification_keeps_connection timed_out "error"
              (notification MT_EMC_NML_ERROR ["x"]) MT_EMC_NML_ERROR eq_refl eq_refl)
    as (_ & H2 & _ & H4 & _).
  exact (conj H2 H4).
Defined.

(** X18.  [stop()] leaves the keepalive timer alone when the endpoint is
    not connected: if a timer is pending then (armed by a [PING] received
    outside [Connected]) it is still pending on the stopped, [Disconnected]
    endpoint, and its expiry moves the stopped endpoint to [Timeout]. *)
Theorem error_stop_keeps_pending_keepalive :
  forall (s : t) (tm : Timer),
    connected s = false ->
    heartbeat_timer s = Some tm -> timer_pending tm = true ->
    returned (stop s) = true ->
    let s1 := state_of (stop s) in
    state s1 = "Disconnected" /\ threads s1 = []
    /\ heartbeat_timer s1 = Some tm
    /\ exists s2, handle TimerExpires s1 = Some s2
         /\ state s2 = "Timeout" /\ socket_state s2 = "Down" /\ threads s2 = [].
Proof.
  intros s tm Hc Htm Hp Hret s1.
  rewrite err_stop_returns in Hret.
  pose proof (err_stop_unfold s) as Hs1. fold s1 in Hs1. rewrite Hret in Hs1.
  set (s0 := set_threads [] (set_shutdown true (set_is_ready false s))) in Hs1.
  destruct (cleanup_view s0) as [Cc _].
  destruct (err_cleanup_others s0) as (_ & _ & Ct & _ & Cth & _).
  cbn [connected heartbeat_timer threads s0 set_threads set_shutdown set_is_ready]
    in Cc, Ct, Cth.
  destruct (err_update_state_not_connected "Disconnected" (cleanup s0))
    as (_ & Ut & _); [congruence|done|].
  destruct (err_update_state_frame "Disconnected" (cleanup s0))
    as (_ & _ & _ & _ & Uth & _).
  rewrite <- Hs1 in Ut, Uth.
  assert (state s1 = "Disconnected") as Hst by (rewrite Hs1; apply err_update_state_state).
  assert (heartbeat_timer s1 = Some tm) as Ht1 by congruence.
  assert (threads s1 = []) as Hth1 by congruence.
  split; [exact Hst|]. split; [exact Hth1|]. split; [exact Ht1|].
  exists (heartbeat_timer_tick (set_heartbeat_timer (Some (fired tm)) s1)).
  split; [cbn [handle]; by rewrite Ht1, Hp|].
  unfold heartbeat_timer_tick.
  rewrite err_update_state_state, err_update_state_socket_state.
  destruct (err_update_state_frame "Timeout"
              (set_socket_state "Down" (set_heartbeat_timer (Some (fired tm)) s1)))
    as (_ & _ & _ & _ & -> & _).
  cbn [socket_state threads set_socket_state set_heartbeat_timer]. done.
Qed.

Lemma error_stop_keeps_pending_keepalive_witness :
  reachable rearmed /\ state rearmed = "Connecting"
  /\ state (state_of (stop rearmed)) = "Disconnected"
  /\ exists s2, handle TimerExpires (state_of (stop rearmed)) = Some s2
       /\ state s2 = "Timeout".
Proof.
  assert (run rearmed_trace init = Some rearmed) as Hrun by (vm_compute; reflexivity).
  assert (heartbeat_timer rearmed = Some (new_timer 2000)) as Ht
    by (vm_compute; reflexivity).
  assert (connected rearmed = false) as Hc by (vm_compute; reflexivity).
  assert (returned (stop rearmed) = true) as Hr by (vm_compute; reflexivity).
  assert (state rearmed = "Connecting") as Hs by (vm_compute; reflexivity).
  destruct (error_stop_keeps_pending_keepalive rearmed (new_timer 2000) Hc Ht eq_refl Hr)
    as (H1 & _ & _ & s2 & H4 & H5 & _).
  split; [exact (err_run_reachable rearmed_trace init rearmed reachable_init Hrun)|].
  split; [exact Hs|]. split; [exact H1|].
  exists s2. exact (conj H4 H5).
Defined.

(** X19.  A reachable error endpoint that sits in [Timeout] with its
    worker polling needs two [PING]s to be [Connected] again: the first
    moves it to [Connecting] with socket state [Trying] (it resubscribes),
    the second to [Connected] with socket state [Up]. *)
Theorem error_timeout_recovers_with_two_pings :
  forall (s : t) (t1 t2 : string) (p1 p2 : Container),
    reachable s -> state s = "Timeout" ->
    worker_polls (threads s) (shutdown s) = true ->
    c_type p1 = Some MT_PING -> c_type p2 = Some MT_PING ->
    exists s1 s2,
      handle (Receive t1 p1) s = Some s1
      /\ state s1 = "Connecting" /\ socket_state s1 = "Trying"
      /\ connected s1 = false
      /\ handle (Receive t2 p2) s1 = Some s2
      /\ state s2 = "Connected" /\ socket_state s2 = "Up" /\ connected s2 = true.
Proof.
  intros s t1 t2 p1 p2 Hr Hst Hp Hp1 Hp2.
  pose proof (err_reachable_up s Hr) as Hup.
  pose proof (reachable_agrees s Hr) as Hag.
  assert (socket_state s <> "Up") as Hns
    by (intros E; apply Hup in E; congruence).
  assert (connected s = false) as Hc.
  { destruct (connected s) eqn:E; [|done].
    destruct Hag as [Hag _]. specialize (Hag eq_refl). congruence. }
  set (s1 := process_error t1 p1 s).
  assert (state s1 = "Connecting" /\ socket_state s1 = "Trying"
          /\ connected s1 = false
          /\ threads s1 = threads s /\ shutdown s1 = shutdown s)
    as (A1 & A2 & A3 & A4 & A5).
  { unfold s1. rewrite process_error_ping by done.
    assert (forall x : t,
              connected (arm (c_pparams p1) x) = connected x
              /\ state (arm (c_pparams p1) x) = state x
              /\ socket_state (arm (c_pparams p1) x) = socket_state x) as Harm.
    { intros x. destruct (c_pparams p1) as [i|]; [|done]. cbn [arm].
      by destruct (start_error_heartbeat_frame (i * 2) x) as (-> & -> & -> & _). }
    destruct (Harm (ping_branch (set_rx p1 s))) as (-> & -> & ->).
    destruct (arm_workers (c_pparams p1) (ping_branch (set_rx p1 s))) as [-> ->].
    destruct (ping_branch_workers (set_rx p1 s)) as [-> ->].
    unfold ping_branch. cbn [socket_state state set_rx].
    destruct (String.eqb_spec (socket_state s) "Up") as [E|_]; [done|].
    rewrite Hst. cbn [String.eqb Ascii.eqb Bool.eqb].
    destruct (error_resubscribe p1 s Hc) as (R1 & R2 & R3 & _).
    exact (conj R1 (conj R2 (conj R3 (conj eq_refl eq_refl)))). }
  set (s2 := process_error t2 p2 s1).
  assert (state s2 = "Connected" /\ socket_state s2 = "Up" /\ connected s2 = true)
    as (B1 & B2 & B3).
  { unfold s2. rewrite process_error_ping by done.
    assert (forall x : t,
              connected (arm (c_pparams p2) x) = connected x
              /\ state (arm (c_pparams p2) x) = state x
              /\ socket_state (arm (c_pparams p2) x) = socket_state x) as Harm.
    { intros x. destruct (c_pparams p2) as [i|]; [|done]. cbn [arm].
      by destruct (start_error_heartbeat_frame (i * 2) x) as (-> & -> & -> & _). }
    destruct (Harm (ping_branch (set_rx p2 s1))) as (-> & -> & ->).
    unfold ping_branch. cbn [socket_state state set_rx].
    rewrite A1, A2. cbn [String.eqb Ascii.eqb Bool.eqb].
    pose proof (update_state_view "Connected" (set_socket_state "Up" (set_rx p2 s1)))
      as Hv.
    cbn [state set_socket_state set_rx] in Hv. rewrite A1 in Hv.
    cbn [String.eqb Ascii.eqb Bool.eqb] in Hv.
    apply view_proj in Hv as (-> & -> & -> & _). done. }
  exists s1, s2.
  split; [cbn [handle]; by rewrite Hp|].
  split; [exact A1|]. split; [exact A2|]. split; [exact A3|].
  split; [cbn [handle]; by rewrite A4, A5, Hp|].
  done.
Qed.

Lemma error_timeout_recovers_with_two_pings_witness :
  exists s1 s2,
    handle (Receive "" (ping None)) timed_out = Some s1
    /\ state s1 = "Connecting" /\ socket_state s1 = "Trying"
    /\ connected s1 = false
    /\ handle (Receive "" (ping None)) s1 = Some s2
    /\ state s2 = "Connected" /\ socket_state s2 = "Up" /\ connected s2 = true.
Proof.
  apply (error_timeout_recovers_with_two_pings timed_out "" "" (ping None) (ping None)).
  - apply error_timed_out_reachable.
  - vm_compute. reflexivity.
  - vm_compute. reflexivity.
  - reflexivity.
  - reflexivity.
Defined.

(** X20.  In every reachable state of the error endpoint the socket state
    is [Up] exactly when the public state is [Connected]. *)
Theorem error_socket_up_iff_connected :
  forall s : t, reachable s -> (socket_state s = "Up" <-> state s = "Connected").
Proof. intros s Hr. exact (err_reachable_up s Hr). Qed.

Lemma error_socket_up_iff_connected_witness :
  socket_state timed_out = "Up" <-> state timed_out = "Connected".
Proof.
  apply (error_socket_up_iff_connected timed_out). apply error_timed_out_reachable.
Defined.

End ErrorExtras.
